(** * BirdWeather client and local cache: a shallow embedding

    This development embeds the two Python modules of the BirdWeather
    data pipeline,

      - [fetch_data.py]: the GraphQL client (retrying transport, station
        resolution, the paginated and single-shot fetchers), and
      - [data_store.py]: the Parquet cache (incremental syncs) and the
        local aggregations,

    and proves the properties stated for them.

    Conventions.  Python objects and decoded JSON are terms of [value];
    a Polars [DataFrame] is a schema (ordered, typed column names) with a
    list of rows, each row a finite map from column name to cell; Python
    exceptions are the error side of [result]; everything that touches the
    network, the clock, the environment or the file system threads a
    [World].  Console output ([print]) is not part of the modelled state. *)

From Stdlib Require Import ZArith List String Ascii Bool Lia Permutation Sorted.
From stdpp Require Import gmap strings list fin_maps.

Local Open Scope string_scope.
Local Open Scope Z_scope.

(** ** Values *)

(** A Python object as the program meets it: JSON scalars, lists and
    dicts, and the two temporal cell types Polars produces.  A float is
    carried by an opaque binary64 pattern; a date is a day count and a
    datetime a microsecond count, both from the Unix epoch (UTC). *)
#[local] Unset Elimination Schemes.
Inductive value : Type :=
| VNull
| VBool (b : bool)
| VInt (z : Z)
| VFloat (bits : Z)
| VStr (s : string)
| VDate (days : Z)
| VDatetime (us : Z)
| VList (items : list value)
| VStruct (fields : list (string * value)).
#[local] Set Elimination Schemes.

Fixpoint value_eqb (a b : value) {struct a} : bool :=
  match a, b with
  | VNull, VNull => true
  | VBool x, VBool y => Bool.eqb x y
  | VInt x, VInt y => Z.eqb x y
  | VFloat x, VFloat y => Z.eqb x y
  | VStr x, VStr y => String.eqb x y
  | VDate x, VDate y => Z.eqb x y
  | VDatetime x, VDatetime y => Z.eqb x y
  | VList xs, VList ys =>
      (fix go (xs ys : list value) {struct xs} : bool :=
         match xs, ys with
         | [], [] => true
         | x :: xs', y :: ys' => value_eqb x y && go xs' ys'
         | _, _ => false
         end) xs ys
  | VStruct xs, VStruct ys =>
      (fix go (xs ys : list (string * value)) {struct xs} : bool :=
         match xs, ys with
         | [], [] => true
         | (k, x) :: xs', (k', y) :: ys' =>
             String.eqb k k' && value_eqb x y && go xs' ys'
         | _, _ => false
         end) xs ys
  | _, _ => false
  end.

(** Induction over [value] that reaches inside lists and dicts. *)
Section value_induction.
Variable P : value -> Prop.
Hypothesis HNull : P VNull.
Hypothesis HBool : forall b, P (VBool b).
Hypothesis HInt : forall z, P (VInt z).
Hypothesis HFloat : forall f, P (VFloat f).
Hypothesis HStr : forall s, P (VStr s).
Hypothesis HDate : forall d, P (VDate d).
Hypothesis HDatetime : forall t, P (VDatetime t).
Hypothesis HList : forall l, Forall P l -> P (VList l).
Hypothesis HStruct : forall kv, Forall (fun p => P (snd p)) kv -> P (VStruct kv).

Fixpoint value_nested_ind (v : value) : P v :=
  match v with
  | VNull => HNull
  | VBool b => HBool b
  | VInt z => HInt z
  | VFloat f => HFloat f
  | VStr s => HStr s
  | VDate d => HDate d
  | VDatetime t => HDatetime t
  | VList l =>
      HList l
        ((fix go (l : list value) : Forall P l :=
            match l with
            | [] => @List.Forall_nil _ P
            | x :: l' => @List.Forall_cons _ P x l' (value_nested_ind x) (go l')
            end) l)
  | VStruct kv =>
      HStruct kv
        ((fix go (kv : list (string * value)) : Forall (fun p => P (snd p)) kv :=
            match kv with
            | [] => @List.Forall_nil _ _
            | p :: kv' =>
                @List.Forall_cons _ _ p kv' (value_nested_ind (snd p)) (go kv')
            end) kv)
  end.
End value_induction.

Lemma value_eqb_eq (a b : value) : value_eqb a b = true <-> a = b.
Proof.
  revert b. induction a using value_nested_ind; intros b'; destruct b'; simpl;
    try (split; [discriminate | discriminate]);
    try (split; [intros _; reflexivity | reflexivity]).
  - rewrite Bool.eqb_true_iff. split; congruence.
  - rewrite Z.eqb_eq. split; congruence.
  - rewrite Z.eqb_eq. split; congruence.
  - rewrite String.eqb_eq. split; congruence.
  - rewrite Z.eqb_eq. split; congruence.
  - rewrite Z.eqb_eq. split; congruence.
  - revert items. induction H as [|x xs Hx _ IH]; intros [|y ys]; simpl;
      try (split; [discriminate | discriminate]); [split; reflexivity|].
    rewrite andb_true_iff, Hx, IH. split.
    + intros [-> E]. congruence.
    + intros E. injection E as -> ->. split; reflexivity.
  - revert fields. induction H as [|[k x] xs Hx _ IH]; intros [|[k' y] ys]; simpl;
      try (split; [discriminate | discriminate]); [split; reflexivity|].
    simpl in Hx. rewrite !andb_true_iff, String.eqb_eq, Hx, IH. split.
    + intros [[-> ->] E]. congruence.
    + intros E. injection E as -> -> ->. repeat split; reflexivity.
Qed.

#[global] Instance value_eq_dec : EqDecision value.
Proof.
  intros a b. destruct (value_eqb a b) eqn:E.
  - left. apply value_eqb_eq, E.
  - right. intros H. apply value_eqb_eq in H. congruence.
Defined.

(** ** Python operations on values *)

(** The exceptions the two modules can raise or let through. *)
Inductive exn : Type :=
| Timeout                      (* requests.exceptions.Timeout *)
| ConnectionError              (* requests.exceptions.ConnectionError *)
| RequestException             (* any other failure of post, raise_for_status or json() *)
| RuntimeError (payload : value)   (* "GraphQL errors: ..." *)
| KeyError (key : string)
| TypeError
| AttributeError
| ValueError
| ColumnNotFoundError (name : string)
| SchemaError
| ComputeError
| DuplicateError
| RecursionError.

Inductive result (A : Type) : Type :=
| Ok (a : A)
| Raise (e : exn).
Arguments Ok {A} a.
Arguments Raise {A} e.

Definition rbind {A B} (r : result A) (k : A -> result B) : result B :=
  match r with
  | Ok a => k a
  | Raise e => Raise e
  end.

Declare Scope result_scope.
Delimit Scope result_scope with result.
Notation "'let?' x := c 'in' k" := (rbind c (fun x => k))
  (at level 10, x pattern, c at level 100, k at level 200) : result_scope.

Fixpoint rmap {A B} (f : A -> result B) (l : list A) : result (list B) :=
  match l with
  | [] => Ok []
  | x :: l' =>
      (let? y := f x in
       let? ys := rmap f l' in
       Ok (y :: ys))%result
  end.

(** Python truthiness ([if x:], [x or y], [not x]). *)
Definition truthy (v : value) : bool :=
  match v with
  | VNull => false
  | VBool b => b
  | VInt z => negb (z =? 0)
  | VFloat bits => negb ((bits =? 0) || (bits =? 2 ^ 63))   (* 0.0 and -0.0 *)
  | VStr s => negb (String.eqb s "")
  | VDate _ | VDatetime _ => true
  | VList l => match l with [] => false | _ => true end
  | VStruct kv => match kv with [] => false | _ => true end
  end.

Definition str_truthy (s : option string) : bool :=
  match s with
  | Some s => negb (String.eqb s "")
  | None => false
  end.

(** Dict lookup on the key-ordered representation of a dict (keys of a
    decoded JSON object are distinct). *)
Fixpoint assoc {A} (k : string) (kv : list (string * A)) : option A :=
  match kv with
  | [] => None
  | (k', v) :: kv' => if String.eqb k k' then Some v else assoc k kv'
  end.

(** [v[k]] for a string key. *)
Definition getitem (v : value) (k : string) : result value :=
  match v with
  | VStruct kv =>
      match assoc k kv with
      | Some x => Ok x
      | None => Raise (KeyError k)
      end
  | _ => Raise TypeError
  end.

(** [v.get(k, d)]; [v.get(k)] is [get_default v k VNull]. *)
Definition get_default (v : value) (k : string) (d : value) : result value :=
  match v with
  | VStruct kv =>
      match assoc k kv with
      | Some x => Ok x
      | None => Ok d
      end
  | _ => Raise AttributeError
  end.

Definition get (v : value) (k : string) : result value := get_default v k VNull.

(** [x or y] *)
Definition py_or (x y : value) : value := if truthy x then x else y.

Fixpoint chars (s : string) : list value :=
  match s with
  | EmptyString => []
  | String c s' => VStr (String c EmptyString) :: chars s'
  end.

(** The items a [for] loop visits: list elements, dict keys, the
    characters of a string; anything else is not iterable. *)
Definition py_iter (v : value) : result (list value) :=
  match v with
  | VList l => Ok l
  | VStruct kv => Ok (map (fun p => VStr (fst p)) kv)
  | VStr s => Ok (chars s)
  | _ => Raise TypeError
  end.

(** [s.replace(a, b)], every non-overlapping occurrence, left to right. *)
Fixpoint str_replace_fuel (fuel : nat) (a b s : string) : string :=
  match fuel with
  | O => s
  | S fuel' =>
      match s with
      | EmptyString => EmptyString
      | String c s' =>
          if String.prefix a s
          then String.append b (str_replace_fuel fuel'
                      a b (String.substring (String.length a)
                                            (String.length s - String.length a) s))
          else String c (str_replace_fuel fuel' a b s')
      end
  end.

Definition str_replace (a b s : string) : string :=
  if String.eqb a "" then s else str_replace_fuel (String.length s) a b s.

(** [s.isdigit()], on ASCII. *)
Definition is_digit (c : ascii) : bool :=
  let n := nat_of_ascii c in (48 <=? n)%nat && (n <=? 57)%nat.

Fixpoint all_digits (s : string) : bool :=
  match s with
  | EmptyString => true
  | String c s' => is_digit c && all_digits s'
  end.

Definition isdigit (s : string) : bool :=
  negb (String.eqb s "") && all_digits s.

(** ** Polars frames *)

Inductive dtype : Type :=
| Null | Boolean | Int64 | UInt32 | Float64 | Utf8 | Date | Datetime | ListT | StructT.

#[global] Instance dtype_eq_dec : EqDecision dtype.
Proof. solve_decision. Defined.

(** A row maps each column name to its cell. *)
Abbreviation row := (gmap string value).

Record DataFrame : Type := mkFrame {
  schema : list (string * dtype);
  rows : list row
}.

(** [pl.DataFrame(schema={...})]: the explicitly typed table without rows. *)
Definition empty_frame (sch : list (string * dtype)) : DataFrame :=
  mkFrame sch [].

Definition height (df : DataFrame) : nat := length (rows df).
Definition columns (df : DataFrame) : list string := map fst (schema df).
Definition has_column (df : DataFrame) (c : string) : bool :=
  bool_decide (c ∈ columns df).

Definition cell (r : row) (c : string) : value := default VNull (r !! c).

(** [df[c].dtype] *)
Definition column_dtype (df : DataFrame) (c : string) : result dtype :=
  match assoc c (schema df) with
  | Some t => Ok t
  | None => Raise (ColumnNotFoundError c)
  end.

(** [df[c]]: the cells of one column, top to bottom. *)
Definition column (df : DataFrame) (c : string) : result (list value) :=
  (let? _ := column_dtype df c in Ok (map (fun r => cell r c) (rows df)))%result.

(** *** Construction from a list of dicts *)

Definition dtype_of (v : value) : dtype :=
  match v with
  | VNull => Null
  | VBool _ => Boolean
  | VInt _ => Int64
  | VFloat _ => Float64
  | VStr _ => Utf8
  | VDate _ => Date
  | VDatetime _ => Datetime
  | VList _ => ListT
  | VStruct _ => StructT
  end.

Definition supertype (a b : dtype) : dtype :=
  match a, b with
  | Null, t => t
  | t, Null => t
  | Int64, Float64 | Float64, Int64 => Float64
  | t, _ => t
  end.

(** The column type Polars infers from Python values: nulls leave it
    open, integers widen to floats, otherwise the first value decides. *)
Definition infer_dtype (vs : list value) : dtype :=
  fold_left (fun t v => supertype t (dtype_of v)) vs Null.

Definition dict := list (string * value).

Definition dict_get (d : dict) (c : string) : value := default VNull (assoc c d).

Definition dict_row (cols : list string) (d : dict) : row :=
  list_to_map (map (fun c => (c, dict_get d c)) cols).

(** [pl.DataFrame(rows)] for a list of dicts built with the same keys.
    An empty list gives the table with no rows and no columns. *)
Definition from_dicts (ds : list dict) : DataFrame :=
  match ds with
  | [] => mkFrame [] []
  | d :: _ =>
      let cols := map fst d in
      mkFrame
        (map (fun c => (c, infer_dtype (map (fun d => dict_get d c) ds))) cols)
        (map (dict_row cols) ds)
  end.

(** *** Column operations *)

Fixpoint set_dtype (c : string) (t : dtype) (sch : list (string * dtype))
  : list (string * dtype) :=
  match sch with
  | [] => [(c, t)]
  | (c', t') :: sch' =>
      if String.eqb c c' then (c, t) :: sch' else (c', t') :: set_dtype c t sch'
  end.

(** [df.with_columns(expr.alias(c))]: replaces column [c] in place, or
    appends it as the last column. *)
Definition with_column (c : string) (t : dtype) (f : row -> value)
    (df : DataFrame) : DataFrame :=
  mkFrame (set_dtype c t (schema df)) (map (fun r => <[c := f r]> r) (rows df)).

(** [df.with_columns(pl.lit(None).cast(t).alias(c))] *)
Definition with_null_column (c : string) (t : dtype) (df : DataFrame) : DataFrame :=
  with_column c t (fun _ => VNull) df.

Definition project (cols : list string) (r : row) : row :=
  list_to_map (map (fun c => (c, cell r c)) cols).

(** [df.select(cols)] for a list of column names. *)
Definition select (cols : list string) (df : DataFrame) : result DataFrame :=
  (let? sch := rmap (fun c => let? t := column_dtype df c in Ok (c, t)) cols in
   if bool_decide (NoDup cols)
   then Ok (mkFrame sch (map (project cols) (rows df)))
   else Raise DuplicateError)%result.

(** [pl.concat([a, b])] (vertical): both schemas must agree. *)
Definition concat (a b : DataFrame) : result DataFrame :=
  if decide (schema a = schema b)
  then Ok (mkFrame (schema a) (rows a ++ rows b))
  else Raise SchemaError.

(** [df.filter(p)] *)
Definition filter_rows (p : row -> bool) (df : DataFrame) : DataFrame :=
  mkFrame (schema df) (List.filter p (rows df)).

(** [df.head(n)]; a negative [n] drops the last [|n|] rows. *)
Definition head_rows (n : Z) (df : DataFrame) : DataFrame :=
  mkFrame (schema df)
    (if 0 <=? n then take (Z.to_nat n) (rows df)
     else take (length (rows df) - Z.to_nat (- n)) (rows df)).

(** *** Ordering, sorting and deduplication *)

Definition rank (v : value) : nat :=
  match v with
  | VNull => 0 | VBool _ => 1 | VInt _ => 2 | VFloat _ => 3 | VStr _ => 4
  | VDate _ => 5 | VDatetime _ => 6 | VList _ => 7 | VStruct _ => 8
  end%nat.

(** The order a sort uses inside one column: nulls first, then the
    natural order of the cell type.  (Cells of different types never
    share a column; they are ordered by type only to keep the relation
    total.) *)
Definition value_compare (a b : value) : comparison :=
  match a, b with
  | VBool x, VBool y => Nat.compare (if x then 1 else 0) (if y then 1 else 0)
  | VInt x, VInt y => Z.compare x y
  | VFloat x, VFloat y => Z.compare x y
  | VStr x, VStr y => String.compare x y
  | VDate x, VDate y => Z.compare x y
  | VDatetime x, VDatetime y => Z.compare x y
  | _, _ => Nat.compare (rank a) (rank b)
  end.

Definition value_ltb (a b : value) : bool :=
  match value_compare a b with Lt => true | _ => false end.

Definition value_leb (a b : value) : bool := negb (value_ltb b a).

(** Comparison of two rows on one sort column.  With [descending] the
    order of non-null cells is reversed; nulls still come first. *)
Definition cell_ltb (descending : bool) (a b : value) : bool :=
  match a, b with
  | VNull, VNull => false
  | VNull, _ => true
  | _, VNull => false
  | _, _ => if descending then value_ltb b a else value_ltb a b
  end.

(** Lexicographic "not after" on the sort columns. *)
Fixpoint row_leb (by_ : list (string * bool)) (r1 r2 : row) : bool :=
  match by_ with
  | [] => true
  | (c, desc) :: by' =>
      if cell_ltb desc (cell r1 c) (cell r2 c) then true
      else if cell_ltb desc (cell r2 c) (cell r1 c) then false
      else row_leb by' r1 r2
  end.

Fixpoint insert_sorted {A} (le : A -> A -> bool) (x : A) (l : list A) : list A :=
  match l with
  | [] => [x]
  | y :: l' => if le x y then x :: l else y :: insert_sorted le x l'
  end.

(** A stable sort; rows with equal keys keep their relative order. *)
Definition sort_list {A} (le : A -> A -> bool) (l : list A) : list A :=
  fold_right (insert_sorted le) [] l.

(** The [keep] argument of [unique]; Polars' default is ["any"]. *)
Inductive keep_strategy : Type := KeepFirst | KeepLast | KeepAny.

Definition key_of (subset : list string) (r : row) : list value :=
  map (cell r) subset.

Fixpoint keep_last {A K} `{EqDecision K} (key : A -> K) (l : list A) : list A :=
  match l with
  | [] => []
  | x :: l' =>
      if bool_decide (key x ∈ map key l') then keep_last key l'
      else x :: keep_last key l'
  end.

Fixpoint keep_first_from {A K} `{EqDecision K} (key : A -> K) (seen : list K)
    (l : list A) : list A :=
  match l with
  | [] => []
  | x :: l' =>
      if bool_decide (key x ∈ seen) then keep_first_from key seen l'
      else x :: keep_first_from key (key x :: seen) l'
  end.

Definition keep_first {A K} `{EqDecision K} (key : A -> K) (l : list A) : list A :=
  keep_first_from key [] l.

(** ** The world: network, clock, environment and files *)

(** The GraphQL documents the client sends, by operation name. *)
Inductive query : Type :=
| FindStation | StationOverview | TopSpecies | DailyDetections
| TimeOfDay | EnvHistory | Probabilities | Detections.

(** What [requests.post] is given: the JSON payload (the query and, when
    truthy, its variables) and the bearer token of the headers. *)
Record request : Type := mkRequest {
  req_query : query;
  req_variables : option dict;
  req_bearer : option string
}.

(** What one [requests.post(...)], [raise_for_status()], [json()]
    sequence comes to. *)
Inductive http_outcome : Type :=
| HttpTimeout
| HttpConnectionError
| HttpFailure                 (* HTTP status error, undecodable body, ... *)
| HttpJson (body : value).

Inductive event : Type :=
| Post (r : request)
| Sleep (seconds : Z).

Record file : Type := mkFile {
  content : DataFrame;
  mtime : Z                   (* microseconds since the epoch *)
}.

(** [remote] is the behaviour of the network and of the server: its
    answer to a request, given everything the process did before.
    [log] lists the posts and sleeps so far, oldest first. *)
Record World : Type := mkWorld {
  remote : list event -> request -> http_outcome;
  log : list event;
  clock : Z;                              (* microseconds since the epoch *)
  env_token : option string;              (* BIRDWEATHER_TOKEN *)
  env_station_id : option string;         (* BIRDWEATHER_STATION_ID *)
  station_cache : gmap string string;     (* _station_numeric_id_cache *)
  data_dir : bool;                        (* DATA_DIR exists *)
  files : gmap string file                (* the files under DATA_DIR *)
}.

Definition record_event (e : event) (w : World) : World :=
  mkWorld (remote w) (log w ++ [e]) (clock w) (env_token w) (env_station_id w)
          (station_cache w) (data_dir w) (files w).

(** [time.sleep(s)] *)
Definition sleep (s : Z) (w : World) : World :=
  mkWorld (remote w) (log w ++ [Sleep s]) (clock w + s * 1000000) (env_token w)
          (env_station_id w) (station_cache w) (data_dir w) (files w).

Definition cache_station (token numeric_id : string) (w : World) : World :=
  mkWorld (remote w) (log w) (clock w) (env_token w) (env_station_id w)
          (<[token := numeric_id]> (station_cache w)) (data_dir w) (files w).

(** [DATA_DIR.mkdir(parents=True, exist_ok=True)] *)
Definition ensure_data_dir (w : World) : World :=
  mkWorld (remote w) (log w) (clock w) (env_token w) (env_station_id w)
          (station_cache w) true (files w).

(** [df.write_parquet(path)]: the file is created or replaced, stamped
    with the time of the write. *)
Definition write_parquet (path : string) (df : DataFrame) (w : World) : World :=
  mkWorld (remote w) (log w) (clock w) (env_token w) (env_station_id w)
          (station_cache w) (data_dir w)
          (<[path := mkFile df (clock w)]> (files w)).

(** [path.exists()] and [pl.read_parquet(path)] *)
Definition read_parquet (path : string) (w : World) : option DataFrame :=
  content <$> files w !! path.

Definition posts (l : list event) : list request :=
  omap (fun e => match e with Post r => Some r | Sleep _ => None end) l.

Definition sleeps (l : list event) : list Z :=
  omap (fun e => match e with Sleep s => Some s | Post _ => None end) l.

(** Computations that act on the world and may raise. *)
Definition M (A : Type) : Type := World -> result A * World.

Definition ret {A} (a : A) : M A := fun w => (Ok a, w).
Definition raise {A} (e : exn) : M A := fun w => (Raise e, w).
Definition lift {A} (r : result A) : M A := fun w => (r, w).
Definition bind {A B} (c : M A) (k : A -> M B) : M B :=
  fun w =>
    match c w with
    | (Ok a, w') => k a w'
    | (Raise e, w') => (Raise e, w')
    end.

Declare Scope world_scope.
Delimit Scope world_scope with world.
Notation "'let*' x := c 'in' k" := (bind c (fun x => k))
  (at level 10, x pattern, c at level 100, k at level 200) : world_scope.

(** ** fetch_data.py *)

(** The default of [query_graphql]'s [retries] argument; no caller
    overrides it. *)
Definition DEFAULT_RETRIES : Z := 3.

(** [get_token()] *)
Definition get_token (w : World) : option string :=
  if str_truthy (env_token w) then env_token w else env_station_id w.

Definition build_request (q : query) (variables : option dict) (w : World) : request :=
  mkRequest q
    (match variables with
     | Some (_ :: _ as vars) => Some vars
     | _ => None
     end)
    (if str_truthy (get_token w) then get_token w else None).

(** The [for attempt in range(retries)] loop of [query_graphql], from
    attempt number [attempt] with [fuel] iterations left. *)
Fixpoint query_attempts (fuel : nat) (attempt retries : Z) (req : request)
  : M value :=
  fun w =>
    match fuel with
    | O => (Ok VNull, w)      (* the loop ran out: the function returns None *)
    | S fuel' =>
        let w1 := record_event (Post req) w in
        match remote w (log w) req with
        | HttpJson body =>
            match body with
            | VStruct kv =>
                match assoc "errors" kv with
                | Some errors => (Raise (RuntimeError errors), w1)
                | None => (getitem body "data", w1)
                end
            | _ => (Raise TypeError, w1)
            end
        | HttpTimeout =>
            if attempt <? retries - 1
            then query_attempts fuel' (attempt + 1) retries req (sleep (2 ^ attempt) w1)
            else (Raise Timeout, w1)
        | HttpConnectionError =>
            if attempt <? retries - 1
            then query_attempts fuel' (attempt + 1) retries req (sleep (2 ^ attempt) w1)
            else (Raise ConnectionError, w1)
        | HttpFailure => (Raise RequestException, w1)
        end
    end.

(** [query_graphql(query, variables, retries)] *)
Definition query_graphql (q : query) (variables : option dict) (retries : Z)
  : M value :=
  fun w => query_attempts (Z.to_nat retries) 0 retries (build_request q variables w) w.

(** [x[0]] *)
Definition index0 (v : value) : result value :=
  match v with
  | VList (x :: _) => Ok x
  | VList [] => Raise (KeyError "0")        (* IndexError *)
  | VStr (String c _) => Ok (VStr (String c EmptyString))
  | VStr EmptyString => Raise (KeyError "0")
  | VStruct _ => Raise (KeyError "0")
  | _ => Raise TypeError
  end.

(** The rows of [pl.DataFrame(list_of_dicts)] must be dicts. *)
Definition as_dict (v : value) : result dict :=
  match v with
  | VStruct kv => Ok kv
  | _ => Raise TypeError
  end.

(** [variables] with the optional entries that are only added when
    truthy. *)
Definition optional_entry (k : string) (v : value) : dict :=
  if truthy v then [(k, v)] else [].

Section Program.

(** *** Library primitives

    Functions of Python and Polars whose results the program only
    passes on or compares. *)

(** [datetime.fromisoformat(s)], as the instant it denotes
    (microseconds since the epoch); [None] where Python raises. *)
Variable fromisoformat : string -> option Z.
(** [str.to_datetime("%+")] on one cell. *)
Variable to_datetime : string -> option Z.
(** [str.to_date("%Y-%m-%d")] on one cell (days since the epoch). *)
Variable to_date : string -> option Z.
(** [str(x)] *)
Variable str_of : value -> string.
(** [float(x)] *)
Variable py_float : value -> result value.
(** [Expr.mean()] over the cells of one group. *)
Variable mean : list value -> value.
(** [dt.ordinal_day()] of a date. *)
Variable ordinal_day : Z -> Z.
(** [get_species_by_ids], imported by data_store.py from fetch_data. *)
Variable get_species_by_ids : list value -> M DataFrame.
(** [strftime("%Y-%m-%dT%H:%M:%SZ")] of an instant. *)
Variable strftime : Z -> string.
(** The binary64 pattern of an integer, for [cast(pl.Float64)]. *)
Variable float_bits : Z -> Z.

(** *** What Polars leaves open

    The program calls [unique], [group_by] and [sort] without
    [maintain_order].  Polars then promises no order for the rows that
    [unique] and [group_by] return, nor for rows that [sort] finds equal
    on the sort columns; and with its default [keep="any"], [unique]
    promises no particular row of a group of duplicates either.  These
    choices are the library's, and the properties below hold whatever
    they are.  [unique_pick g] is the position (taken modulo the size of
    [g]) of the row retained of a group [g] of rows with equal keys;
    [row_order l i] is the rank the library gives to the [i]-th of the
    rows [l] it is about to return. *)
Variable unique_pick : list row -> nat.
Variable row_order : list row -> nat -> Z.

(** The row retained of a group [g] of duplicates. *)
Definition picked (g : list row) : list row :=
  match g with
  | [] => []
  | r :: _ => [nth (unique_pick g mod length g)%nat g r]
  end.

(** [keep="any"]: one row of each group of rows with equal keys. *)
Definition keep_any (key : row -> list value) (l : list row) : list row :=
  flat_map (fun k => picked (List.filter (fun r => bool_decide (key r = k)) l))
           (keep_first (fun k => k) (map key l)).

(** The rows [l] in the order the library gives them: by ascending
    rank. *)
Definition arrange (l : list row) : list row :=
  map snd
      (sort_list (fun a b => row_order l (fst a) <=? row_order l (fst b))
                 (combine (seq 0 (length l)) l)).

(** [df.sort(c1, c2, ..., descending=...)]: ascending on the sort
    columns; rows that are equal on them come in the library's order. *)
Definition sort_by (by_ : list (string * bool)) (df : DataFrame) : result DataFrame :=
  (let? _ := rmap (fun p => column_dtype df (fst p)) by_ in
   Ok (mkFrame (schema df) (sort_list (row_leb by_) (arrange (rows df)))))%result.

(** [df.sort(c)] *)
Definition sort (c : string) (df : DataFrame) : result DataFrame :=
  sort_by [(c, false)] df.

(** [df.unique(subset=..., keep=...)] *)
Definition unique (subset : list string) (keep : keep_strategy) (df : DataFrame)
  : result DataFrame :=
  (let? _ := rmap (column_dtype df) subset in
   Ok (mkFrame (schema df)
         (arrange (match keep with
                   | KeepFirst => keep_first (key_of subset) (rows df)
                   | KeepLast => keep_last (key_of subset) (rows df)
                   | KeepAny => keep_any (key_of subset) (rows df)
                   end))))%result.

(** [df.with_columns(pl.col(c).str.to_datetime("%+"))] and
    [... .str.to_date("%Y-%m-%d")]: a strict conversion of a string
    column. *)
Definition parse_cell (parse : string -> option Z) (mk : Z -> value)
    (v : value) : result value :=
  match v with
  | VNull => Ok VNull
  | VStr s =>
      match parse s with
      | Some t => Ok (mk t)
      | None => Raise ComputeError
      end
  | _ => Raise SchemaError
  end.

Definition str_convert (c : string) (t : dtype) (parse : string -> option Z)
    (mk : Z -> value) (df : DataFrame) : result DataFrame :=
  (let? t0 := column_dtype df c in
   if decide (t0 = Utf8) then
     let? rs := rmap (fun r => let? v := parse_cell parse mk (cell r c) in
                               Ok (<[c := v]> r)) (rows df) in
     Ok (mkFrame (set_dtype c t (schema df)) rs)
   else Raise SchemaError)%result.

Definition str_to_datetime (c : string) : DataFrame -> result DataFrame :=
  str_convert c Datetime to_datetime VDatetime.

Definition str_to_date (c : string) : DataFrame -> result DataFrame :=
  str_convert c Date to_date VDate.

(** *** Station resolution *)

(** [resolve_station_numeric_id(token)] *)
Definition resolve_station_numeric_id (token : string) : M string :=
  fun w =>
    match station_cache w !! token with
    | Some numeric_id => (Ok numeric_id, w)
    | None =>
        (let* data := query_graphql FindStation (Some [("query", VStr token)])
                        DEFAULT_RETRIES in
         let* stations := lift (get_default data "stations" (VStruct [])) in
         let* nodes := lift (get_default stations "nodes" (VList [])) in
         if negb (truthy nodes) then raise ValueError
         else
           let* first := lift (index0 nodes) in
           let* id := lift (getitem first "id") in
           fun w' => (Ok (str_of id), cache_station token (str_of id) w'))%world w
    end.

(** [get_station_id()] *)
Definition get_station_id : M string :=
  fun w =>
    match env_station_id w with
    | Some token =>
        if String.eqb token "" then (Raise ValueError, w)
        else if isdigit token then (Ok token, w)
        else resolve_station_numeric_id token w
    | None => (Raise ValueError, w)
    end.

(** [station_id or get_station_id()] *)
Definition station_or_env (station_id : option string) : M string :=
  match station_id with
  | Some s => if String.eqb s "" then get_station_id else ret s
  | None => get_station_id
  end.


(** *** Top species *)

Definition top_species_row (sp : value) : result dict :=
  (let? species := getitem sp "species" in
   let? breakdown := get sp "breakdown" in
   let bd := py_or breakdown (VStruct []) in
   let? speciesId := getitem sp "speciesId" in
   let? commonName := getitem species "commonName" in
   let? scientificName := getitem species "scientificName" in
   let? imageUrl := get species "imageUrl" in
   let? thumbnailUrl := get species "thumbnailUrl" in
   let? color := get species "color" in
   let? ebirdUrl := get species "ebirdUrl" in
   let? wikipediaSummary := get species "wikipediaSummary" in
   let? count := getitem sp "count" in
   let? almostCertain := get_default bd "almostCertain" (VInt 0) in
   let? veryLikely := get_default bd "veryLikely" (VInt 0) in
   let? uncertain := get_default bd "uncertain" (VInt 0) in
   let? unlikely := get_default bd "unlikely" (VInt 0) in
   let? averageProbability := get sp "averageProbability" in
   Ok [("speciesId", speciesId);
       ("commonName", commonName);
       ("scientificName", scientificName);
       ("imageUrl", imageUrl);
       ("thumbnailUrl", thumbnailUrl);
       ("color", color);
       ("ebirdUrl", ebirdUrl);
       ("wikipediaSummary", wikipediaSummary);
       ("count", count);
       ("almostCertain", almostCertain);
       ("veryLikely", veryLikely);
       ("uncertain", uncertain);
       ("unlikely", unlikely);
       ("averageProbability", averageProbability)])%result.

(** [get_top_species(station_id, period, limit)] *)
Definition get_top_species (station_id : option string) (period : value)
    (limit : Z) : M DataFrame :=
  (let* station_id := station_or_env station_id in
   let variables :=
     ([("id", VStr station_id); ("limit", VInt limit)]
        ++ optional_entry "period" period)%list in
   let* data := query_graphql TopSpecies (Some variables) DEFAULT_RETRIES in
   let* rows :=
     lift (let? station := getitem data "station" in
           let? top := getitem station "topSpecies" in
           let? items := py_iter top in
           rmap top_species_row items)%result in
   ret (from_dicts rows))%world.

(** *** Daily detection counts *)

Definition DAILY_COUNTS_SCHEMA : list (string * dtype) :=
  [("date", Utf8); ("dayOfYear", Int64); ("dailyTotal", Int64);
   ("speciesId", Utf8); ("commonName", Utf8); ("count", Int64)].

Definition daily_count_row (day sp : value) : result dict :=
  (let? date := getitem day "date" in
   let? dayOfYear := getitem day "dayOfYear" in
   let? total := getitem day "total" in
   let? speciesId := getitem sp "speciesId" in
   let? species := getitem sp "species" in
   let? commonName := getitem species "commonName" in
   let? count := getitem sp "count" in
   Ok [("date", date);
       ("dayOfYear", dayOfYear);
       ("dailyTotal", total);
       ("speciesId", speciesId);
       ("commonName", commonName);
       ("count", count)])%result.

Definition daily_count_rows (day : value) : result (list dict) :=
  (let? counts := getitem day "counts" in
   let? items := py_iter counts in
   rmap (daily_count_row day) items)%result.

(** [get_daily_detection_counts(station_id, period)] *)
Definition get_daily_detection_counts (station_id : option string)
    (period : value) : M DataFrame :=
  (let* station_id := station_or_env station_id in
   let variables :=
     ([("stationIds", VList [VStr station_id])]
        ++ optional_entry "period" period)%list in
   let* data := query_graphql DailyDetections (Some variables) DEFAULT_RETRIES in
   let* rows :=
     lift (let? days := getitem data "dailyDetectionCounts" in
           let? items := py_iter days in
           let? per_day := rmap daily_count_rows items in
           Ok (List.concat per_day))%result in
   match rows with
   | [] => ret (empty_frame DAILY_COUNTS_SCHEMA)
   | _ => lift (str_to_date "date" (from_dicts rows))
   end)%world.

(** *** Time-of-day detection counts *)

Definition TIME_OF_DAY_SCHEMA : list (string * dtype) :=
  [("speciesId", Utf8); ("commonName", Utf8); ("totalCount", Int64);
   ("hour", Float64); ("count", Int64)].

Definition time_of_day_row (sp b : value) : result dict :=
  (let? speciesId := getitem sp "speciesId" in
   let? species := getitem sp "species" in
   let? commonName := getitem species "commonName" in
   let? totalCount := getitem sp "count" in
   let? key := getitem b "key" in
   let? hour := py_float key in
   let? count := getitem b "count" in
   Ok [("speciesId", speciesId);
       ("commonName", commonName);
       ("totalCount", totalCount);
       ("hour", hour);
       ("count", count)])%result.

Definition time_of_day_rows (sp : value) : result (list dict) :=
  (let? bins := getitem sp "bins" in
   let? items := py_iter bins in
   rmap (time_of_day_row sp) items)%result.

(** [get_time_of_day_counts(station_id, period)] *)
Definition get_time_of_day_counts (station_id : option string)
    (period : value) : M DataFrame :=
  (let* station_id := station_or_env station_id in
   let variables :=
     ([("id", VStr station_id)] ++ optional_entry "period" period)%list in
   let* data := query_graphql TimeOfDay (Some variables) DEFAULT_RETRIES in
   let* rows :=
     lift (let? station := getitem data "station" in
           let? counts := getitem station "timeOfDayDetectionCounts" in
           let? items := py_iter counts in
           let? per_species := rmap time_of_day_rows items in
           Ok (List.concat per_species))%result in
   match rows with
   | [] => ret (empty_frame TIME_OF_DAY_SCHEMA)
   | _ => ret (from_dicts rows)
   end)%world.


(** *** Environment sensor history *)

Definition ENVIRONMENT_SCHEMA : list (string * dtype) :=
  [("timestamp", Utf8); ("temperature", Float64); ("humidity", Float64);
   ("barometricPressure", Float64); ("soundPressureLevel", Float64);
   ("aqi", Float64); ("eco2", Float64); ("voc", Float64)].

(** The [for _ in range(max_pages)] loop of [get_environment_history]. *)
Fixpoint environment_pages (fuel : nat) (station_id : string) (period : value)
    (page_size : Z) (cursor : value) (all_nodes : list value)
  : M (list value) :=
  match fuel with
  | O => ret all_nodes
  | S fuel' =>
      (let variables :=
         ([("id", VStr station_id); ("first", VInt page_size)]
            ++ optional_entry "after" cursor
            ++ optional_entry "period" period)%list in
       let* data := query_graphql EnvHistory (Some variables) DEFAULT_RETRIES in
       let* hist :=
         lift (let? station := getitem data "station" in
               let? sensors := getitem station "sensors" in
               getitem sensors "environmentHistory")%result in
       let* nodes := lift (let? nodes := getitem hist "nodes" in py_iter nodes)%result in
       let all_nodes := (all_nodes ++ nodes)%list in
       let* has_next :=
         lift (let? info := getitem hist "pageInfo" in getitem info "hasNextPage")%result in
       if negb (truthy has_next) then ret all_nodes
       else
         let* cursor :=
           lift (let? info := getitem hist "pageInfo" in getitem info "endCursor")%result in
         environment_pages fuel' station_id period page_size cursor all_nodes)%world
  end.

(** [get_environment_history(station_id, period, page_size, max_pages)] *)
Definition get_environment_history (station_id : option string) (period : value)
    (page_size max_pages : Z) : M DataFrame :=
  (let* station_id := station_or_env station_id in
   let* all_nodes :=
     environment_pages (Z.to_nat max_pages) station_id period page_size VNull [] in
   match all_nodes with
   | [] => ret (empty_frame ENVIRONMENT_SCHEMA)
   | _ =>
       lift (let? dicts := rmap as_dict all_nodes in
             str_to_datetime "timestamp" (from_dicts dicts))%result
   end)%world.

(** *** Species probabilities *)

Definition PROBABILITIES_SCHEMA : list (string * dtype) :=
  [("speciesId", Utf8); ("commonName", Utf8); ("week", Int64);
   ("probability", Float64)].

Definition probability_row (sp : value) (entry : nat * value) : result dict :=
  (let? speciesId := getitem sp "speciesId" in
   let? species := getitem sp "species" in
   let? commonName := getitem species "commonName" in
   Ok [("speciesId", speciesId);
       ("commonName", commonName);
       ("week", VInt (Z.of_nat (fst entry)));
       ("probability", snd entry)])%result.

(** [enumerate(xs)] *)
Definition enumerate {A} (xs : list A) : list (nat * A) :=
  combine (seq 0 (length xs)) xs.

Definition probability_rows (sp : value) : result (list dict) :=
  (let? weeks := getitem sp "weeks" in
   let? items := py_iter weeks in
   rmap (probability_row sp) (enumerate items))%result.

(** [get_species_probabilities(station_id)] *)
Definition get_species_probabilities (station_id : option string) : M DataFrame :=
  (let* station_id := station_or_env station_id in
   let* data := query_graphql Probabilities (Some [("id", VStr station_id)])
                  DEFAULT_RETRIES in
   let* rows :=
     lift (let? station := getitem data "station" in
           let? probs := getitem station "probabilities" in
           let? items := py_iter probs in
           let? per_species := rmap probability_rows items in
           Ok (List.concat per_species))%result in
   match rows with
   | [] => ret (empty_frame PROBABILITIES_SCHEMA)
   | _ => ret (from_dicts rows)
   end)%world.

(** *** Detections *)

Definition DETECTIONS_SCHEMA : list (string * dtype) :=
  [("id", Utf8); ("timestamp", Utf8); ("speciesId", Utf8);
   ("commonName", Utf8); ("scientificName", Utf8); ("confidence", Float64);
   ("probability", Float64); ("score", Float64); ("certainty", Utf8)].

(** [datetime.fromisoformat(x.replace("Z", "+00:00"))] *)
Definition parse_timestamp (x : value) : result Z :=
  match x with
  | VStr s =>
      match fromisoformat (str_replace "Z" "+00:00" s) with
      | Some t => Ok t
      | None => Raise ValueError
      end
  | _ => Raise AttributeError
  end.

Definition detection_row (node : value) : result dict :=
  (let? id := getitem node "id" in
   let? timestamp := getitem node "timestamp" in
   let? speciesId := getitem node "speciesId" in
   let? species := getitem node "species" in
   let? commonName := getitem species "commonName" in
   let? species' := getitem node "species" in
   let? scientificName := getitem species' "scientificName" in
   let? confidence := getitem node "confidence" in
   let? probability := get node "probability" in
   let? score := getitem node "score" in
   let? certainty := getitem node "certainty" in
   Ok [("id", id);
       ("timestamp", timestamp);
       ("speciesId", speciesId);
       ("commonName", commonName);
       ("scientificName", scientificName);
       ("confidence", confidence);
       ("probability", probability);
       ("score", score);
       ("certainty", certainty)])%result.

(** [stop_before is not None and node_ts <= stop_before] *)
Definition at_or_before (stop_before : option Z) (node_ts : Z) : bool :=
  match stop_before with
  | Some t => node_ts <=? t
  | None => false
  end.

(** [earliest_dt is not None and node_ts < earliest_dt] *)
Definition before_earliest (earliest_dt : option Z) (node_ts : Z) : bool :=
  match earliest_dt with
  | Some e => node_ts <? e
  | None => false
  end.

(** The GraphQL variables of the detections query for one page. *)
Definition detections_variables (station_id : string) (page_size : Z)
    (cursor : value) : dict :=
  ([("id", VStr station_id); ("first", VInt page_size)]
     ++ optional_entry "after" cursor)%list.

(** The parsed [earliest_detection_at]: [earliest_dt], which stays
    [None] for a missing or empty argument. *)
Definition earliest_instant (earliest_detection_at : option string)
  : result (option Z) :=
  match earliest_detection_at with
  | Some s =>
      if String.eqb s "" then Ok None
      else (let? t := parse_timestamp (VStr s) in Ok (Some t))%result
  | None => Ok None
  end.

(** The [for node in nodes] loop: the extended [all_nodes] and the
    final [hit_boundary]. *)
Fixpoint scan_nodes (stop_before earliest_dt : option Z) (nodes : list value)
    (all_nodes : list dict) : result (list dict * bool) :=
  match nodes with
  | [] => Ok (all_nodes, false)
  | node :: rest =>
      (let? timestamp := getitem node "timestamp" in
       let? node_ts := parse_timestamp timestamp in
       if at_or_before stop_before node_ts then Ok (all_nodes, true)
       else if before_earliest earliest_dt node_ts then Ok (all_nodes, true)
       else
         let? r := detection_row node in
         scan_nodes stop_before earliest_dt rest (all_nodes ++ [r])%list)%result
  end.

(** The [for page_num in range(max_pages)] loop of [get_detections]. *)
Fixpoint detection_pages (fuel : nat) (station_id : string) (page_size : Z)
    (stop_before earliest_dt : option Z) (cursor : value) (all_nodes : list dict)
  : M (list dict) :=
  match fuel with
  | O => ret all_nodes
  | S fuel' =>
      (let variables := detections_variables station_id page_size cursor in
       let* data := query_graphql Detections (Some variables) DEFAULT_RETRIES in
       let* det :=
         lift (let? station := getitem data "station" in
               getitem station "detections")%result in
       let* nodes := lift (getitem det "nodes") in
       if negb (truthy nodes) then ret all_nodes
       else
         let* items := lift (py_iter nodes) in
         let* scanned := lift (scan_nodes stop_before earliest_dt items all_nodes) in
         if snd scanned then ret (fst scanned)
         else
           let* has_next :=
             lift (let? info := getitem det "pageInfo" in
                   getitem info "hasNextPage")%result in
           if negb (truthy has_next) then ret (fst scanned)
           else
             let* cursor :=
               lift (let? info := getitem det "pageInfo" in
                     getitem info "endCursor")%result in
             detection_pages fuel' station_id page_size stop_before earliest_dt
               cursor (fst scanned))%world
  end.

(** [get_detections(station_id, page_size, max_pages, stop_before,
    earliest_detection_at)] *)
Definition get_detections (station_id : option string) (page_size max_pages : Z)
    (stop_before : option Z) (earliest_detection_at : option string)
  : M DataFrame :=
  (let* station_id := station_or_env station_id in
   let* earliest_dt := lift (earliest_instant earliest_detection_at) in
   let* all_nodes :=
     detection_pages (Z.to_nat max_pages) station_id page_size stop_before
       earliest_dt VNull [] in
   match all_nodes with
   | [] => ret (empty_frame DETECTIONS_SCHEMA)
   | _ => lift (str_to_datetime "timestamp" (from_dicts all_nodes))
   end)%world.


(** ** data_store.py *)

Definition DETECTIONS_PATH : string := "detections.parquet".
Definition ENVIRONMENT_PATH : string := "environment.parquet".
Definition SPECIES_META_PATH : string := "species_meta.parquet".
Definition SPECIES_PROBS_PATH : string := "species_probabilities.parquet".

(** [series.max()]: the greatest non-null cell, [None] without one. *)
Definition column_max (cells : list value) : value :=
  fold_left (fun m v =>
               match m, v with
               | _, VNull => m
               | VNull, _ => v
               | _, _ => if value_ltb m v then v else m
               end) cells VNull.

(** [max_ts.replace(tzinfo=timezone.utc) if max_ts.tzinfo is None else
    max_ts]: only a datetime has [tzinfo]. *)
Definition as_utc_instant (max_ts : value) : result Z :=
  match max_ts with
  | VDatetime t => Ok t
  | _ => Raise AttributeError
  end.

(** The two schema-alignment loops: every column of [src] that [dst]
    lacks is added to [dst], all null, with [src]'s type. *)
Definition add_missing_columns (src dst : DataFrame) : DataFrame :=
  fold_left (fun d ct => if has_column d (fst ct) then d
                         else with_null_column (fst ct) (snd ct) d)
            (schema src) dst.

(** The merge of a non-empty cache with a non-empty fetch. *)
Definition merge_detections (existing new_data : DataFrame) : result DataFrame :=
  (let existing := add_missing_columns new_data existing in
   let new_data := add_missing_columns existing new_data in
   let? new_data := select (columns existing) new_data in
   let? combined := concat existing new_data in
   let? combined := unique ["id"] KeepLast combined in
   sort "timestamp" combined)%result.

(** The first lines of [sync_detections]: [stop_before] is the greatest
    cached timestamp, when the cache file exists and holds rows. *)
Definition cache_boundary (w : World) : result (option Z) :=
  match read_parquet DETECTIONS_PATH w with
  | Some ex =>
      if (0 <? height ex)%nat then
        (let? ts := column ex "timestamp" in
         let? t := as_utc_instant (column_max ts) in
         Ok (Some t))%result
      else Ok None
  | None => Ok None
  end.

(** The [if existing is not None and existing.height > 0: ... else: ...]
    block that binds [combined]. *)
Definition combine_detections (existing : option DataFrame) (new_data : DataFrame)
  : result DataFrame :=
  match existing with
  | Some ex =>
      if (0 <? height ex)%nat then
        if (0 <? height new_data)%nat then merge_detections ex new_data
        else Ok ex
      else
        if (0 <? height new_data)%nat then sort "timestamp" new_data
        else Ok new_data
  | None =>
      if (0 <? height new_data)%nat then sort "timestamp" new_data
      else Ok new_data
  end.

(** [if combined.height > 0: combined.write_parquet(path)], then
    [return combined]. *)
Definition persist_nonempty (path : string) (combined : DataFrame) : M DataFrame :=
  fun w =>
    if (0 <? height combined)%nat
    then (Ok combined, write_parquet path combined w)
    else (Ok combined, w).

(** [sync_detections(station_id, earliest_detection_at)] *)
Definition sync_detections (station_id : string)
    (earliest_detection_at : option string) : M DataFrame :=
  fun w0 =>
    let w := ensure_data_dir w0 in
    let existing := read_parquet DETECTIONS_PATH w in
    (let* stop_before := lift (cache_boundary w) in
     let* new_data :=
       get_detections (Some station_id) 100 1000 stop_before earliest_detection_at in
     let* combined := lift (combine_detections existing new_data) in
     persist_nonempty DETECTIONS_PATH combined)%world w.

(** *** Species probabilities *)

Definition SEVEN_DAYS : Z := 7 * 86400 * 1000000.

(** [sync_species_probabilities(station_id)] *)
Definition sync_species_probabilities (station_id : string) : M DataFrame :=
  fun w0 =>
    let w := ensure_data_dir w0 in
    let fetch : M DataFrame :=
      (let* probs := get_species_probabilities (Some station_id) in
       persist_nonempty SPECIES_PROBS_PATH probs)%world in
    match files w !! SPECIES_PROBS_PATH with
    | Some f =>
        let age := clock w - mtime f in
        if age <? SEVEN_DAYS then (Ok (content f), w) else fetch w
    | None => fetch w
    end.

(** *** Species metadata *)

Definition META_COLS : list string :=
  ["speciesId"; "commonName"; "scientificName"; "imageUrl"; "thumbnailUrl";
   "color"; "ebirdUrl"; "wikipediaSummary"].

(** [set(xs)] as a duplicate-free list, and [a - b], [a | b] on it. *)
Definition py_set (xs : list value) : list value := keep_first (fun x => x) xs.
Definition set_diff (a b : list value) : list value :=
  List.filter (fun x => negb (bool_decide (x ∈ b))) a.
Definition set_union (a b : list value) : list value := py_set (a ++ b).

Definition is_str (v : value) : bool :=
  match v with VStr _ => true | _ => false end.
Definition is_int (v : value) : bool :=
  match v with VInt _ => true | _ => false end.

(** [sorted(s)]: the elements must be mutually comparable. *)
Definition py_sorted (s : list value) : result (list value) :=
  if forallb is_str s || forallb is_int s
  then Ok (sort_list value_leb s)
  else Raise TypeError.

(** [set(df[c].unique().to_list()) if df.height > 0 else set()] *)
Definition id_set (df : DataFrame) (c : string) : result (list value) :=
  if (0 <? height df)%nat
  then (let? cells := column df c in Ok (py_set cells))%result
  else Ok [].

Definition is_null (v : value) : bool :=
  match v with VNull => true | _ => false end.

(** The concatenation of the bulk metadata with the by-id metadata. *)
Definition merge_species_meta (meta extra_meta : DataFrame) : result DataFrame :=
  (let extra_meta :=
     fold_left (fun d c => if has_column d c then d else with_null_column c Utf8 d)
               META_COLS extra_meta in
   let? extra_meta := select META_COLS extra_meta in
   let? meta := select META_COLS meta in
   let? both := concat meta extra_meta in
   unique ["speciesId"] KeepAny both)%result.

(** [existing] when it is not [None] and holds rows. *)
Definition with_rows (existing : option DataFrame) : option DataFrame :=
  match existing with
  | Some ex => if (0 <? height ex)%nat then Some ex else None
  | None => None
  end.

(** [detection_species_ids] and [missing]: the species detected but not
    cached, together with the cached species whose [ebirdUrl] is null. *)
Definition missing_species (detections : DataFrame) (existing : option DataFrame)
  : result (list value * list value) :=
  (let? detection_species_ids := id_set detections "speciesId" in
   let? cached_species_ids :=
     match with_rows existing with
     | Some ex => id_set ex "speciesId"
     | None => Ok []
     end in
   let missing := set_diff detection_species_ids cached_species_ids in
   let? missing :=
     match with_rows existing with
     | Some ex =>
         if has_column ex "ebirdUrl" then
           let? ids :=
             column (filter_rows (fun r => is_null (cell r "ebirdUrl")) ex)
                    "speciesId" in
           Ok (set_union missing (py_set ids))
         else Ok missing
     | None => Ok missing
     end in
   Ok (detection_species_ids, missing))%result.

(** [meta] as first bound: the metadata columns of the bulk top-species
    result, one row per species; without a bulk row, the cache or the
    empty typed table. *)
Definition bulk_species_meta (api_species : DataFrame) (existing : option DataFrame)
  : result DataFrame :=
  if (0 <? height api_species)%nat then
    (let? meta :=
       select (List.filter (has_column api_species) META_COLS) api_species in
     unique ["speciesId"] KeepAny meta)%result
  else
    match with_rows existing with
    | Some ex => Ok ex
    | None => Ok (empty_frame (map (fun c => (c, Utf8)) META_COLS))
    end.

(** The [if still_missing:] block: the by-id lookup of the species the
    bulk metadata does not cover, merged behind the bulk metadata. *)
Definition fill_gaps (still_missing : list value) (meta : DataFrame) : M DataFrame :=
  match still_missing with
  | [] => ret meta
  | _ =>
      (let* ids := lift (py_sorted still_missing) in
       let* extra_meta := get_species_by_ids ids in
       if (0 <? height extra_meta)%nat
       then lift (merge_species_meta meta extra_meta)
       else ret meta)%world
  end.

(** [sync_species_meta(station_id, detections)] *)
Definition sync_species_meta (station_id : string) (detections : DataFrame)
  : M DataFrame :=
  fun w0 =>
    let w := ensure_data_dir w0 in
    let existing := read_parquet SPECIES_META_PATH w in
    (let* ids := lift (missing_species detections existing) in
     let detection_species_ids := fst ids in
     let missing := snd ids in
     match missing, with_rows existing with
     | [], Some ex => ret ex
     | _, _ =>
         let* api_species := get_top_species (Some station_id) VNull 1000 in
         let* meta := lift (bulk_species_meta api_species existing) in
         let* meta_ids := lift (id_set meta "speciesId") in
         let still_missing := set_diff detection_species_ids meta_ids in
         let* meta := fill_gaps still_missing meta in
         fun w' => (Ok meta, write_parquet SPECIES_META_PATH meta w')
     end)%world w.

(** ** Local aggregations *)

(** The distinct values of a list, in order of first appearance. *)
Definition distinct {K} `{EqDecision K} (ks : list K) : list K :=
  keep_first (fun k => k) ks.

(** The rows of [rs] whose key columns hold [k]. *)
Definition group_rows (keys : list string) (k : list value) (rs : list row)
  : list row :=
  List.filter (fun r => bool_decide (key_of keys r = k)) rs.

(** One aggregation of [group_by(...).agg(...)]: the output column, its
    type, and the cell computed from the rows of a group. *)
Record aggregation : Type := mkAgg {
  agg_name : string;
  agg_dtype : dtype;
  agg_cell : list row -> value
}.

Definition group_row (keys : list string) (aggs : list aggregation)
    (rs : list row) (k : list value) : row :=
  list_to_map (combine keys k
               ++ map (fun a => (agg_name a, agg_cell a (group_rows keys k rs))) aggs).

(** [df.group_by(keys).agg(aggs)]: one row per distinct key, in the
    library's order; [uses] are the columns the aggregations read. *)
Definition group_by_agg (keys uses : list string) (aggs : list aggregation)
    (df : DataFrame) : result DataFrame :=
  (let? key_schema := rmap (fun c => let? t := column_dtype df c in Ok (c, t)) keys in
   let? _ := rmap (column_dtype df) uses in
   let sch := (key_schema ++ map (fun a => (agg_name a, agg_dtype a)) aggs)%list in
   if bool_decide (NoDup (map fst sch)) then
     Ok (mkFrame sch
           (arrange (map (group_row keys aggs (rows df))
                         (distinct (map (key_of keys) (rows df))))))
   else Raise DuplicateError)%result.

(** [pl.len()] *)
Definition agg_len (rs : list row) : value := VInt (Z.of_nat (length rs)).

Definition int_of (v : value) : Z :=
  match v with VInt z => z | _ => 0 end.

(** [pl.col(c).sum()] over integer cells; nulls count for nothing. *)
Definition agg_sum (c : string) (rs : list row) : value :=
  VInt (fold_right Z.add 0 (map (fun r => int_of (cell r c)) rs)).

(** [(pl.col(c) == s).sum()] *)
Definition agg_count_eq (c s : string) (rs : list row) : value :=
  VInt (Z.of_nat (length (List.filter (fun r => bool_decide (cell r c = VStr s)) rs))).

(** [pl.col(c).first()] *)
Definition agg_first (c : string) (rs : list row) : value :=
  match rs with
  | r :: _ => cell r c
  | [] => VNull
  end.

(** [pl.col(c).mean()] *)
Definition agg_mean (c : string) (rs : list row) : value :=
  mean (map (fun r => cell r c) rs).

(** [left.join(right, on=c, how="left")]: every left row, once per right
    row with the same non-null key, or once with nulls.  A right column
    whose name the left table has is suffixed with [_right]. *)
Definition join_left (on : string) (left right : DataFrame) : result DataFrame :=
  (let? t_left := column_dtype left on in
   let? t_right := column_dtype right on in
   let extra := List.filter (fun ct => negb (String.eqb (fst ct) on)) (schema right) in
   let rename := fun c => if has_column left c then String.append c "_right" else c in
   let sch := (schema left ++ map (fun ct => (rename (fst ct), snd ct)) extra)%list in
   let attach := fun (l : row) (pick : string -> value) =>
     fold_right (fun ct acc => <[rename (fst ct) := pick (fst ct)]> acc) l extra in
   if negb (bool_decide (t_left = t_right)) then Raise SchemaError
   else if negb (bool_decide (NoDup (map fst sch))) then Raise DuplicateError
   else
     Ok (mkFrame sch
           (flat_map
              (fun l =>
                 let matches :=
                   if is_null (cell l on) then []
                   else List.filter (fun r => bool_decide (cell r on = cell l on))
                                    (rows right) in
                 match matches with
                 | [] => [attach l (fun _ => VNull)]
                 | _ => map (fun r => attach l (cell r)) matches
                 end)
              (rows left))))%result.

Definition MICROSECONDS_PER_DAY : Z := 86400 * 1000000.

(** [df.filter(pl.col("timestamp") >= now - timedelta(days=period_days))]
    when [period_days] is given. *)
Definition filter_period (now : Z) (period_days : option Z) (df : DataFrame)
  : result DataFrame :=
  match period_days with
  | None => Ok df
  | Some days =>
      (let cutoff := now - days * MICROSECONDS_PER_DAY in
       let? t := column_dtype df "timestamp" in
       if bool_decide (t = Datetime) then
         Ok (filter_rows (fun r => match cell r "timestamp" with
                                   | VDatetime ts => cutoff <=? ts
                                   | _ => false
                                   end) df)
       else Raise SchemaError)%result
  end.

(** *** Top species *)

Definition TOP_SPECIES_SCHEMA : list (string * dtype) :=
  [("speciesId", Utf8); ("commonName", Utf8); ("scientificName", Utf8);
   ("imageUrl", Utf8); ("thumbnailUrl", Utf8); ("color", Utf8);
   ("ebirdUrl", Utf8); ("wikipediaSummary", Utf8); ("count", Int64);
   ("almostCertain", Int64); ("veryLikely", Int64); ("uncertain", Int64);
   ("unlikely", Int64); ("averageProbability", Float64)].

Definition TOP_SPECIES_COL_ORDER : list string := map fst TOP_SPECIES_SCHEMA.

(** The body of [compute_top_species]; [self] stands for the function
    itself in its one recursive call. *)
Definition compute_top_species_body
    (self : Z -> DataFrame -> DataFrame -> option Z -> Z -> result DataFrame)
    (now : Z) (detections species_meta : DataFrame) (period_days : option Z)
    (limit : Z) : result DataFrame :=
  if (height detections =? 0)%nat then Ok (empty_frame TOP_SPECIES_SCHEMA)
  else
    (let? df := filter_period now period_days detections in
     if (height df =? 0)%nat
     then self now (empty_frame (schema detections)) species_meta None limit
     else
       let? t_common := column_dtype df "commonName" in
       let? t_scientific := column_dtype df "scientificName" in
       let? agg :=
         group_by_agg ["speciesId"] ["probability"; "certainty"]
           [mkAgg "count" Int64 agg_len;
            mkAgg "averageProbability" Float64 (agg_mean "probability");
            mkAgg "commonName" t_common (agg_first "commonName");
            mkAgg "scientificName" t_scientific (agg_first "scientificName");
            mkAgg "almostCertain" Int64 (agg_count_eq "certainty" "almost_certain");
            mkAgg "veryLikely" Int64 (agg_count_eq "certainty" "very_likely");
            mkAgg "uncertain" Int64 (agg_count_eq "certainty" "uncertain");
            mkAgg "unlikely" Int64 (agg_count_eq "certainty" "unlikely")] df in
       let? agg := sort_by [("count", true)] agg in
       let agg := head_rows limit agg in
       let meta_cols :=
         List.filter (fun c => negb (String.eqb c "commonName"
                                     || String.eqb c "scientificName"))
                     (columns species_meta) in
       let? meta := select meta_cols species_meta in
       let? result := join_left "speciesId" agg meta in
       let result :=
         fold_left (fun d c => if has_column d c then d else with_null_column c Utf8 d)
                   ["imageUrl"; "thumbnailUrl"; "color"; "ebirdUrl"; "wikipediaSummary"]
                   result in
       select (List.filter (has_column result) TOP_SPECIES_COL_ORDER) result)%result.

(** [compute_top_species(detections, species_meta, period_days, limit)],
    with [now] the reading of the clock.  The recursive call is on a
    table without rows and returns at once, so two levels of the body
    are the whole function. *)
Definition compute_top_species : Z -> DataFrame -> DataFrame -> option Z -> Z
                                 -> result DataFrame :=
  compute_top_species_body
    (compute_top_species_body (fun _ _ _ _ _ => Raise RecursionError)).

(** *** Daily detection counts *)

Definition LOCAL_DAILY_COUNTS_SCHEMA : list (string * dtype) :=
  [("date", Date); ("dayOfYear", Int64); ("dailyTotal", Int64);
   ("speciesId", Utf8); ("commonName", Utf8); ("count", Int64)].

(** [pl.col("timestamp").dt.date()] on one cell. *)
Definition date_of (v : value) : value :=
  match v with
  | VDatetime t => VDate (t / MICROSECONDS_PER_DAY)
  | VDate d => VDate d
  | _ => VNull
  end.

(** [pl.col("date").dt.ordinal_day().cast(pl.Int64)] on one cell. *)
Definition day_of_year (v : value) : value :=
  match v with
  | VDate d => VInt (ordinal_day d)
  | _ => VNull
  end.

(** The body of [compute_daily_detection_counts]; [self] as above. *)
Definition compute_daily_detection_counts_body
    (self : Z -> DataFrame -> option Z -> result DataFrame)
    (now : Z) (detections : DataFrame) (period_days : option Z)
  : result DataFrame :=
  if (height detections =? 0)%nat then Ok (empty_frame LOCAL_DAILY_COUNTS_SCHEMA)
  else
    (let? df := filter_period now period_days detections in
     if (height df =? 0)%nat
     then self now (empty_frame (schema detections)) None
     else
       let? t := column_dtype df "timestamp" in
       if negb (bool_decide (t = Datetime) || bool_decide (t = Date))
       then Raise SchemaError
       else
         let df := with_column "date" Date (fun r => date_of (cell r "timestamp")) df in
         let? species_daily :=
           group_by_agg ["date"; "speciesId"; "commonName"] []
             [mkAgg "count" UInt32 agg_len] df in
         let? daily_totals :=
           group_by_agg ["date"] ["count"]
             [mkAgg "dailyTotal" UInt32 (agg_sum "count")] species_daily in
         let? joined := join_left "date" species_daily daily_totals in
         let with_day :=
           with_column "dayOfYear" Int64 (fun r => day_of_year (cell r "date")) joined in
         let? sorted := sort_by [("date", false); ("commonName", false)] with_day in
         select ["date"; "dayOfYear"; "dailyTotal"; "speciesId"; "commonName"; "count"]
                sorted)%result.

(** [compute_daily_detection_counts(detections, period_days)] *)
Definition compute_daily_detection_counts
  : Z -> DataFrame -> option Z -> result DataFrame :=
  compute_daily_detection_counts_body
    (compute_daily_detection_counts_body (fun _ _ _ => Raise RecursionError)).


(** *** Environment sensor history *)

Definition MICROSECONDS_PER_SECOND : Z := 1000000.

(** [(max_ts + timedelta(seconds=1)).strftime("%Y-%m-%dT%H:%M:%SZ")]:
    only a date or a datetime adds to a [timedelta], and a date ignores
    the seconds. *)
Definition one_second_after (max_ts : value) : result string :=
  match max_ts with
  | VDatetime t => Ok (strftime (t + MICROSECONDS_PER_SECOND))
  | VDate d => Ok (strftime (d * MICROSECONDS_PER_DAY))
  | _ => Raise TypeError
  end.

(** The first lines of [sync_environment]: [period] runs from one second
    after the latest cached reading to now, when the cache file exists
    and holds rows. *)
Definition environment_period (w : World) : result value :=
  match read_parquet ENVIRONMENT_PATH w with
  | Some ex =>
      if (0 <? height ex)%nat then
        (let? ts := column ex "timestamp" in
         let? from_ts := one_second_after (column_max ts) in
         let to_ts := strftime (clock w) in
         Ok (VStruct [("from", VStr from_ts); ("to", VStr to_ts)]))%result
      else Ok VNull
  | None => Ok VNull
  end.

(** The merge of a non-empty cache with a non-empty fetch. *)
Definition merge_environment (existing new_data : DataFrame) : result DataFrame :=
  (let? combined := concat existing new_data in
   let? combined := unique ["timestamp"] KeepLast combined in
   sort "timestamp" combined)%result.

(** The [if existing is not None and existing.height > 0: ... else: ...]
    block that binds [combined]. *)
Definition combine_environment (existing : option DataFrame) (new_data : DataFrame)
  : result DataFrame :=
  match existing with
  | Some ex =>
      if (0 <? height ex)%nat then
        if (0 <? height new_data)%nat then merge_environment ex new_data
        else Ok ex
      else
        if (0 <? height new_data)%nat then sort "timestamp" new_data
        else Ok new_data
  | None =>
      if (0 <? height new_data)%nat then sort "timestamp" new_data
      else Ok new_data
  end.

(** [sync_environment(station_id)] *)
Definition sync_environment (station_id : string) : M DataFrame :=
  fun w0 =>
    let w := ensure_data_dir w0 in
    let existing := read_parquet ENVIRONMENT_PATH w in
    (let* period := lift (environment_period w) in
     let* new_data := get_environment_history (Some station_id) period 1000 400 in
     let* combined := lift (combine_environment existing new_data) in
     persist_nonempty ENVIRONMENT_PATH combined)%world w.

(** *** Time-of-day counts *)

Definition LOCAL_TIME_OF_DAY_SCHEMA : list (string * dtype) :=
  [("speciesId", Utf8); ("commonName", Utf8); ("totalCount", Int64);
   ("hour", Float64); ("count", Int64)].

Definition MICROSECONDS_PER_HOUR : Z := 3600 * 1000000.

(** [pl.col("timestamp").dt.hour().cast(pl.Float64)] on one cell. *)
Definition hour_of (v : value) : value :=
  match v with
  | VDatetime t => VFloat (float_bits ((t / MICROSECONDS_PER_HOUR) mod 24))
  | _ => VNull
  end.

(** [compute_time_of_day_counts(detections)]; [dt.hour()] applies to a
    datetime column. *)
Definition compute_time_of_day_counts (detections : DataFrame) : result DataFrame :=
  if (height detections =? 0)%nat then Ok (empty_frame LOCAL_TIME_OF_DAY_SCHEMA)
  else
    (let? t := column_dtype detections "timestamp" in
     if negb (bool_decide (t = Datetime)) then Raise SchemaError
     else
       let df :=
         with_column "hour" Float64 (fun r => hour_of (cell r "timestamp"))
                     detections in
       let? hourly :=
         group_by_agg ["speciesId"; "commonName"; "hour"] []
           [mkAgg "count" UInt32 agg_len] df in
       let? species_totals :=
         group_by_agg ["speciesId"] ["count"]
           [mkAgg "totalCount" UInt32 (agg_sum "count")] hourly in
       let? joined := join_left "speciesId" hourly species_totals in
       let? sorted := sort_by [("speciesId", false); ("hour", false)] joined in
       select ["speciesId"; "commonName"; "totalCount"; "hour"; "count"]
              sorted)%result.


(** ** Vocabulary of the statements *)

(** A detection at instant [t] is at the boundary of a fetch when either
    stop condition of [get_detections] holds for it. *)
Definition boundary (stop_before earliest_dt : option Z) (t : Z) : bool :=
  at_or_before stop_before t || before_earliest earliest_dt t.

(** The instant [get_detections] reads off a node. *)
Definition node_instant (node : value) : result Z :=
  (let? timestamp := getitem node "timestamp" in parse_timestamp timestamp)%result.

(** A node the inner loop steps over and keeps. *)
Definition kept_node (stop_before earliest_dt : option Z) (node : value) : bool :=
  match node_instant node with
  | Ok t => negb (boundary stop_before earliest_dt t)
  | Raise _ => false
  end.

(** A node the inner loop stops at. *)
Definition boundary_node (stop_before earliest_dt : option Z) (node : value) : bool :=
  match node_instant node with
  | Ok t => boundary stop_before earliest_dt t
  | Raise _ => false
  end.

(** The instant a node carries, as [get_detections] reads it:
    [datetime.fromisoformat(node["timestamp"].replace("Z", "+00:00"))]. *)
Definition instant_of (node : value) (t : Z) : Prop :=
  exists ts, getitem node "timestamp" = Ok (VStr ts)
             /\ fromisoformat (str_replace "Z" "+00:00" ts) = Some t.

(** The floor a call asks for: the instant its [earliest_detection_at]
    denotes, none for a missing or empty argument. *)
Definition requested_floor (earliest_detection_at : option string)
    (floor : option Z) : Prop :=
  match earliest_detection_at with
  | Some s =>
      if String.eqb s "" then floor = None
      else exists e, fromisoformat (str_replace "Z" "+00:00" s) = Some e
                     /\ floor = Some e
  | None => floor = None
  end.

(** An instant strictly after [stop_before] and not before the floor,
    and an instant at or beyond one of the two limits. *)
Definition within (stop_before floor : option Z) (t : Z) : Prop :=
  (forall T, stop_before = Some T -> T < t) /\ (forall e, floor = Some e -> e <= t).

Definition beyond (stop_before floor : option Z) (t : Z) : Prop :=
  (exists T, stop_before = Some T /\ t <= T) \/ (exists e, floor = Some e /\ t < e).

(** Python's [fromisoformat] and Polars' [to_datetime("%+")] read the
    same instant off a timestamp that both accept. *)
Definition parsers_agree (fromisoformat to_datetime : string -> option Z) : Prop :=
  forall s t t',
    fromisoformat (str_replace "Z" "+00:00" s) = Some t ->
    to_datetime s = Some t' ->
    t = t'.


(** A computation that leaves the files under [DATA_DIR] alone. *)
Definition keeps_files {A} (c : M A) : Prop :=
  forall w, files (snd (c w)) = files w.

(** Ids pairwise distinct, and timestamps never going down from one row
    to the next (in the order of a sort: nulls first). *)
Definition distinct_ids (df : DataFrame) : Prop :=
  NoDup (map (fun r => cell r "id") (rows df)).

Definition timestamp_le (r1 r2 : row) : Prop :=
  value_leb (cell r1 "timestamp") (cell r2 "timestamp") = true.

Definition timestamps_ascending (df : DataFrame) : Prop :=
  Sorted timestamp_le (rows df).

(** The cache [sync_detections] starts from, when it holds rows. *)
Definition cached_detections (w : World) : option DataFrame :=
  match read_parquet DETECTIONS_PATH w with
  | Some ex => if (0 <? height ex)%nat then Some ex else None
  | None => None
  end.

(** [data[k1][k2]...]: the entry a fetcher reads its listing from. *)
Fixpoint path_get (v : value) (path : list string) : result value :=
  match path with
  | [] => Ok v
  | k :: path' => (let? x := getitem v k in path_get x path')%result
  end.

(** The table with no rows and no columns. *)
Definition no_columns_frame : DataFrame := mkFrame [] [].







(** The sum of the [count] cells of the rows dated [d]. *)
Definition date_total (d : value) (rs : list row) : Z :=
  fold_right Z.add 0
    (map (fun r => int_of (cell r "count"))
         (List.filter (fun r => bool_decide (cell r "date" = d)) rs)).


(** What the left join with the daily totals adds to a row of the
    per-species daily counts [sd]: the sum of the counts of its date, or
    null for a row without date. *)
Definition attach_total (sd : list row) (l : row) : row :=
  <["dailyTotal" := if is_null (cell l "date") then VNull
                    else agg_sum "count" (group_rows ["date"] [cell l "date"] sd)]> l.


(** The output row of [compute_daily_detection_counts] for the row [l]
    of the per-species daily counts [sd]. *)
Definition daily_output_row (sd : list row) (l : row) : row :=
  project ["date"; "dayOfYear"; "dailyTotal"; "speciesId"; "commonName"; "count"]
    (<["dayOfYear" := day_of_year (cell (attach_total sd l) "date")]>
       (attach_total sd l)).


(** Timestamps pairwise distinct. *)
Definition distinct_timestamps (df : DataFrame) : Prop :=
  NoDup (map (fun r => cell r "timestamp") (rows df)).

(** The cache [sync_environment] starts from, when it holds rows. *)
Definition cached_environment (w : World) : option DataFrame :=
  match read_parquet ENVIRONMENT_PATH w with
  | Some ex => if (0 <? height ex)%nat then Some ex else None
  | None => None
  end.

(** The sum of the [count] cells of the rows of species [sid]. *)
Definition species_total (sid : value) (rs : list row) : Z :=
  fold_right Z.add 0
    (map (fun r => int_of (cell r "count"))
         (List.filter (fun r => bool_decide (cell r "speciesId" = sid)) rs)).

(** What the left join with the species totals adds to a row of the
    hourly counts [hourly]: the sum of the counts of its species, or null
    for a row without species. *)
Definition attach_species_total (hourly : list row) (l : row) : row :=
  <["totalCount" := if is_null (cell l "speciesId") then VNull
                    else agg_sum "count"
                           (group_rows ["speciesId"] [cell l "speciesId"] hourly)]> l.

(** The output row of [compute_time_of_day_counts] for the row [l] of
    the hourly counts [hourly]. *)
Definition hourly_output_row (hourly : list row) (l : row) : row :=
  project ["speciesId"; "commonName"; "totalCount"; "hour"; "count"]
    (attach_species_total hourly l).


(** A cell that a column whose maximum is the instant [t] can hold. *)
Definition below (t : Z) (v : value) : Prop :=
  match v with
  | VDatetime t' => t' <= t
  | VList _ | VStruct _ => False
  | _ => True
  end.


(** A computation that posts at most [n] requests. *)
Definition posts_at_most {A} (n : nat) (c : M A) : Prop :=
  forall w, (length (posts (log (snd (c w)))) <= length (posts (log w)) + n)%nat.


(** * Properties *)

(** ** The retry policy of [query_graphql] *)

(** The transport failures the [except] clause catches. *)
Definition transient (o : http_outcome) : bool :=
  match o with
  | HttpTimeout | HttpConnectionError => true
  | _ => false
  end.

Definition transport_error (o : http_outcome) : exn :=
  match o with
  | HttpTimeout => Timeout
  | HttpConnectionError => ConnectionError
  | _ => RequestException
  end.

(** The world after [k] attempts, numbered from [attempt], were each
    posted and followed by their back-off sleep. *)
Fixpoint retried (k : nat) (attempt : Z) (req : request) (w : World) : World :=
  match k with
  | O => w
  | S k' => retried k' (attempt + 1) req (sleep (2 ^ attempt) (record_event (Post req) w))
  end.

(** What the transport answers to attempt number [k] (from 0) when the
    attempts before it were all retried. *)
Definition attempt_outcome (k : nat) (req : request) (w : World) : http_outcome :=
  remote w (log (retried k 0 req w)) req.

Lemma remote_record_event e w : remote (record_event e w) = remote w.
Proof. reflexivity. Qed.

Lemma remote_sleep s w : remote (sleep s w) = remote w.
Proof. reflexivity. Qed.

Lemma remote_retried k attempt req w : remote (retried k attempt req w) = remote w.
Proof.
  revert attempt w. induction k as [|k IH]; intros attempt w; simpl; [reflexivity|].
  rewrite IH. reflexivity.
Qed.

Lemma retried_snoc k attempt req w :
  retried (S k) attempt req w =
  sleep (2 ^ (attempt + Z.of_nat k))
        (record_event (Post req) (retried k attempt req w)).
Proof.
  revert attempt w. induction k as [|k IH]; intros attempt w.
  - simpl. rewrite Z.add_0_r. reflexivity.
  - change (retried (S (S k)) attempt req w)
      with (retried (S k) (attempt + 1) req
              (sleep (2 ^ attempt) (record_event (Post req) w))).
    rewrite IH. simpl retried at 2.
    replace (attempt + 1 + Z.of_nat k) with (attempt + Z.of_nat (S k)) by lia.
    reflexivity.
Qed.

Lemma log_retried k req w :
  log (retried k 0 req w) =
  (log w ++ flat_map (fun i => [Post req; Sleep (2 ^ Z.of_nat i)]) (seq 0 k))%list.
Proof.
  induction k as [|k IH].
  - simpl. rewrite app_nil_r. reflexivity.
  - rewrite retried_snoc. simpl log. rewrite IH.
    rewrite seq_S, flat_map_app. simpl.
    rewrite <- !app_assoc. reflexivity.
Qed.

(** While the outcomes are transient and attempts remain, the loop goes
    round. *)
Lemma query_attempts_retried k : forall fuel attempt retries req w,
  (k <= fuel)%nat ->
  attempt + Z.of_nat k <= retries - 1 ->
  (forall i, (i < k)%nat ->
     transient (remote w (log (retried i attempt req w)) req) = true) ->
  query_attempts fuel attempt retries req w =
  query_attempts (fuel - k) (attempt + Z.of_nat k) retries req
                 (retried k attempt req w).
Proof.
  induction k as [|k IH]; intros fuel attempt retries req w Hfuel Hle Htr.
  - simpl. rewrite Nat.sub_0_r, Z.add_0_r. reflexivity.
  - destruct fuel as [|fuel]; [lia|].
    pose proof (Htr 0%nat ltac:(lia)) as H0. simpl in H0.
    assert (Hlt : (attempt <? retries - 1) = true) by (apply Z.ltb_lt; lia).
    simpl query_attempts at 1.
    destruct (remote w (log w) req) eqn:E; try discriminate; rewrite Hlt;
      (rewrite IH;
       [ simpl; replace (attempt + 1 + Z.of_nat k) with (attempt + Z.pos (Pos.of_succ_nat k)) by lia;
         reflexivity
       | lia | lia
       | intros i Hi; specialize (Htr (S i) ltac:(lia)); simpl in Htr; exact Htr ]).
Qed.

(** C8. [query_graphql] goes round its loop only on a timeout or a
    connection error.  Attempt number [k] (from 0) is made exactly when
    the [k] attempts before it failed that way, each followed by a sleep
    of [2 ^ i] seconds.  Whatever attempt [k] brings ends the call there,
    except a transient failure with attempts left: a body with an
    ["errors"] entry raises [RuntimeError] with that payload at once, any
    other failure is raised as it is, and a transient failure of the last
    attempt ([k = retries - 1]) is re-raised.  In each case the world is
    left right after post number [k]: nothing more is sent. *)
Theorem query_graphql_retry_policy :
  forall (q : query) (variables : option dict) (retries : Z) (w : World) (k : nat),
    let req := build_request q variables w in
    let wk := retried k 0 req w in
    let done := record_event (Post req) wk in
    Z.of_nat k < retries ->
    forallb (fun i => transient (attempt_outcome i req w)) (seq 0 k) = true ->
    log wk = (log w ++ flat_map (fun i => [Post req; Sleep (2 ^ Z.of_nat i)]) (seq 0 k))%list
    /\ match attempt_outcome k req w with
       | HttpJson (VStruct kv) =>
           query_graphql q variables retries w =
           (match assoc "errors" kv with
            | Some errors => Raise (RuntimeError errors)
            | None => getitem (VStruct kv) "data"
            end, done)
       | HttpJson _ => query_graphql q variables retries w = (Raise TypeError, done)
       | HttpFailure => query_graphql q variables retries w = (Raise RequestException, done)
       | (HttpTimeout | HttpConnectionError) as o =>
           Z.of_nat k = retries - 1 ->
           query_graphql q variables retries w = (Raise (transport_error o), done)
       end.
Proof.
  intros q variables retries w k req wk done Hk Htr.
  split; [apply log_retried|].
  assert (Hrun : query_graphql q variables retries w =
                 query_attempts (Z.to_nat retries - k) (Z.of_nat k) retries req wk).
  { unfold query_graphql. fold req.
    rewrite (query_attempts_retried k); [reflexivity | lia | lia |].
    intros i Hi. rewrite forallb_forall in Htr.
    apply (Htr i). apply in_seq. lia. }
  rewrite Hrun.
  destruct (Z.to_nat retries - k)%nat as [|fuel] eqn:Efuel; [lia|].
  unfold attempt_outcome. fold wk.
  simpl query_attempts.
  replace (remote wk) with (remote w) by (symmetry; apply remote_retried).
  destruct (remote w (log wk) req) as [| | |body] eqn:E.
  - intros Hlast. replace (Z.of_nat k <? retries - 1) with false
      by (symmetry; apply Z.ltb_ge; lia). reflexivity.
  - intros Hlast. replace (Z.of_nat k <? retries - 1) with false
      by (symmetry; apply Z.ltb_ge; lia). reflexivity.
  - reflexivity.
  - destruct body; try reflexivity.
    destruct (assoc "errors" fields); reflexivity.
Qed.

(** ** Frames built from dicts *)

Lemma lookup_tabulated (f : string -> value) (cols : list string) (c : string) :
  (list_to_map (map (fun c => (c, f c)) cols) : row) !! c =
  if bool_decide (c ∈ cols) then Some (f c) else None.
Proof.
  induction cols as [|c' cols IH]; simpl.
  - rewrite lookup_empty. reflexivity.
  - destruct (decide (c' = c)) as [->|Hne].
    + rewrite lookup_insert_eq. rewrite bool_decide_eq_true_2 by apply list_elem_of_here.
      reflexivity.
    + rewrite lookup_insert_ne by exact Hne. rewrite IH.
      destruct (bool_decide (c ∈ cols)) eqn:E.
      * apply bool_decide_eq_true in E.
        rewrite bool_decide_eq_true_2 by (apply list_elem_of_further; exact E).
        reflexivity.
      * apply bool_decide_eq_false in E. rewrite bool_decide_eq_false_2; [reflexivity|].
        intros Hin. apply elem_of_cons in Hin as [->|Hin]; [congruence | auto].
Qed.

Lemma cell_dict_row cols d c :
  cell (dict_row cols d) c = if bool_decide (c ∈ cols) then dict_get d c else VNull.
Proof.
  unfold cell, dict_row. rewrite (lookup_tabulated (dict_get d)).
  destruct (bool_decide (c ∈ cols)); reflexivity.
Qed.

Lemma cell_project cols r c :
  cell (project cols r) c = if bool_decide (c ∈ cols) then cell r c else VNull.
Proof.
  unfold project. unfold cell at 1. rewrite (lookup_tabulated (cell r)).
  destruct (bool_decide (c ∈ cols)); reflexivity.
Qed.

Lemma cell_insert_eq c v (r : row) : cell (<[c := v]> r) c = v.
Proof. unfold cell. rewrite lookup_insert_eq. reflexivity. Qed.

Lemma cell_insert_ne c c' v (r : row) : c <> c' -> cell (<[c := v]> r) c' = cell r c'.
Proof. intros H. unfold cell. rewrite lookup_insert_ne by exact H. reflexivity. Qed.

Lemma assoc_Some_elem {A} k (kv : list (string * A)) v :
  assoc k kv = Some v -> k ∈ map fst kv.
Proof.
  induction kv as [|[k' v'] kv IH]; simpl; [discriminate|].
  destruct (String.eqb_spec k k') as [->|Hne].
  - intros _. apply list_elem_of_here.
  - intros H. apply list_elem_of_further, IH, H.
Qed.

Lemma assoc_None_not_elem {A} k (kv : list (string * A)) :
  assoc k kv = None -> k ∉ map fst kv.
Proof.
  induction kv as [|[k' v'] kv IH]; simpl.
  - intros _ H. inversion H.
  - destruct (String.eqb_spec k k') as [->|Hne]; [discriminate|].
    intros H Hin. apply elem_of_cons in Hin as [Heq|Hin]; [congruence|].
    exact (IH H Hin).
Qed.

Lemma rmap_Ok_length {A B} (f : A -> result B) l l' :
  rmap f l = Ok l' -> length l' = length l.
Proof.
  revert l'. induction l as [|x l IH]; intros l'; simpl.
  - intros [= <-]. reflexivity.
  - destruct (f x); simpl; [|discriminate].
    destruct (rmap f l); simpl; [|discriminate].
    intros [= <-]. simpl. f_equal. apply IH. reflexivity.
Qed.

Lemma rmap_Ok_Forall2 {A B} (f : A -> result B) l l' :
  rmap f l = Ok l' -> Forall2 (fun x y => f x = Ok y) l l'.
Proof.
  revert l'. induction l as [|x l IH]; intros l'; simpl.
  - intros [= <-]. constructor.
  - destruct (f x) eqn:E; simpl; [|discriminate].
    destruct (rmap f l); simpl; [|discriminate].
    intros [= <-]. constructor; [exact E | apply IH; reflexivity].
Qed.

Lemma rmap_app {A B} (f : A -> result B) l1 l2 :
  rmap f (l1 ++ l2) =
  (let? a := rmap f l1 in let? b := rmap f l2 in Ok (a ++ b)%list)%result.
Proof.
  induction l1 as [|x l1 IH]; simpl.
  - destruct (rmap f l2); reflexivity.
  - destruct (f x); simpl; [|reflexivity]. rewrite IH.
    destruct (rmap f l1); simpl; [|reflexivity].
    destruct (rmap f l2); reflexivity.
Qed.


(** ** Proof steps for the two monads *)

Ltac rsplit H :=
  repeat match type of H with
    | rbind ?c _ = _ =>
        let E := fresh "E" in
        destruct c eqn:E; cbn [rbind] in H; [|discriminate H]
    end.

Lemma bind_Ok {A B} (c : M A) (k : A -> M B) w b w' :
  bind c k w = (Ok b, w') ->
  exists a w1, c w = (Ok a, w1) /\ k a w1 = (Ok b, w').
Proof.
  unfold bind. destruct (c w) as [[a|e] w1]; [|discriminate].
  intros H. exists a, w1. split; [reflexivity | exact H].
Qed.

Lemma bind_lift_Ok {A B} (r : result A) (k : A -> M B) w b w' :
  bind (lift r) k w = (Ok b, w') ->
  exists a, r = Ok a /\ k a w = (Ok b, w').
Proof.
  unfold bind, lift. destruct r as [a|e]; [|discriminate].
  intros H. exists a. split; [reflexivity | exact H].
Qed.

Lemma ret_Ok {A} (a b : A) w w' : ret a w = (Ok b, w') -> a = b /\ w = w'.
Proof. unfold ret. intros [= -> ->]. split; reflexivity. Qed.

Lemma lift_Ok {A} (r : result A) b w w' : lift r w = (Ok b, w') -> r = Ok b /\ w = w'.
Proof. unfold lift. intros [= -> ->]. split; reflexivity. Qed.

Lemma rbind_Ok {A B} (r : result A) (k : A -> result B) b :
  rbind r k = Ok b -> exists a, r = Ok a /\ k a = Ok b.
Proof.
  destruct r as [a|e]; simpl; [|discriminate].
  intros H. exists a. split; [reflexivity | exact H].
Qed.

(** ** The stop conditions of [get_detections] *)

(** The rows collected so far were all read at instants beyond both
    boundaries. *)
Definition kept_dict (stop_before earliest_dt : option Z) (d : dict) : Prop :=
  exists s t,
    assoc "timestamp" d = Some (VStr s)
    /\ fromisoformat (str_replace "Z" "+00:00" s) = Some t
    /\ boundary stop_before earliest_dt t = false.

Lemma detection_row_timestamp node d :
  detection_row node = Ok d ->
  exists ts, getitem node "timestamp" = Ok ts /\ assoc "timestamp" d = Some ts.
Proof.
  unfold detection_row. intros H. rsplit H.
  injection H as <-. eexists. split; reflexivity.
Qed.

Lemma parse_timestamp_Ok x t :
  parse_timestamp x = Ok t ->
  exists s, x = VStr s /\ fromisoformat (str_replace "Z" "+00:00" s) = Some t.
Proof.
  unfold parse_timestamp. destruct x; try discriminate.
  destruct (fromisoformat _) eqn:E; [|discriminate].
  intros [= <-]. eexists. split; [reflexivity | exact E].
Qed.

Lemma scan_nodes_kept stop_before earliest_dt nodes :
  forall acc acc' hit,
    Forall (kept_dict stop_before earliest_dt) acc ->
    scan_nodes stop_before earliest_dt nodes acc = Ok (acc', hit) ->
    Forall (kept_dict stop_before earliest_dt) acc'.
Proof.
  induction nodes as [|node rest IH]; intros acc acc' hit Hacc H; simpl in H.
  - injection H as <- <-. exact Hacc.
  - rsplit H.
    destruct (at_or_before stop_before a0) eqn:Estop; [injection H as <- <-; exact Hacc|].
    destruct (before_earliest earliest_dt a0) eqn:Eearly; [injection H as <- <-; exact Hacc|].
    rsplit H. refine (IH _ _ _ _ H).
    apply Forall_app. split; [exact Hacc|]. constructor; [|constructor].
    destruct (detection_row_timestamp _ _ E1) as (ts & Hts & Hd).
    rewrite E in Hts. injection Hts as <-.
    destruct (parse_timestamp_Ok _ _ E0) as (s & -> & Hs).
    exists s, a0. repeat split; [exact Hd | exact Hs |].
    unfold boundary. rewrite Estop, Eearly. reflexivity.
Qed.

Lemma detection_pages_kept stop_before earliest_dt fuel :
  forall station_id page_size cursor acc w acc' w',
    Forall (kept_dict stop_before earliest_dt) acc ->
    detection_pages fuel station_id page_size stop_before earliest_dt cursor acc w
      = (Ok acc', w') ->
    Forall (kept_dict stop_before earliest_dt) acc'.
Proof.
  induction fuel as [|fuel IH]; intros station_id page_size cursor acc w acc' w' Hacc H.
  - injection H as <- <-. exact Hacc.
  - simpl in H.
    apply bind_Ok in H as (data & w1 & _ & H).
    apply bind_lift_Ok in H as (det & _ & H).
    apply bind_lift_Ok in H as (nodes & _ & H).
    destruct (negb (truthy nodes)); [apply ret_Ok in H as [<- _]; exact Hacc|].
    apply bind_lift_Ok in H as (items & _ & H).
    apply bind_lift_Ok in H as ([acc1 hit] & Hscan & H).
    pose proof (scan_nodes_kept _ _ _ _ _ _ Hacc Hscan) as Hacc1.
    simpl in H.
    destruct hit; [apply ret_Ok in H as [<- _]; exact Hacc1|].
    apply bind_lift_Ok in H as (has_next & _ & H).
    destruct (negb (truthy has_next)); [apply ret_Ok in H as [<- _]; exact Hacc1|].
    apply bind_lift_Ok in H as (cursor' & _ & H).
    exact (IH _ _ _ _ _ _ _ Hacc1 H).
Qed.


Lemma str_convert_Ok c t parse mk df df' :
  str_convert c t parse mk df = Ok df' ->
  c ∈ columns df
  /\ Forall2 (fun r r' => exists v, parse_cell parse mk (cell r c) = Ok v
                                   /\ r' = <[c := v]> r)
             (rows df) (rows df').
Proof.
  unfold str_convert. intros H.
  apply rbind_Ok in H as (t0 & Ht0 & H).
  destruct (decide (t0 = Utf8)); [|discriminate].
  apply rbind_Ok in H as (rs & Hrs & H). injection H as <-. simpl.
  split.
  - unfold column_dtype in Ht0. destruct (assoc c (schema df)) eqn:E; [|discriminate].
    apply assoc_Some_elem in E. exact E.
  - apply rmap_Ok_Forall2 in Hrs.
    eapply Forall2_impl; [exact Hrs|]. simpl. intros r r' Hr.
    apply rbind_Ok in Hr as (v & Hv & Hr). injection Hr as <-.
    exists v. split; [exact Hv | reflexivity].
Qed.

Lemma columns_from_dicts d ds :
  columns (from_dicts (d :: ds)) = map fst d.
Proof.
  unfold columns, from_dicts. cbn [schema]. rewrite map_map. simpl.
  apply map_id.
Qed.

Lemma rows_from_dicts d ds :
  rows (from_dicts (d :: ds)) = map (dict_row (map fst d)) (d :: ds).
Proof. reflexivity. Qed.

Lemma get_detections_rows_kept :
  parsers_agree fromisoformat to_datetime ->
  forall station_id page_size max_pages stop_before earliest_detection_at w df w',
    get_detections station_id page_size max_pages stop_before
                   earliest_detection_at w = (Ok df, w') ->
    exists earliest_dt,
      earliest_instant earliest_detection_at = Ok earliest_dt
      /\ Forall (fun r => exists t,
                   cell r "timestamp" = VDatetime t
                   /\ boundary stop_before earliest_dt t = false)
                (rows df).
Proof.
  intros Hagree station_id page_size max_pages stop_before earliest w df w' H.
  unfold get_detections in H.
  apply bind_Ok in H as (sid & w1 & _ & H).
  apply bind_lift_Ok in H as (earliest_dt & Hearly & H).
  apply bind_Ok in H as (all_nodes & w2 & Hpages & H).
  exists earliest_dt. split; [exact Hearly|].
  apply detection_pages_kept in Hpages; [|constructor].
  destruct all_nodes as [|d ds].
  - apply ret_Ok in H as [<- _]. constructor.
  - apply lift_Ok in H as [H _].
    apply str_convert_Ok in H as [Hcol Hrows].
    rewrite columns_from_dicts in Hcol. rewrite rows_from_dicts in Hrows.
    remember (d :: ds) as all_nodes eqn:Eall. clear Eall.
    revert Hrows. generalize (rows df). clear df.
    induction Hpages as [|x l Hx _ IH]; intros rs Hrows; simpl in Hrows.
    + inversion Hrows. constructor.
    + inversion Hrows as [|? r' ? rs' (v & Hv & ->) Hrest]; subst.
      constructor; [|apply IH; exact Hrest].
      destruct Hx as (s & t & Hs & Ht & Hb).
      rewrite cell_dict_row, bool_decide_eq_true_2 in Hv by exact Hcol.
      unfold dict_get in Hv. rewrite Hs in Hv. simpl in Hv.
      destruct (to_datetime s) as [t'|] eqn:Et'; [|discriminate].
      injection Hv as <-.
      exists t. rewrite cell_insert_eq, <- (Hagree _ _ _ Ht Et').
      split; [reflexivity | exact Hb].
Qed.


Lemma scan_nodes_stops stop_before earliest_dt node post pre :
  forall acc kept,
    forallb (kept_node stop_before earliest_dt) pre = true ->
    rmap detection_row pre = Ok kept ->
    boundary_node stop_before earliest_dt node = true ->
    scan_nodes stop_before earliest_dt (pre ++ node :: post) acc
      = Ok ((acc ++ kept)%list, true).
Proof.
  induction pre as [|n pre IH]; intros acc kept Hpre Hrows Hnode.
  - injection Hrows as <-. rewrite app_nil_r. simpl.
    unfold boundary_node, node_instant in Hnode.
    destruct (getitem node "timestamp") as [ts|]; simpl in *; [|discriminate].
    destruct (parse_timestamp ts) as [t|]; simpl in *; [|discriminate].
    unfold boundary in Hnode.
    destruct (at_or_before stop_before t); [reflexivity|].
    simpl in Hnode. rewrite Hnode. reflexivity.
  - simpl in Hpre. apply andb_true_iff in Hpre as [Hn Hpre].
    simpl in Hrows.
    apply rbind_Ok in Hrows as (r & Hr & Hrows).
    apply rbind_Ok in Hrows as (rs & Hrs & Hrows). injection Hrows as <-.
    simpl. unfold kept_node, node_instant in Hn.
    destruct (getitem n "timestamp") as [ts|]; simpl in *; [|discriminate].
    destruct (parse_timestamp ts) as [t|]; simpl in *; [|discriminate].
    unfold boundary in Hn. apply negb_true_iff, orb_false_iff in Hn as [-> ->].
    rewrite Hr. simpl. rewrite (IH _ _ Hpre Hrs Hnode).
    rewrite <- app_assoc. reflexivity.
Qed.

Lemma earliest_instant_requested earliest_detection_at floor :
  earliest_instant earliest_detection_at = Ok floor <->
  requested_floor earliest_detection_at floor.
Proof.
  unfold earliest_instant, requested_floor, parse_timestamp.
  destruct earliest_detection_at as [s|]; [|split; [intros [= <-]|intros ->]; reflexivity].
  destruct (String.eqb s ""); [split; [intros [= <-]|intros ->]; reflexivity|].
  destruct (fromisoformat (str_replace "Z" "+00:00" s)) as [e|]; simpl.
  - split; [intros [= <-]; exists e; split; reflexivity|].
    intros (e' & [= <-] & ->). reflexivity.
  - split; [discriminate|]. intros (e' & He' & _). discriminate.
Qed.

Lemma node_instant_of node t : instant_of node t -> node_instant node = Ok t.
Proof.
  intros (ts & Hts & Ht). unfold node_instant, parse_timestamp.
  rewrite Hts. simpl. rewrite Ht. reflexivity.
Qed.

Lemma boundary_within stop_before floor t :
  boundary stop_before floor t = false <-> within stop_before floor t.
Proof.
  unfold boundary, within, at_or_before, before_earliest.
  rewrite orb_false_iff. split.
  - intros [Hstop Hfloor]. split.
    + intros T ->. apply Z.leb_gt in Hstop. exact Hstop.
    + intros e ->. apply Z.ltb_ge in Hfloor. exact Hfloor.
  - intros [Hstop Hfloor]. split.
    + destruct stop_before as [T|]; [|reflexivity].
      apply Z.leb_gt, Hstop. reflexivity.
    + destruct floor as [e|]; [|reflexivity].
      apply Z.ltb_ge, Hfloor. reflexivity.
Qed.

Lemma boundary_beyond stop_before floor t :
  beyond stop_before floor t -> boundary stop_before floor t = true.
Proof.
  unfold boundary, beyond, at_or_before, before_earliest.
  intros [(T & -> & Ht)|(e & -> & Ht)]; apply orb_true_iff.
  - left. apply Z.leb_le. exact Ht.
  - right. apply Z.ltb_lt. exact Ht.
Qed.

(** A page whose first node beyond a limit comes behind nodes within
    both: the page loop ends there, with the rows kept so far and those
    of the nodes before that one. *)
Lemma detection_pages_stop fuel sid page_size stop_before floor cursor acc w
      data w1 det pre node post kept t :
  query_graphql Detections
    (Some (detections_variables sid page_size cursor)) DEFAULT_RETRIES w
    = (Ok data, w1) ->
  (let? station := getitem data "station" in
   getitem station "detections")%result = Ok det ->
  getitem det "nodes" = Ok (VList (pre ++ node :: post)) ->
  Forall (fun n => exists t', instant_of n t' /\ within stop_before floor t') pre ->
  rmap detection_row pre = Ok kept ->
  instant_of node t ->
  beyond stop_before floor t ->
  detection_pages (S fuel) sid page_size stop_before floor cursor acc w
    = (Ok (acc ++ kept)%list, w1).
Proof.
  intros Hq Hdet Hnodes Hpre Hrows Hnode Hbeyond.
  assert (Hkept : forallb (kept_node stop_before floor) pre = true).
  { apply forallb_forall. intros n Hn. rewrite Forall_forall in Hpre.
    destruct (Hpre n (proj2 (list_elem_of_In _ _) Hn)) as (t' & Ht' & Hin).
    unfold kept_node. rewrite (node_instant_of _ _ Ht').
    apply negb_true_iff, boundary_within. exact Hin. }
  assert (Hstop : boundary_node stop_before floor node = true).
  { unfold boundary_node. rewrite (node_instant_of _ _ Hnode).
    apply boundary_beyond. exact Hbeyond. }
  simpl. unfold bind at 1. rewrite Hq.
  unfold bind at 1, lift at 1. rewrite Hdet.
  unfold bind at 1, lift at 1. rewrite Hnodes.
  assert (Htruthy : truthy (VList (pre ++ node :: post)) = true)
    by (destruct pre; reflexivity).
  rewrite Htruthy. cbn [negb py_iter]. cbv beta iota.
  unfold bind at 1, lift at 1. unfold bind at 1, lift at 1.
  rewrite (scan_nodes_stops _ _ _ _ _ _ _ Hkept Hrows Hstop).
  reflexivity.
Qed.

(** C1. Every row [get_detections] returns carries an instant strictly
    after [stop_before] and not before the instant of
    [earliest_detection_at] (each when given).  And the first node at or
    beyond either limit ends the fetch: when a page holds such a node
    behind nodes [pre] that are within both, the page loop ends with the
    rows collected so far followed by the rows of [pre] only, in the
    world right after that one query; and when this is the first page,
    [get_detections] returns the table of the rows of [pre], having
    posted that one query.  The boundary node, the rest of its page and
    every later page stay out. *)
Theorem get_detections_stop_conditions :
  parsers_agree fromisoformat to_datetime ->
  forall (station_id : option string) (page_size max_pages : Z)
         (stop_before : option Z) (earliest_detection_at : option string)
         (w : World),
    (forall df w',
        get_detections station_id page_size max_pages stop_before
                       earliest_detection_at w = (Ok df, w') ->
        exists floor,
          requested_floor earliest_detection_at floor
          /\ Forall (fun r => exists t,
                       cell r "timestamp" = VDatetime t
                       /\ within stop_before floor t)
                    (rows df))
    /\ (forall floor fuel sid cursor acc data w1 det pre node post kept t,
           requested_floor earliest_detection_at floor ->
           query_graphql Detections
             (Some (detections_variables sid page_size cursor)) DEFAULT_RETRIES w
             = (Ok data, w1) ->
           (let? station := getitem data "station" in
            getitem station "detections")%result = Ok det ->
           getitem det "nodes" = Ok (VList (pre ++ node :: post)) ->
           Forall (fun n => exists t', instant_of n t' /\ within stop_before floor t')
                  pre ->
           rmap detection_row pre = Ok kept ->
           instant_of node t ->
           beyond stop_before floor t ->
           detection_pages (S fuel) sid page_size stop_before floor cursor acc w
             = (Ok (acc ++ kept)%list, w1))
    /\ (forall floor sid w0 data w1 det pre node post kept t,
           requested_floor earliest_detection_at floor ->
           station_or_env station_id w = (Ok sid, w0) ->
           0 < max_pages ->
           query_graphql Detections
             (Some (detections_variables sid page_size VNull)) DEFAULT_RETRIES w0
             = (Ok data, w1) ->
           (let? station := getitem data "station" in
            getitem station "detections")%result = Ok det ->
           getitem det "nodes" = Ok (VList (pre ++ node :: post)) ->
           Forall (fun n => exists t', instant_of n t' /\ within stop_before floor t')
                  pre ->
           rmap detection_row pre = Ok kept ->
           instant_of node t ->
           beyond stop_before floor t ->
           get_detections station_id page_size max_pages stop_before
                          earliest_detection_at w
           = (match kept with
              | [] => Ok (mkFrame [("id", Utf8); ("timestamp", Utf8);
                                   ("speciesId", Utf8); ("commonName", Utf8);
                                   ("scientificName", Utf8); ("confidence", Float64);
                                   ("probability", Float64); ("score", Float64);
                                   ("certainty", Utf8)] [])
              | _ :: _ => str_to_datetime "timestamp" (from_dicts kept)
              end, w1)).
Proof.
  intros Hagree station_id page_size max_pages stop_before earliest w.
  split; [|split].
  - intros df w' H.
    destruct (get_detections_rows_kept Hagree _ _ _ _ _ _ _ _ H)
      as (floor & Hfloor & Hrows).
    exists floor. split; [apply earliest_instant_requested; exact Hfloor|].
    eapply Forall_impl; [exact Hrows|]. simpl.
    intros r (t & Hcell & Hb). exists t. split; [exact Hcell|].
    apply boundary_within. exact Hb.
  - intros floor fuel sid cursor acc data w1 det pre node post kept t _.
    apply detection_pages_stop.
  - intros floor sid w0 data w1 det pre node post kept t
           Hfloor Hsid Hpages Hq Hdet Hnodes Hpre Hrows Hnode Hbeyond.
    apply earliest_instant_requested in Hfloor.
    unfold get_detections. unfold bind at 1. rewrite Hsid.
    unfold bind at 1, lift at 1. rewrite Hfloor.
    destruct (Z.to_nat max_pages) as [|fuel] eqn:Efuel; [lia|].
    unfold bind at 1.
    rewrite (detection_pages_stop fuel sid page_size stop_before floor VNull []
               w0 data w1 det pre node post kept t
               Hq Hdet Hnodes Hpre Hrows Hnode Hbeyond).
    cbn [app]. destruct kept; reflexivity.
Qed.


(** ** The fetchers never touch the cache files *)

Lemma keeps_files_ret {A} (a : A) : keeps_files (ret a).
Proof. intros w. reflexivity. Qed.

Lemma keeps_files_raise {A} e : keeps_files (@raise A e).
Proof. intros w. reflexivity. Qed.

Lemma keeps_files_lift {A} (r : result A) : keeps_files (lift r).
Proof. intros w. reflexivity. Qed.

Lemma keeps_files_bind {A B} (c : M A) (k : A -> M B) :
  keeps_files c -> (forall a, keeps_files (k a)) -> keeps_files (bind c k).
Proof.
  intros Hc Hk w. unfold bind. specialize (Hc w).
  destruct (c w) as [[a|e] w1]; simpl in *.
  - rewrite Hk. exact Hc.
  - exact Hc.
Qed.

Lemma keeps_files_if {A} (b : bool) (c1 c2 : M A) :
  keeps_files c1 -> keeps_files c2 -> keeps_files (if b then c1 else c2).
Proof. destruct b; auto. Qed.

Ltac keeps_files_step :=
  first [ apply keeps_files_ret
        | apply keeps_files_raise
        | apply keeps_files_lift
        | apply keeps_files_if
        | apply keeps_files_bind; [|intros ?] ].

Lemma keeps_files_query_attempts fuel :
  forall attempt retries req, keeps_files (query_attempts fuel attempt retries req).
Proof.
  induction fuel as [|fuel IH]; intros attempt retries req w; simpl; [reflexivity|].
  destruct (remote w (log w) req) as [| | |body].
  - destruct (attempt <? retries - 1); [rewrite IH|]; reflexivity.
  - destruct (attempt <? retries - 1); [rewrite IH|]; reflexivity.
  - reflexivity.
  - destruct body; try reflexivity. destruct (assoc "errors" fields); reflexivity.
Qed.

Lemma keeps_files_query_graphql q variables retries :
  keeps_files (query_graphql q variables retries).
Proof. intros w. unfold query_graphql. apply keeps_files_query_attempts. Qed.

Lemma keeps_files_resolve token : keeps_files (resolve_station_numeric_id token).
Proof.
  intros w. unfold resolve_station_numeric_id.
  destruct (station_cache w !! token); [reflexivity|].
  revert w. change (keeps_files
    (let* data := query_graphql FindStation (Some [("query", VStr token)])
                    DEFAULT_RETRIES in
     let* stations := lift (get_default data "stations" (VStruct [])) in
     let* nodes := lift (get_default stations "nodes" (VList [])) in
     if negb (truthy nodes) then raise ValueError
     else
       let* first := lift (index0 nodes) in
       let* id := lift (getitem first "id") in
       fun w' => (Ok (str_of id), cache_station token (str_of id) w'))%world).
  apply keeps_files_bind; [apply keeps_files_query_graphql|intros data].
  repeat keeps_files_step.
  intros w. reflexivity.
Qed.

Lemma keeps_files_get_station_id : keeps_files get_station_id.
Proof.
  intros w. unfold get_station_id.
  destruct (env_station_id w) as [token|]; [|reflexivity].
  destruct (String.eqb token ""); [reflexivity|].
  destruct (isdigit token); [reflexivity|].
  apply keeps_files_resolve.
Qed.

Lemma keeps_files_station_or_env station_id : keeps_files (station_or_env station_id).
Proof.
  unfold station_or_env. destruct station_id as [s|].
  - apply keeps_files_if; [apply keeps_files_get_station_id | apply keeps_files_ret].
  - apply keeps_files_get_station_id.
Qed.

Lemma keeps_files_detection_pages fuel :
  forall station_id page_size stop_before earliest_dt cursor acc,
    keeps_files (detection_pages fuel station_id page_size stop_before
                                 earliest_dt cursor acc).
Proof.
  induction fuel as [|fuel IH]; intros; simpl; [apply keeps_files_ret|].
  apply keeps_files_bind; [apply keeps_files_query_graphql|intros data].
  repeat keeps_files_step. apply IH.
Qed.

Lemma keeps_files_get_detections station_id page_size max_pages stop_before earliest :
  keeps_files (get_detections station_id page_size max_pages stop_before earliest).
Proof.
  unfold get_detections.
  apply keeps_files_bind; [apply keeps_files_station_or_env|intros sid].
  apply keeps_files_bind; [apply keeps_files_lift|intros e].
  apply keeps_files_bind; [apply keeps_files_detection_pages|intros all_nodes].
  destruct all_nodes; [apply keeps_files_ret | apply keeps_files_lift].
Qed.

Lemma keeps_files_get_species_probabilities station_id :
  keeps_files (get_species_probabilities station_id).
Proof.
  unfold get_species_probabilities.
  apply keeps_files_bind; [apply keeps_files_station_or_env|intros sid].
  apply keeps_files_bind; [apply keeps_files_query_graphql|intros data].
  apply keeps_files_bind; [apply keeps_files_lift|intros rs].
  destruct rs; apply keeps_files_ret.
Qed.


(** ** Sorting and deduplication *)

Lemma insert_sorted_perm {A} (le : A -> A -> bool) x l :
  Permutation (insert_sorted le x l) (x :: l).
Proof.
  induction l as [|y l IH]; simpl; [reflexivity|].
  destruct (le x y); [reflexivity|].
  rewrite IH. apply perm_swap.
Qed.

Lemma sort_list_perm {A} (le : A -> A -> bool) l : Permutation (sort_list le l) l.
Proof.
  induction l as [|x l IH]; simpl; [reflexivity|].
  unfold sort_list in IH. rewrite insert_sorted_perm, IH. reflexivity.
Qed.

Section sorting.
Context {A : Type} (le : A -> A -> bool).
Hypothesis le_total : forall a b, le a b = false -> le b a = true.

Lemma insert_sorted_HdRel x y l :
  le y x = true ->
  HdRel (fun a b => le a b = true) y l ->
  HdRel (fun a b => le a b = true) y (insert_sorted le x l).
Proof.
  intros Hyx Hhd. destruct l as [|z l]; simpl.
  - constructor. exact Hyx.
  - destruct (le x z); constructor; [exact Hyx|].
    inversion Hhd. assumption.
Qed.

Lemma insert_sorted_Sorted x l :
  Sorted (fun a b => le a b = true) l ->
  Sorted (fun a b => le a b = true) (insert_sorted le x l).
Proof.
  induction 1 as [|y l Hl IH Hhd]; simpl.
  - repeat constructor.
  - destruct (le x y) eqn:E.
    + constructor; [constructor; assumption|]. constructor. exact E.
    + constructor; [exact IH|].
      apply insert_sorted_HdRel; [apply le_total, E | exact Hhd].
Qed.

Lemma sort_list_Sorted l : Sorted (fun a b => le a b = true) (sort_list le l).
Proof.
  induction l as [|x l IH]; simpl; [constructor|].
  apply insert_sorted_Sorted, IH.
Qed.
End sorting.

Lemma snd_combine_seq {A} (l : list A) :
  forall n, map snd (combine (seq n (length l)) l) = l.
Proof.
  induction l as [|x l IH]; intros n; simpl; [reflexivity|].
  rewrite IH. reflexivity.
Qed.

(** Whatever order the library chooses, the rows are the same. *)
Lemma arrange_perm l : Permutation (arrange l) l.
Proof.
  unfold arrange.
  rewrite (Permutation_map snd (sort_list_perm _ _)).
  rewrite snd_combine_seq. reflexivity.
Qed.

Lemma unique_Ok subset keep df df' :
  unique subset keep df = Ok df' ->
  schema df' = schema df
  /\ Permutation (rows df')
       (match keep with
        | KeepFirst => keep_first (key_of subset) (rows df)
        | KeepLast => keep_last (key_of subset) (rows df)
        | KeepAny => keep_any (key_of subset) (rows df)
        end).
Proof.
  unfold unique. intros H. apply rbind_Ok in H as (? & _ & H).
  injection H as <-. split; [reflexivity|]. cbn [rows]. apply arrange_perm.
Qed.

Lemma NoDup_key_cell c (l : list row) :
  NoDup (map (key_of [c]) l) -> NoDup (map (fun r => cell r c) l).
Proof.
  induction l as [|r l IH]; simpl; intros Hnd; [constructor|].
  inversion Hnd as [|? ? Hnotin Hnd']; subst.
  constructor; [|exact (IH Hnd')].
  intros Hin. apply Hnotin.
  apply list_elem_of_fmap in Hin as (r' & Hr' & Hin).
  apply list_elem_of_fmap. exists r'. split; [|exact Hin].
  unfold key_of. simpl. rewrite Hr'. reflexivity.
Qed.

Lemma keep_last_subset {A K} `{EqDecision K} (key : A -> K) l x :
  x ∈ keep_last key l -> x ∈ l.
Proof.
  induction l as [|y l IH]; simpl; [intros H; exact H|].
  destruct (bool_decide (key y ∈ map key l)).
  - intros Hx. apply list_elem_of_further, IH, Hx.
  - intros Hx. apply elem_of_cons in Hx as [->|Hx].
    + apply list_elem_of_here.
    + apply list_elem_of_further, IH, Hx.
Qed.

Lemma keep_last_NoDup {A K} `{EqDecision K} (key : A -> K) l :
  NoDup (map key (keep_last key l)).
Proof.
  induction l as [|y l IH]; simpl; [constructor|].
  destruct (bool_decide (key y ∈ map key l)) eqn:E; [exact IH|].
  simpl. constructor; [|exact IH].
  apply bool_decide_eq_false in E. intros Hin. apply E.
  apply list_elem_of_fmap in Hin as (x & Hx & Hin).
  apply keep_last_subset in Hin.
  rewrite Hx. apply list_elem_of_fmap_2. exact Hin.
Qed.

Lemma value_compare_antisym a b :
  value_compare a b = CompOpp (value_compare b a).
Proof.
  destruct a, b; simpl; try reflexivity;
    try apply Z.compare_antisym; try apply String.compare_antisym.
  destruct b, b0; reflexivity.
Qed.

Lemma value_ltb_asym a b : value_ltb a b = true -> value_ltb b a = false.
Proof.
  unfold value_ltb. rewrite (value_compare_antisym b a).
  destruct (value_compare a b); simpl; congruence.
Qed.

Lemma cell_ltb_ascending a b : cell_ltb false a b = value_ltb a b.
Proof. destruct a, b; reflexivity. Qed.

Lemma row_leb_total by_ r1 r2 : row_leb by_ r1 r2 = false -> row_leb by_ r2 r1 = true.
Proof.
  induction by_ as [|[c desc] by_ IH]; simpl; [discriminate|].
  destruct (cell_ltb desc (cell r1 c) (cell r2 c)) eqn:E1; [discriminate|].
  destruct (cell_ltb desc (cell r2 c) (cell r1 c)) eqn:E2; [reflexivity|].
  exact IH.
Qed.

Lemma Sorted_weaken {A} (R R' : A -> A -> Prop) l :
  (forall a b, R a b -> R' a b) -> Sorted R l -> Sorted R' l.
Proof.
  intros Himp. induction 1 as [|x l Hl IH Hhd]; constructor; [exact IH|].
  destruct Hhd; constructor. apply Himp. assumption.
Qed.

Lemma sort_timestamps_ascending df df' :
  sort "timestamp" df = Ok df' -> timestamps_ascending df'.
Proof.
  unfold sort, sort_by. intros H.
  apply rbind_Ok in H as (? & _ & H). injection H as <-.
  unfold timestamps_ascending. cbn [rows].
  apply (Sorted_weaken (fun a b => row_leb [("timestamp", false)] a b = true));
    [|exact (sort_list_Sorted (row_leb [("timestamp", false)]) (row_leb_total _) _)].
  intros r1 r2. simpl. unfold timestamp_le, value_leb.
  rewrite !cell_ltb_ascending.
  destruct (value_ltb (cell r1 "timestamp") (cell r2 "timestamp")) eqn:E1.
  - intros _. rewrite (value_ltb_asym _ _ E1). reflexivity.
  - destruct (value_ltb (cell r2 "timestamp") (cell r1 "timestamp")); [discriminate|].
    reflexivity.
Qed.

Lemma sort_rows_perm c df df' :
  sort c df = Ok df' -> Permutation (rows df') (rows df).
Proof.
  unfold sort, sort_by. intros H.
  apply rbind_Ok in H as (? & _ & H). injection H as <-.
  cbn [rows]. rewrite sort_list_perm. apply arrange_perm.
Qed.


(** ** [sync_detections] *)

Lemma files_ensure_data_dir w : files (ensure_data_dir w) = files w.
Proof. reflexivity. Qed.

(** C4. [sync_detections] writes the detections file only with a result
    that has rows, and then writes that result; with a result of zero
    rows, or when the sync raises, every cache file is as it was. *)
Theorem sync_detections_never_writes_empty :
  forall (station_id : string) (earliest_detection_at : option string) (w : World),
    match sync_detections station_id earliest_detection_at w with
    | (Ok combined, w') =>
        if (0 <? height combined)%nat
        then files w' = <[DETECTIONS_PATH := mkFile combined (clock w')]> (files w)
        else files w' = files w
    | (Raise _, w') => files w' = files w
    end.
Proof.
  intros station_id earliest w. unfold sync_detections.
  set (w0 := ensure_data_dir w).
  unfold bind at 1, lift at 1.
  destruct (cache_boundary w0) as [stop_before|e]; [|reflexivity].
  unfold bind at 1.
  pose proof (keeps_files_get_detections (Some station_id) 100 1000 stop_before
                earliest w0) as Hfetch.
  destruct (get_detections (Some station_id) 100 1000 stop_before earliest w0)
    as [[new_data|e] w1]; simpl in Hfetch; [|exact Hfetch].
  unfold bind at 1, lift at 1.
  destruct (combine_detections (read_parquet DETECTIONS_PATH w0) new_data)
    as [combined|e]; [|exact Hfetch].
  unfold persist_nonempty.
  destruct (0 <? height combined)%nat eqn:Erows; cbv iota; rewrite Erows.
  - cbn [files write_parquet clock]. rewrite Hfetch. reflexivity.
  - exact Hfetch.
Qed.

(** C3. Over a cache that holds rows, a sync whose fetch brings no row
    returns the cached table and writes it back as it is: the file then
    holds the same rows in the same order. *)
Theorem sync_detections_idempotent_without_news :
  forall (station_id : string) (earliest_detection_at : option string)
         (w : World) (existing : DataFrame) (stop_before : option Z)
         (new_data : DataFrame) (w1 : World),
    read_parquet DETECTIONS_PATH w = Some existing ->
    (0 < height existing)%nat ->
    cache_boundary (ensure_data_dir w) = Ok stop_before ->
    get_detections (Some station_id) 100 1000 stop_before earliest_detection_at
                   (ensure_data_dir w) = (Ok new_data, w1) ->
    height new_data = 0%nat ->
    sync_detections station_id earliest_detection_at w
      = (Ok existing, write_parquet DETECTIONS_PATH existing w1)
    /\ read_parquet DETECTIONS_PATH (write_parquet DETECTIONS_PATH existing w1)
       = Some existing.
Proof.
  intros station_id earliest w existing stop_before new_data w1
         Hread Hrows Hstop Hfetch Hnone.
  split.
  - unfold sync_detections.
    unfold bind at 1, lift at 1. rewrite Hstop.
    unfold bind at 1. rewrite Hfetch.
    unfold bind at 1, lift at 1.
    change (read_parquet DETECTIONS_PATH (ensure_data_dir w))
      with (read_parquet DETECTIONS_PATH w).
    rewrite Hread. unfold combine_detections.
    apply Nat.ltb_lt in Hrows. rewrite Hrows, Hnone. simpl.
    unfold persist_nonempty. rewrite Hrows. reflexivity.
  - unfold read_parquet, write_parquet. simpl.
    rewrite lookup_insert_eq. reflexivity.
Qed.

Lemma distinct_ids_unique_last df df' :
  unique ["id"] KeepLast df = Ok df' -> distinct_ids df'.
Proof.
  intros H. apply unique_Ok in H as (_ & Hperm). unfold distinct_ids.
  rewrite (Permutation_map (fun r => cell r "id") Hperm).
  apply NoDup_key_cell, keep_last_NoDup.
Qed.

Lemma distinct_ids_sort df df' :
  sort "timestamp" df = Ok df' -> distinct_ids df -> distinct_ids df'.
Proof.
  intros Hsort Hnd. unfold distinct_ids in *.
  assert (Hperm : Permutation (map (fun r => cell r "id") (rows df'))
                              (map (fun r => cell r "id") (rows df)))
    by (apply Permutation_map; eapply sort_rows_perm; exact Hsort).
  rewrite Hperm. exact Hnd.
Qed.

Lemma merge_detections_invariant ex new_data df :
  merge_detections ex new_data = Ok df ->
  distinct_ids df /\ timestamps_ascending df.
Proof.
  unfold merge_detections. intros H.
  apply rbind_Ok in H as (selected & _ & H).
  apply rbind_Ok in H as (combined & _ & H).
  apply rbind_Ok in H as (deduped & Hdedup & H).
  split.
  - eapply distinct_ids_sort; [exact H|].
    eapply distinct_ids_unique_last. exact Hdedup.
  - eapply sort_timestamps_ascending. exact H.
Qed.

(** C2, as the code has it. A merge of a cache that holds rows with a
    fetch that brings rows yields pairwise distinct ids and timestamps in
    ascending order. With a fetch of zero rows the cache is the result,
    unchanged. On a first run (no cache, or one without rows) the result
    is in ascending timestamp order, and its ids are pairwise distinct
    when the fetched ids are. *)
Theorem sync_detections_invariant :
  forall (station_id : string) (earliest_detection_at : option string)
         (w : World) (df : DataFrame) (w' : World),
    sync_detections station_id earliest_detection_at w = (Ok df, w') ->
    exists stop_before new_data w1,
      cache_boundary (ensure_data_dir w) = Ok stop_before
      /\ get_detections (Some station_id) 100 1000 stop_before earliest_detection_at
                        (ensure_data_dir w) = (Ok new_data, w1)
      /\ match cached_detections (ensure_data_dir w) with
         | Some ex =>
             if (0 <? height new_data)%nat
             then distinct_ids df /\ timestamps_ascending df
             else df = ex
         | None =>
             timestamps_ascending df /\ (distinct_ids new_data -> distinct_ids df)
         end.
Proof.
  intros station_id earliest w df w' H. unfold sync_detections in H.
  apply bind_lift_Ok in H as (stop_before & Hstop & H).
  apply bind_Ok in H as (new_data & w1 & Hfetch & H).
  apply bind_lift_Ok in H as (combined & Hcombine & H).
  assert (combined = df) as ->.
  { unfold persist_nonempty in H. destruct (0 <? height combined)%nat; congruence. }
  clear H. exists stop_before, new_data, w1.
  split; [exact Hstop|]. split; [exact Hfetch|].
  unfold cached_detections, combine_detections in *.
  assert (Hfirst :
    (if (0 <? height new_data)%nat then sort "timestamp" new_data else Ok new_data)
      = Ok df ->
    timestamps_ascending df /\ (distinct_ids new_data -> distinct_ids df)).
  { destruct (0 <? height new_data)%nat eqn:Enew; intros Hs.
    - split; [eapply sort_timestamps_ascending; exact Hs|].
      intros Hnd. eapply distinct_ids_sort; [exact Hs | exact Hnd].
    - injection Hs as <-. split; [|auto].
      apply Nat.ltb_ge in Enew. unfold timestamps_ascending.
      unfold height in Enew. destruct (rows new_data); [constructor|simpl in Enew; lia]. }
  destruct (read_parquet DETECTIONS_PATH (ensure_data_dir w)) as [ex|]; [|auto].
  destruct (0 <? height ex)%nat; [|auto].
  destruct (0 <? height new_data)%nat.
  - eapply merge_detections_invariant. exact Hcombine.
  - congruence.
Qed.


(** ** [sync_species_probabilities] *)

(** C5. With a cache file younger than seven days (the clock and the
    file times count microseconds) the cached table is returned and
    nothing else happens: no request is logged and no file changes.  Otherwise (no file, or one at least seven days old) the
    probabilities are fetched; a fetch that brings rows replaces the file
    by exactly those rows, a fetch of zero rows leaves every file as it
    was, stale cache included, and in both cases the fetched table is the
    result. *)
Theorem sync_species_probabilities_cache_policy :
  forall (station_id : string) (w : World),
    let w0 := ensure_data_dir w in
    let refetched :=
      match get_species_probabilities (Some station_id) w0 with
      | (Ok probs, w1) =>
          if (0 <? height probs)%nat
          then sync_species_probabilities station_id w
                 = (Ok probs, write_parquet SPECIES_PROBS_PATH probs w1)
               /\ read_parquet SPECIES_PROBS_PATH
                    (write_parquet SPECIES_PROBS_PATH probs w1) = Some probs
          else sync_species_probabilities station_id w = (Ok probs, w1)
               /\ files w1 = files w
      | (Raise e, w1) =>
          sync_species_probabilities station_id w = (Raise e, w1)
          /\ files w1 = files w
      end in
    match files w !! SPECIES_PROBS_PATH with
    | Some f =>
        if clock w - mtime f <? 7 * (24 * 60 * 60 * 1000000)
        then sync_species_probabilities station_id w = (Ok (content f), w0)
             /\ log w0 = log w /\ files w0 = files w
        else refetched
    | None => refetched
    end.
Proof.
  intros station_id w w0 refetched.
  change (7 * (24 * 60 * 60 * 1000000)) with SEVEN_DAYS.
  assert (Hfresh :
    sync_species_probabilities station_id w
      = bind (get_species_probabilities (Some station_id))
             (persist_nonempty SPECIES_PROBS_PATH) w0 ->
    refetched).
  { intros Hsync. unfold refetched.
    pose proof (keeps_files_get_species_probabilities (Some station_id) w0) as Hkeep.
    unfold bind in Hsync.
    destruct (get_species_probabilities (Some station_id) w0) as [[probs|e] w1];
      simpl in Hkeep.
    - unfold persist_nonempty in Hsync.
      destruct (0 <? height probs)%nat; split; try exact Hsync; try exact Hkeep.
      unfold read_parquet, write_parquet. simpl.
      rewrite lookup_insert_eq. reflexivity.
    - split; [exact Hsync | exact Hkeep]. }
  unfold sync_species_probabilities. fold w0.
  change (files w0) with (files w).
  destruct (files w !! SPECIES_PROBS_PATH) as [f|] eqn:Efile.
  - change (clock w0) with (clock w).
    destruct (clock w - mtime f <? SEVEN_DAYS) eqn:Eage.
    + repeat split.
    + apply Hfresh. unfold sync_species_probabilities. fold w0.
      change (files w0) with (files w). rewrite Efile.
      change (clock w0) with (clock w). rewrite Eage. reflexivity.
  - apply Hfresh. unfold sync_species_probabilities. fold w0.
    change (files w0) with (files w). rewrite Efile. reflexivity.
Qed.


(** ** Empty responses *)

(** Run the next call of a computation with its known outcome [H]. *)
Ltac run_call H := unfold bind at 1; rewrite H; cbv beta iota.

(** Follow a [path_get] hypothesis through the same lookups in the goal. *)
Ltac use_path H :=
  simpl path_get in H;
  repeat (let x := fresh "x" in
          let Hx := fresh "Hx" in
          apply rbind_Ok in H as (x & Hx & H); rewrite Hx; cbn [rbind]);
  injection H as ->.

(** C10. On a listing without entries [get_top_species] returns the
    table with zero rows and zero columns, where each of the other five
    fetchers returns the zero-row table of its explicit schema, with the
    full set of typed columns. *)
Theorem empty_response_frames :
  (forall station_id period limit w s w1 data w2,
      station_or_env station_id w = (Ok s, w1) ->
      query_graphql TopSpecies
        (Some ([("id", VStr s); ("limit", VInt limit)]
                 ++ optional_entry "period" period)%list) DEFAULT_RETRIES w1
        = (Ok data, w2) ->
      path_get data ["station"; "topSpecies"] = Ok (VList []) ->
      get_top_species station_id period limit w = (Ok (mkFrame [] []), w2))
  /\ (forall station_id page_size max_pages stop_before earliest_detection_at
             w s w1 data w2 det floor,
         station_or_env station_id w = (Ok s, w1) ->
         requested_floor earliest_detection_at floor ->
         0 < max_pages ->
         query_graphql Detections (Some (detections_variables s page_size VNull))
           DEFAULT_RETRIES w1 = (Ok data, w2) ->
         path_get data ["station"; "detections"] = Ok det ->
         getitem det "nodes" = Ok (VList []) ->
         get_detections station_id page_size max_pages stop_before
                        earliest_detection_at w
           = (Ok (mkFrame [("id", Utf8); ("timestamp", Utf8); ("speciesId", Utf8);
                           ("commonName", Utf8); ("scientificName", Utf8);
                           ("confidence", Float64); ("probability", Float64);
                           ("score", Float64); ("certainty", Utf8)] []), w2))
  /\ (forall station_id period page_size max_pages w s w1 data w2 hist has_next,
         station_or_env station_id w = (Ok s, w1) ->
         0 < max_pages ->
         query_graphql EnvHistory
           (Some ([("id", VStr s); ("first", VInt page_size)]
                    ++ optional_entry "after" VNull
                    ++ optional_entry "period" period)%list) DEFAULT_RETRIES w1
           = (Ok data, w2) ->
         path_get data ["station"; "sensors"; "environmentHistory"] = Ok hist ->
         getitem hist "nodes" = Ok (VList []) ->
         path_get hist ["pageInfo"; "hasNextPage"] = Ok has_next ->
         truthy has_next = false ->
         get_environment_history station_id period page_size max_pages w
           = (Ok (mkFrame [("timestamp", Utf8); ("temperature", Float64);
                           ("humidity", Float64); ("barometricPressure", Float64);
                           ("soundPressureLevel", Float64); ("aqi", Float64);
                           ("eco2", Float64); ("voc", Float64)] []), w2))
  /\ (forall station_id period w s w1 data w2,
         station_or_env station_id w = (Ok s, w1) ->
         query_graphql DailyDetections
           (Some ([("stationIds", VList [VStr s])]
                    ++ optional_entry "period" period)%list) DEFAULT_RETRIES w1
           = (Ok data, w2) ->
         path_get data ["dailyDetectionCounts"] = Ok (VList []) ->
         get_daily_detection_counts station_id period w
           = (Ok (mkFrame [("date", Utf8); ("dayOfYear", Int64);
                           ("dailyTotal", Int64); ("speciesId", Utf8);
                           ("commonName", Utf8); ("count", Int64)] []), w2))
  /\ (forall station_id period w s w1 data w2,
         station_or_env station_id w = (Ok s, w1) ->
         query_graphql TimeOfDay
           (Some ([("id", VStr s)] ++ optional_entry "period" period)%list)
           DEFAULT_RETRIES w1 = (Ok data, w2) ->
         path_get data ["station"; "timeOfDayDetectionCounts"] = Ok (VList []) ->
         get_time_of_day_counts station_id period w
           = (Ok (mkFrame [("speciesId", Utf8); ("commonName", Utf8);
                           ("totalCount", Int64); ("hour", Float64);
                           ("count", Int64)] []), w2))
  /\ (forall station_id w s w1 data w2,
         station_or_env station_id w = (Ok s, w1) ->
         query_graphql Probabilities (Some [("id", VStr s)]) DEFAULT_RETRIES w1
           = (Ok data, w2) ->
         path_get data ["station"; "probabilities"] = Ok (VList []) ->
         get_species_probabilities station_id w
           = (Ok (mkFrame [("speciesId", Utf8); ("commonName", Utf8);
                           ("week", Int64); ("probability", Float64)] []), w2)).
Proof.
  repeat apply conj.
  - intros station_id period limit w s w1 data w2 Hs Hq Hl.
    unfold get_top_species. run_call Hs. run_call Hq.
    unfold bind at 1, lift at 1. use_path Hl. reflexivity.
  - intros station_id page_size max_pages stop_before earliest w s w1 data w2 det
           floor Hs He Hpages Hq Hl Hnodes.
    apply earliest_instant_requested in He.
    unfold get_detections. run_call Hs.
    unfold bind at 1, lift at 1. rewrite He. cbv beta iota.
    destruct (Z.to_nat max_pages) as [|fuel] eqn:Efuel; [lia|].
    unfold bind at 1. simpl detection_pages. run_call Hq.
    unfold bind at 1, lift at 1. use_path Hl.
    unfold bind at 1, lift at 1. rewrite Hnodes. reflexivity.
  - intros station_id period page_size max_pages w s w1 data w2 hist has_next
           Hs Hpages Hq Hl Hnodes Hnext Hfalsy.
    unfold get_environment_history. run_call Hs.
    destruct (Z.to_nat max_pages) as [|fuel] eqn:Efuel; [lia|].
    unfold bind at 1. cbn [environment_pages]. run_call Hq.
    unfold bind at 1, lift at 1. use_path Hl.
    unfold bind at 1, lift at 1. rewrite Hnodes. cbn [rbind py_iter].
    unfold bind at 1, lift at 1. use_path Hnext.
    rewrite Hfalsy. reflexivity.
  - intros station_id period w s w1 data w2 Hs Hq Hl.
    unfold get_daily_detection_counts. run_call Hs. run_call Hq.
    unfold bind at 1, lift at 1. use_path Hl. reflexivity.
  - intros station_id period w s w1 data w2 Hs Hq Hl.
    unfold get_time_of_day_counts. run_call Hs. run_call Hq.
    unfold bind at 1, lift at 1. use_path Hl. reflexivity.
  - intros station_id w s w1 data w2 Hs Hq Hl.
    unfold get_species_probabilities. run_call Hs. run_call Hq.
    unfold bind at 1, lift at 1. use_path Hl. reflexivity.
Qed.


(** ** Rows, columns and keys *)

Lemma find_app {A} (p : A -> bool) l1 l2 :
  List.find p (l1 ++ l2) =
  match List.find p l1 with Some x => Some x | None => List.find p l2 end.
Proof.
  induction l1 as [|x l1 IH]; simpl; [reflexivity|].
  destruct (p x); [reflexivity | exact IH].
Qed.

Lemma find_map {A B} (p : B -> bool) (f : A -> B) l :
  List.find p (map f l) = option_map f (List.find (fun x => p (f x)) l).
Proof.
  induction l as [|x l IH]; simpl; [reflexivity|].
  destruct (p (f x)); [reflexivity | exact IH].
Qed.

Lemma find_ext {A} (p q : A -> bool) l :
  (forall x, p x = q x) -> List.find p l = List.find q l.
Proof.
  intros Hpq. induction l as [|x l IH]; simpl; [reflexivity|].
  rewrite Hpq, IH. reflexivity.
Qed.

(** Among the rows [keep_first] retains, those of one key are exactly
    the first row of that key. *)
Lemma filter_keep_first_from {A K} `{EqDecision K} (key : A -> K) (k : K) l :
  forall seen,
    List.filter (fun x => bool_decide (key x = k)) (keep_first_from key seen l) =
    if bool_decide (k ∈ seen) then []
    else match List.find (fun x => bool_decide (key x = k)) l with
         | Some x => [x]
         | None => []
         end.
Proof.
  induction l as [|x l IH]; intros seen; simpl.
  - destruct (bool_decide (k ∈ seen)); reflexivity.
  - destruct (bool_decide (key x ∈ seen)) eqn:Eseen.
    + rewrite IH. destruct (bool_decide (k ∈ seen)) eqn:Ek; [reflexivity|].
      destruct (bool_decide (key x = k)) eqn:Ex; [|reflexivity].
      apply bool_decide_eq_true in Ex, Eseen. apply bool_decide_eq_false in Ek.
      congruence.
    + simpl. rewrite IH.
      destruct (bool_decide (key x = k)) eqn:Ex.
      * apply bool_decide_eq_true in Ex. subst k.
        rewrite Eseen.
        rewrite bool_decide_eq_true_2 by apply list_elem_of_here. reflexivity.
      * apply bool_decide_eq_false in Ex.
        destruct (bool_decide (k ∈ seen)) eqn:Ek.
        -- apply bool_decide_eq_true in Ek.
           rewrite bool_decide_eq_true_2 by (apply list_elem_of_further; exact Ek).
           reflexivity.
        -- apply bool_decide_eq_false in Ek.
           rewrite bool_decide_eq_false_2; [reflexivity|].
           intros Hin. apply elem_of_cons in Hin as [->|Hin]; [congruence|auto].
Qed.

Lemma filter_keep_first {A K} `{EqDecision K} (key : A -> K) (k : K) l :
  List.filter (fun x => bool_decide (key x = k)) (keep_first key l) =
  match List.find (fun x => bool_decide (key x = k)) l with
  | Some x => [x]
  | None => []
  end.
Proof.
  unfold keep_first. rewrite filter_keep_first_from.
  rewrite bool_decide_eq_false_2; [reflexivity | apply not_elem_of_nil].
Qed.

Lemma find_keep_first {A K} `{EqDecision K} (key : A -> K) (k : K) l :
  List.find (fun x => bool_decide (key x = k)) (keep_first key l) =
  List.find (fun x => bool_decide (key x = k)) l.
Proof.
  pose proof (filter_keep_first key k l) as Hf.
  destruct (List.find (fun x => bool_decide (key x = k)) l) as [x|] eqn:E.
  - revert Hf. generalize (keep_first key l). intros l' Hf.
    induction l' as [|y l' IH]; simpl in *; [discriminate|].
    destruct (bool_decide (key y = k)); [congruence|]. apply IH, Hf.
  - revert Hf. generalize (keep_first key l). intros l' Hf.
    induction l' as [|y l' IH]; simpl in *; [reflexivity|].
    destruct (bool_decide (key y = k)); [discriminate|]. apply IH, Hf.
Qed.



Lemma rmap_Ok_all {A B} (f : A -> result B) l l' :
  rmap f l = Ok l' -> Forall (fun x => exists y, f x = Ok y) l.
Proof.
  intros H. apply rmap_Ok_Forall2 in H.
  induction H as [|x y l l' Hxy _ IH]; constructor; [exists y; exact Hxy | exact IH].
Qed.

Lemma rmap_pair_fst {A} (f : string -> result A) cols sch :
  rmap (fun c => let? t := f c in Ok (c, t))%result cols = Ok sch ->
  map fst sch = cols.
Proof.
  revert sch. induction cols as [|c cols IH]; intros sch; simpl.
  - intros [= <-]. reflexivity.
  - destruct (f c); simpl; [|discriminate].
    destruct (rmap _ cols) eqn:E; simpl; [|discriminate].
    intros [= <-]. simpl. f_equal. apply IH. reflexivity.
Qed.

Lemma column_dtype_Ok df c t : column_dtype df c = Ok t -> c ∈ columns df.
Proof.
  unfold column_dtype. destruct (assoc c (schema df)) eqn:E; [|discriminate].
  intros _. eapply assoc_Some_elem. exact E.
Qed.

Lemma select_Ok cols df df' :
  select cols df = Ok df' ->
  rows df' = map (project cols) (rows df)
  /\ columns df' = cols
  /\ Forall (fun c => c ∈ columns df) cols.
Proof.
  unfold select. intros H. apply rbind_Ok in H as (sch & Hsch & H).
  destruct (bool_decide (NoDup cols)); [|discriminate]. injection H as <-.
  split; [reflexivity|]. split.
  - unfold columns. simpl. eapply rmap_pair_fst. exact Hsch.
  - apply rmap_Ok_all in Hsch. eapply Forall_impl; [exact Hsch|].
    intros c [y Hy]. simpl in Hy. apply rbind_Ok in Hy as (t & Ht & _).
    eapply column_dtype_Ok. exact Ht.
Qed.


Lemma filter_ext_bool {A} (p q : A -> bool) l :
  (forall x, p x = q x) -> List.filter p l = List.filter q l.
Proof.
  intros Hpq. induction l as [|x l IH]; simpl; [reflexivity|].
  rewrite Hpq, IH. reflexivity.
Qed.




(** ** Aggregations over an empty table *)

Lemma compute_top_species_body_empty self now sch species_meta period_days limit :
  compute_top_species_body self now (mkFrame sch []) species_meta period_days limit
  = Ok (empty_frame TOP_SPECIES_SCHEMA).
Proof. reflexivity. Qed.

(** The model is a fixed point of the body: unfolding the recursive call
    once more changes nothing. *)
Lemma compute_top_species_unfold now detections species_meta period_days limit :
  compute_top_species now detections species_meta period_days limit
  = compute_top_species_body compute_top_species now detections species_meta
      period_days limit.
Proof.
  unfold compute_top_species at 1.
  unfold compute_top_species_body at 1 3.
  destruct (height detections =? 0)%nat; [reflexivity|].
  destruct (filter_period now period_days detections) as [df|]; [|reflexivity].
  cbn [rbind]. destruct (height df =? 0)%nat; reflexivity.
Qed.

(** C6. On a detections table without rows, whatever its columns,
    [compute_top_species] returns the table without rows whose columns
    are the fourteen of the output schema, [speciesId] to
    [averageProbability], with their types, for every metadata table,
    period and limit. *)
Theorem compute_top_species_empty :
  forall (now : Z) (sch : list (string * dtype)) (species_meta : DataFrame)
         (period_days : option Z) (limit : Z),
    compute_top_species now (mkFrame sch []) species_meta period_days limit
    = Ok (mkFrame
            [("speciesId", Utf8); ("commonName", Utf8); ("scientificName", Utf8);
             ("imageUrl", Utf8); ("thumbnailUrl", Utf8); ("color", Utf8);
             ("ebirdUrl", Utf8); ("wikipediaSummary", Utf8); ("count", Int64);
             ("almostCertain", Int64); ("veryLikely", Int64); ("uncertain", Int64);
             ("unlikely", Int64); ("averageProbability", Float64)]
            [])
    /\ length TOP_SPECIES_SCHEMA = 14%nat.
Proof. intros. split; reflexivity. Qed.

Lemma compute_daily_detection_counts_unfold now detections period_days :
  compute_daily_detection_counts now detections period_days
  = compute_daily_detection_counts_body compute_daily_detection_counts now
      detections period_days.
Proof.
  unfold compute_daily_detection_counts at 1.
  unfold compute_daily_detection_counts_body at 1 3.
  destruct (height detections =? 0)%nat; [reflexivity|].
  destruct (filter_period now period_days detections) as [df|]; [|reflexivity].
  cbn [rbind]. destruct (height df =? 0)%nat; reflexivity.
Qed.


(** ** Daily counts add up to the daily total *)

Lemma group_by_agg_Ok keys uses aggs df g :
  group_by_agg keys uses aggs df = Ok g ->
  Permutation (rows g)
    (map (group_row keys aggs (rows df)) (distinct (map (key_of keys) (rows df))))
  /\ exists key_schema,
       map fst key_schema = keys
       /\ schema g = (key_schema ++ map (fun a => (agg_name a, agg_dtype a)) aggs)%list.
Proof.
  unfold group_by_agg. intros H.
  apply rbind_Ok in H as (key_schema & Hkeys & H).
  apply rbind_Ok in H as (? & _ & H).
  destruct (bool_decide _); [|discriminate]. injection H as <-.
  split; [apply arrange_perm|]. exists key_schema. split; [|reflexivity].
  eapply rmap_pair_fst. exact Hkeys.
Qed.

Lemma sort_by_Ok by_ df sorted :
  sort_by by_ df = Ok sorted ->
  Permutation (rows sorted) (rows df) /\ schema sorted = schema df.
Proof.
  unfold sort_by. intros H. apply rbind_Ok in H as (? & _ & H).
  injection H as <-. split; [|reflexivity].
  cbn [rows]. rewrite sort_list_perm. apply arrange_perm.
Qed.

Lemma distinct_singleton {K} `{EqDecision K} (k : K) ks :
  k ∈ ks -> List.filter (fun x => bool_decide (x = k)) (distinct ks) = [k].
Proof.
  intros Hin. unfold distinct.
  rewrite (filter_keep_first (fun x => x) k ks).
  induction ks as [|x ks IH]; [inversion Hin|]. simpl.
  destruct (bool_decide (x = k)) eqn:E.
  - apply bool_decide_eq_true in E. subst. reflexivity.
  - apply bool_decide_eq_false in E. apply IH.
    apply elem_of_cons in Hin as [->|Hin]; [congruence | exact Hin].
Qed.

Lemma filter_map_comm {A B} (p : B -> bool) (f : A -> B) l :
  List.filter p (map f l) = map f (List.filter (fun x => p (f x)) l).
Proof.
  induction l as [|x l IH]; simpl; [reflexivity|].
  destruct (p (f x)); simpl; rewrite IH; reflexivity.
Qed.

Lemma filter_perm {A} (p : A -> bool) l l' :
  Permutation l l' -> Permutation (List.filter p l) (List.filter p l').
Proof.
  induction 1 as [|x l l' _ IH|x y l|l l' l'' _ IH1 _ IH2]; simpl.
  - constructor.
  - destruct (p x); [constructor|]; exact IH.
  - destruct (p x), (p y); try reflexivity. apply perm_swap.
  - etransitivity; eassumption.
Qed.

Lemma filter_perm_one {A} (p : A -> bool) l l' x :
  Permutation l l' -> List.filter p l' = [x] -> List.filter p l = [x].
Proof.
  intros H E. apply Permutation_length_1_inv. rewrite <- E.
  symmetry. apply filter_perm, H.
Qed.

Lemma sum_perm l l' :
  Permutation l l' -> fold_right Z.add 0 l = fold_right Z.add 0 l'.
Proof.
  induction 1 as [|x l l' _ IH|x y l|l l' l'' _ IH1 _ IH2]; simpl; lia.
Qed.

Lemma date_total_perm d l l' :
  Permutation l l' -> date_total d l = date_total d l'.
Proof.
  intros H. unfold date_total. apply sum_perm, Permutation_map, filter_perm, H.
Qed.


Lemma elem_of_distinct {K} `{EqDecision K} (k : K) ks : k ∈ distinct ks -> k ∈ ks.
Proof.
  unfold distinct, keep_first. generalize (@nil K).
  induction ks as [|x ks IH]; intros seen; simpl; [intros H; exact H|].
  destruct (bool_decide (x ∈ seen)).
  - intros H. apply list_elem_of_further. exact (IH _ H).
  - intros H. apply elem_of_cons in H as [->|H].
    + apply list_elem_of_here.
    + apply list_elem_of_further. exact (IH _ H).
Qed.

Lemma cell_totals_row_date aggs sd x :
  cell (group_row ["date"] aggs sd [x]) "date" = x.
Proof. unfold group_row, cell. simpl. rewrite lookup_insert_eq. reflexivity. Qed.

Lemma cell_totals_row_total sd x :
  cell (group_row ["date"] [mkAgg "dailyTotal" UInt32 (agg_sum "count")] sd [x])
       "dailyTotal"
  = agg_sum "count" (group_rows ["date"] [x] sd).
Proof.
  unfold group_row, cell. simpl.
  rewrite lookup_insert_ne by discriminate. rewrite lookup_insert_eq. reflexivity.
Qed.

(** The right rows a daily-count row with a date meets in the join: the
    one total of that date. *)
Lemma totals_matching sd l :
  l ∈ sd ->
  List.filter (fun r => bool_decide (cell r "date" = cell l "date"))
    (map (group_row ["date"] [mkAgg "dailyTotal" UInt32 (agg_sum "count")] sd)
         (distinct (map (key_of ["date"]) sd)))
  = [group_row ["date"] [mkAgg "dailyTotal" UInt32 (agg_sum "count")] sd
       [cell l "date"]].
Proof.
  intros Hl. rewrite filter_map_comm.
  rewrite (filter_ext_in _ (fun k => bool_decide (k = [cell l "date"]))).
  - rewrite distinct_singleton; [reflexivity|].
    apply (list_elem_of_fmap_2 (key_of ["date"])) in Hl. exact Hl.
  - intros k Hk. apply list_elem_of_In, elem_of_distinct in Hk.
    apply list_elem_of_fmap in Hk as (r & -> & _).
    unfold key_of. simpl. rewrite cell_totals_row_date.
    destruct (decide (cell r "date" = cell l "date")) as [E|E].
    + rewrite !bool_decide_eq_true_2; congruence.
    + rewrite !bool_decide_eq_false_2; congruence.
Qed.


Lemma flat_map_singletons {A B} (F : A -> list B) (f : A -> B) l :
  (forall x, x ∈ l -> F x = [f x]) -> flat_map F l = map f l.
Proof.
  induction l as [|x l IH]; intros H; [reflexivity|].
  simpl. rewrite (H x) by apply list_elem_of_here.
  rewrite IH; [reflexivity|].
  intros y Hy. apply H, list_elem_of_further, Hy.
Qed.

Lemma join_totals_rows sd dt joined :
  columns sd = ["date"; "speciesId"; "commonName"; "count"] ->
  group_by_agg ["date"] ["count"] [mkAgg "dailyTotal" UInt32 (agg_sum "count")] sd
    = Ok dt ->
  join_left "date" sd dt = Ok joined ->
  rows joined = map (attach_total (rows sd)) (rows sd).
Proof.
  intros Hcols Hdt Hjoin.
  apply group_by_agg_Ok in Hdt as (Hrows & ks & Hks & Hschema).
  destruct ks as [|[c t] [|? ?]]; try discriminate.
  simpl in Hks. injection Hks as ->. simpl in Hschema.
  unfold join_left in Hjoin.
  apply rbind_Ok in Hjoin as (t_left & _ & Hjoin).
  apply rbind_Ok in Hjoin as (t_right & _ & Hjoin).
  destruct (negb (bool_decide (t_left = t_right))); [discriminate|].
  rewrite Hschema in Hjoin. cbn [List.filter fst snd map] in Hjoin.
  change (String.eqb "date" "date") with true in Hjoin.
  change (String.eqb "dailyTotal" "date") with false in Hjoin.
  cbn [negb List.filter map fst snd] in Hjoin.
  assert (Hfresh : has_column sd "dailyTotal" = false).
  { unfold has_column. rewrite Hcols. reflexivity. }
  rewrite Hfresh in Hjoin.
  destruct (negb (bool_decide (NoDup _))); [discriminate|].
  injection Hjoin as <-. cbn [rows fold_right fst].
  apply flat_map_singletons. intros l Hl. cbv beta zeta. rewrite !Hfresh.
  unfold attach_total. destruct (is_null (cell l "date")); [reflexivity|].
  rewrite (filter_perm_one _ _ _ _ Hrows (totals_matching _ _ Hl)). cbn [map].
  rewrite cell_totals_row_total. reflexivity.
Qed.


Lemma daily_output_row_date sd l : cell (daily_output_row sd l) "date" = cell l "date".
Proof.
  unfold daily_output_row. rewrite cell_project.
  change (bool_decide ("date" ∈ ["date"; "dayOfYear"; "dailyTotal"; "speciesId";
                                  "commonName"; "count"])) with true.
  cbv iota. rewrite cell_insert_ne by discriminate.
  unfold attach_total. rewrite cell_insert_ne by discriminate. reflexivity.
Qed.

Lemma daily_output_row_count sd l : cell (daily_output_row sd l) "count" = cell l "count".
Proof.
  unfold daily_output_row. rewrite cell_project.
  change (bool_decide ("count" ∈ ["date"; "dayOfYear"; "dailyTotal"; "speciesId";
                                   "commonName"; "count"])) with true.
  cbv iota. rewrite cell_insert_ne by discriminate.
  unfold attach_total. rewrite cell_insert_ne by discriminate. reflexivity.
Qed.

Lemma daily_output_row_total sd l d :
  cell l "date" = VDate d ->
  cell (daily_output_row sd l) "dailyTotal"
  = VInt (fold_right Z.add 0
            (map (fun r => int_of (cell r "count"))
                 (List.filter (fun r => bool_decide (cell r "date" = VDate d)) sd))).
Proof.
  intros Hd. unfold daily_output_row. rewrite cell_project.
  change (bool_decide ("dailyTotal" ∈ ["date"; "dayOfYear"; "dailyTotal"; "speciesId";
                                        "commonName"; "count"])) with true.
  cbv iota. rewrite cell_insert_ne by discriminate.
  unfold attach_total. rewrite cell_insert_eq, Hd. cbn [is_null].
  unfold agg_sum, group_rows. do 3 f_equal.
  apply filter_ext_bool. intros r. unfold key_of. simpl.
  destruct (decide (cell r "date" = VDate d)) as [E|E].
  - rewrite !bool_decide_eq_true_2; congruence.
  - rewrite !bool_decide_eq_false_2; congruence.
Qed.

Lemma date_total_output_rows sd d :
  date_total (VDate d) (map (daily_output_row sd) sd)
  = fold_right Z.add 0
      (map (fun r => int_of (cell r "count"))
           (List.filter (fun r => bool_decide (cell r "date" = VDate d)) sd)).
Proof.
  unfold date_total. rewrite filter_map_comm, map_map. f_equal.
  rewrite (filter_ext_bool _ (fun r => bool_decide (cell r "date" = VDate d)))
    by (intros r; rewrite daily_output_row_date; reflexivity).
  apply map_ext. intros r. rewrite daily_output_row_count. reflexivity.
Qed.


Lemma species_daily_count_cells rs l :
  l ∈ map (group_row ["date"; "speciesId"; "commonName"]
                     [mkAgg "count" UInt32 agg_len] rs)
          (distinct (map (key_of ["date"; "speciesId"; "commonName"]) rs)) ->
  exists n, cell l "count" = VInt n.
Proof.
  intros Hl. apply list_elem_of_fmap in Hl as (k & -> & Hk).
  apply elem_of_distinct, list_elem_of_fmap in Hk as (r & -> & _).
  eexists. unfold group_row, key_of, cell. simpl.
  rewrite !lookup_insert_ne by discriminate. rewrite lookup_insert_eq.
  reflexivity.
Qed.

(** The output is, up to order, one row per row of the per-species
    daily counts. *)
Lemma compute_daily_detection_counts_rows now detections period_days out :
  compute_daily_detection_counts now detections period_days = Ok out ->
  exists sd,
    Permutation (rows out) (map (daily_output_row sd) sd)
    /\ Forall (fun l => exists n, cell l "count" = VInt n) sd.
Proof.
  rewrite compute_daily_detection_counts_unfold.
  unfold compute_daily_detection_counts_body. intros H.
  destruct (height detections =? 0)%nat.
  { injection H as <-. exists []. split; constructor. }
  apply rbind_Ok in H as (df & _ & H).
  destruct (height df =? 0)%nat.
  { change (compute_daily_detection_counts now (empty_frame (schema detections)) None)
      with (@Ok DataFrame (empty_frame LOCAL_DAILY_COUNTS_SCHEMA)) in H.
    injection H as <-. exists []. split; constructor. }
  apply rbind_Ok in H as (t & _ & H).
  destruct (negb _); [discriminate|].
  apply rbind_Ok in H as (species_daily & Hsd & H).
  apply rbind_Ok in H as (daily_totals & Hdt & H).
  apply rbind_Ok in H as (joined & Hjoin & H).
  apply rbind_Ok in H as (sorted & Hsort & H).
  exists (rows species_daily).
  pose proof Hsd as Hsd'.
  apply group_by_agg_Ok in Hsd' as (Hsd_rows & ks & Hks & Hsd_schema).
  assert (Hcols : columns species_daily = ["date"; "speciesId"; "commonName"; "count"]).
  { unfold columns. rewrite Hsd_schema, map_app, Hks. reflexivity. }
  pose proof (join_totals_rows _ _ _ Hcols Hdt Hjoin) as Hjoined.
  apply sort_by_Ok in Hsort as (Hsorted & _).
  apply select_Ok in H as (Hout & _ & _).
  split.
  - rewrite Hout, Hsorted. cbn [rows with_column]. rewrite Hjoined.
    rewrite !map_map. reflexivity.
  - apply Forall_forall. intros l Hl. rewrite Hsd_rows in Hl.
    eapply species_daily_count_cells. exact Hl.
Qed.

(** C7. In the output of [compute_daily_detection_counts], the
    [dailyTotal] of every dated row is the sum of the [count] cells of
    the output rows of that date; every [count] cell is an integer. *)
Theorem daily_counts_sum_to_daily_total :
  forall (now : Z) (detections : DataFrame) (period_days : option Z)
         (out : DataFrame),
    compute_daily_detection_counts now detections period_days = Ok out ->
    (forall r d,
        r ∈ rows out ->
        cell r "date" = VDate d ->
        cell r "dailyTotal" = VInt (date_total (VDate d) (rows out)))
    /\ Forall (fun r => exists n, cell r "count" = VInt n) (rows out).
Proof.
  intros now detections period_days out H.
  apply compute_daily_detection_counts_rows in H as (sd & Hperm & Hcounts).
  split.
  - intros r d Hr Hd.
    rewrite (date_total_perm _ _ _ Hperm), date_total_output_rows.
    rewrite Hperm in Hr. apply list_elem_of_fmap in Hr as (l & -> & Hl).
    rewrite daily_output_row_date in Hd.
    apply daily_output_row_total. exact Hd.
  - rewrite Hperm. apply Forall_forall. intros r Hr.
    apply list_elem_of_fmap in Hr as (l & -> & Hl).
    rewrite Forall_forall in Hcounts. rewrite daily_output_row_count.
    apply Hcounts. exact Hl.
Qed.


(** * Further properties of fetch_data.py *)

(** ** [query_graphql]: budget and trace *)

(** With a retry budget of zero or less the loop body never runs: no
    request is sent and the call returns [None]. *)
Theorem query_graphql_without_budget :
  forall (q : query) (variables : option dict) (retries : Z) (w : World),
    retries <= 0 ->
    query_graphql q variables retries w = (Ok VNull, w).
Proof using Type.
  intros q variables retries w Hle. unfold query_graphql.
  replace (Z.to_nat retries) with 0%nat by lia. reflexivity.
Qed.

Lemma flat_map_seq_shift {A} (f : nat -> list A) n :
  flat_map f (seq 0 (S n)) = (f 0%nat ++ flat_map (fun i => f (S i)) (seq 0 n))%list.
Proof using Type.
  simpl. f_equal. rewrite <- seq_shift. generalize (seq 0 n). intros l.
  induction l as [|x l IH]; simpl; [reflexivity|]. rewrite IH. reflexivity.
Qed.

Lemma query_attempts_log fuel :
  forall attempt retries req w,
    (0 < fuel)%nat ->
    attempt + Z.of_nat fuel = retries ->
    exists n,
      (1 <= n <= fuel)%nat
      /\ log (snd (query_attempts fuel attempt retries req w))
         = (log w
              ++ flat_map (fun i => [Post req; Sleep (2 ^ (attempt + Z.of_nat i))])
                          (seq 0 (n - 1))
              ++ [Post req])%list.
Proof using Type.
  induction fuel as [|fuel IH]; intros attempt retries req w Hpos Hsum; [lia|].
  assert (Hstop : exists n,
             (1 <= n <= S fuel)%nat
             /\ log (record_event (Post req) w)
                = (log w
                     ++ flat_map (fun i => [Post req; Sleep (2 ^ (attempt + Z.of_nat i))])
                                 (seq 0 (n - 1))
                     ++ [Post req])%list).
  { exists 1%nat. split; [lia | reflexivity]. }
  assert (Hretry : (attempt <? retries - 1) = true ->
            exists n,
              (1 <= n <= S fuel)%nat
              /\ log (snd (query_attempts fuel (attempt + 1) retries req
                             (sleep (2 ^ attempt) (record_event (Post req) w))))
                 = (log w
                      ++ flat_map (fun i => [Post req; Sleep (2 ^ (attempt + Z.of_nat i))])
                                  (seq 0 (n - 1))
                      ++ [Post req])%list).
  { intros Hlt. apply Z.ltb_lt in Hlt.
    destruct (IH (attempt + 1) retries req
                 (sleep (2 ^ attempt) (record_event (Post req) w)))
      as (n & Hn & Hlog); [lia | lia |].
    exists (S n). split; [lia|]. rewrite Hlog. simpl log.
    replace (S n - 1)%nat with (S (n - 1)) by lia.
    rewrite flat_map_seq_shift. rewrite Z.add_0_r.
    rewrite <- !app_assoc. simpl. do 3 f_equal.
    f_equal. apply flat_map_ext. intros i.
    replace (attempt + 1 + Z.of_nat i) with (attempt + Z.of_nat (S i)) by lia.
    reflexivity. }
  simpl query_attempts.
  destruct (remote w (log w) req) as [| | |body].
  - destruct (attempt <? retries - 1) eqn:E; [apply Hretry; reflexivity | exact Hstop].
  - destruct (attempt <? retries - 1) eqn:E; [apply Hretry; reflexivity | exact Hstop].
  - exact Hstop.
  - destruct body; try exact Hstop.
    destruct (assoc "errors" fields); exact Hstop.
Qed.

(** Whatever the network does, a call with a positive budget leaves the
    trace of one to [retries] posts of the same request, separated by
    sleeps of 1, 2, 4, ... seconds, and ends on a post. *)
Theorem query_graphql_trace :
  forall (q : query) (variables : option dict) (retries : Z) (w : World),
    0 < retries ->
    let req := build_request q variables w in
    exists n,
      (1 <= n)%nat /\ Z.of_nat n <= retries
      /\ log (snd (query_graphql q variables retries w))
         = (log w
              ++ flat_map (fun i => [Post req; Sleep (2 ^ Z.of_nat i)]) (seq 0 (n - 1))
              ++ [Post req])%list.
Proof using Type.
  intros q variables retries w Hpos req. unfold query_graphql. fold req.
  destruct (query_attempts_log (Z.to_nat retries) 0 retries req w)
    as (n & Hn & Hlog); [lia | lia |].
  exists n. split; [lia|]. split; [lia|]. exact Hlog.
Qed.


(** ** Station resolution *)

Lemma station_cache_record_event e w :
  station_cache (record_event e w) = station_cache w.
Proof using Type. reflexivity. Qed.

Lemma station_cache_query_attempts fuel :
  forall attempt retries req w,
    station_cache (snd (query_attempts fuel attempt retries req w)) = station_cache w.
Proof using Type.
  induction fuel as [|fuel IH]; intros attempt retries req w; simpl; [reflexivity|].
  destruct (remote w (log w) req) as [| | |body].
  - destruct (attempt <? retries - 1); [rewrite IH|]; reflexivity.
  - destruct (attempt <? retries - 1); [rewrite IH|]; reflexivity.
  - reflexivity.
  - destruct body; try reflexivity. destruct (assoc "errors" fields); reflexivity.
Qed.

(** A resolution that succeeds is remembered: asked again in the world
    it leaves, the same id comes back and the world does not change (no
    request is sent).  A resolution that fails leaves the cache of
    resolved ids as it was. *)
Theorem resolve_station_numeric_id_cached :
  forall (token : string) (w : World),
    match resolve_station_numeric_id token w with
    | (Ok numeric_id, w') =>
        station_cache w' !! token = Some numeric_id
        /\ resolve_station_numeric_id token w' = (Ok numeric_id, w')
    | (Raise _, w') => station_cache w' = station_cache w
    end.
Proof using Type.
  intros token w. unfold resolve_station_numeric_id at 1.
  destruct (station_cache w !! token) as [cached|] eqn:Ecache.
  - split; [exact Ecache|]. unfold resolve_station_numeric_id. rewrite Ecache.
    reflexivity.
  - unfold bind at 1.
    pose proof (station_cache_query_attempts (Z.to_nat DEFAULT_RETRIES) 0
                  DEFAULT_RETRIES
                  (build_request FindStation (Some [("query", VStr token)]) w) w)
      as Hkeep.
    fold (query_graphql FindStation (Some [("query", VStr token)]) DEFAULT_RETRIES w)
      in Hkeep.
    destruct (query_graphql FindStation (Some [("query", VStr token)])
                DEFAULT_RETRIES w) as [[data|e] w1]; simpl in Hkeep; [|exact Hkeep].
    unfold bind at 1, lift at 1.
    destruct (get_default data "stations" (VStruct [])) as [stations|e]; [|exact Hkeep].
    unfold bind at 1, lift at 1.
    destruct (get_default stations "nodes" (VList [])) as [nodes|e]; [|exact Hkeep].
    destruct (negb (truthy nodes)); [exact Hkeep|].
    unfold bind at 1, lift at 1.
    destruct (index0 nodes) as [first|e]; [|exact Hkeep].
    unfold bind at 1, lift at 1.
    destruct (getitem first "id") as [id|e]; [|exact Hkeep].
    assert (Hhit : station_cache (cache_station token (str_of id) w1) !! token
                   = Some (str_of id))
      by (simpl; apply lookup_insert_eq).
    split; [exact Hhit|].
    unfold resolve_station_numeric_id. rewrite Hhit. reflexivity.
Qed.

(** ** Pagination of [get_detections] *)

Lemma posts_app l1 l2 : posts (l1 ++ l2) = (posts l1 ++ posts l2)%list.
Proof using Type. unfold posts. apply omap_app. Qed.

Lemma posts_at_most_ret {A} (a : A) n : posts_at_most n (ret a).
Proof using Type. intros w. simpl. lia. Qed.

Lemma posts_at_most_raise {A} e n : posts_at_most n (@raise A e).
Proof using Type. intros w. simpl. lia. Qed.

Lemma posts_at_most_lift {A} (r : result A) n : posts_at_most n (lift r).
Proof using Type. intros w. simpl. lia. Qed.

Lemma posts_at_most_weaken {A} (c : M A) n m :
  (n <= m)%nat -> posts_at_most n c -> posts_at_most m c.
Proof using Type. intros Hle Hc w. specialize (Hc w). lia. Qed.

Lemma posts_at_most_bind {A B} (c : M A) (k : A -> M B) n m :
  posts_at_most n c -> (forall a, posts_at_most m (k a)) ->
  posts_at_most (n + m) (bind c k).
Proof using Type.
  intros Hc Hk w. unfold bind. specialize (Hc w).
  destruct (c w) as [[a|e] w1]; simpl in *.
  - specialize (Hk a w1). lia.
  - lia.
Qed.

Lemma posts_at_most_if {A} (b : bool) (c1 c2 : M A) n :
  posts_at_most n c1 -> posts_at_most n c2 -> posts_at_most n (if b then c1 else c2).
Proof using Type. destruct b; auto. Qed.

Lemma posts_at_most_query_graphql q variables :
  posts_at_most 3 (query_graphql q variables DEFAULT_RETRIES).
Proof using Type.
  intros w.
  destruct (query_graphql_trace q variables DEFAULT_RETRIES w ltac:(reflexivity))
    as (n & Hn1 & Hn3 & Hlog).
  rewrite Hlog, !posts_app, !length_app. unfold DEFAULT_RETRIES in Hn3.
  assert (Hn : (n = 1 \/ n = 2 \/ n = 3)%nat) by lia.
  destruct Hn as [-> | [-> | ->]]; simpl; lia.
Qed.


Lemma posts_at_most_resolve token : posts_at_most 3 (resolve_station_numeric_id token).
Proof using Type.
  intros w. unfold resolve_station_numeric_id.
  destruct (station_cache w !! token); [simpl; lia|].
  revert w. change (posts_at_most 3
    (let* data := query_graphql FindStation (Some [("query", VStr token)])
                    DEFAULT_RETRIES in
     let* stations := lift (get_default data "stations" (VStruct [])) in
     let* nodes := lift (get_default stations "nodes" (VList [])) in
     if negb (truthy nodes) then raise ValueError
     else
       let* first := lift (index0 nodes) in
       let* id := lift (getitem first "id") in
       fun w' => (Ok (str_of id), cache_station token (str_of id) w'))%world).
  apply (posts_at_most_bind _ _ 3 0); [apply posts_at_most_query_graphql|intros data].
  apply (posts_at_most_bind _ _ 0 0); [apply posts_at_most_lift|intros stations].
  apply (posts_at_most_bind _ _ 0 0); [apply posts_at_most_lift|intros nodes].
  apply posts_at_most_if; [apply posts_at_most_raise|].
  apply (posts_at_most_bind _ _ 0 0); [apply posts_at_most_lift|intros first].
  apply (posts_at_most_bind _ _ 0 0); [apply posts_at_most_lift|intros id].
  intros w. simpl. lia.
Qed.

Lemma posts_at_most_station_or_env station_id :
  posts_at_most 3 (station_or_env station_id).
Proof using Type.
  assert (Henv : posts_at_most 3 get_station_id).
  { intros w. unfold get_station_id.
    destruct (env_station_id w) as [token|]; [|simpl; lia].
    destruct (String.eqb token ""); [simpl; lia|].
    destruct (isdigit token); [simpl; lia|].
    apply posts_at_most_resolve. }
  unfold station_or_env. destruct station_id as [s|]; [|exact Henv].
  apply posts_at_most_if; [exact Henv | apply posts_at_most_ret].
Qed.

Lemma posts_at_most_detection_pages fuel :
  forall station_id page_size stop_before earliest_dt cursor acc,
    posts_at_most (3 * fuel)
      (detection_pages fuel station_id page_size stop_before earliest_dt cursor acc).
Proof using Type.
  induction fuel as [|fuel IH]; intros; [apply posts_at_most_ret|].
  replace (3 * S fuel)%nat with (3 + 3 * fuel)%nat by lia.
  cbn [detection_pages].
  apply posts_at_most_bind; [apply posts_at_most_query_graphql|intros data].
  apply (posts_at_most_bind _ _ 0); [apply posts_at_most_lift|intros det].
  apply (posts_at_most_bind _ _ 0); [apply posts_at_most_lift|intros nodes].
  apply posts_at_most_if; [apply posts_at_most_ret|].
  apply (posts_at_most_bind _ _ 0); [apply posts_at_most_lift|intros items].
  apply (posts_at_most_bind _ _ 0); [apply posts_at_most_lift|intros scanned].
  apply posts_at_most_if; [apply posts_at_most_ret|].
  apply (posts_at_most_bind _ _ 0); [apply posts_at_most_lift|intros has_next].
  apply posts_at_most_if; [apply posts_at_most_ret|].
  apply (posts_at_most_bind _ _ 0); [apply posts_at_most_lift|intros cursor'].
  apply IH.
Qed.

(** [max_pages] caps the traffic of [get_detections]: with every page
    retried to the limit it posts at most three requests per page, after
    at most three for resolving the station; with a given station id
    nothing is spent on resolution. *)
Theorem get_detections_page_cap :
  forall (station_id : option string) (page_size max_pages : Z)
         (stop_before : option Z) (earliest_detection_at : option string),
    posts_at_most (3 + 3 * Z.to_nat max_pages)
      (get_detections station_id page_size max_pages stop_before
                      earliest_detection_at)
    /\ (str_truthy station_id = true ->
        posts_at_most (3 * Z.to_nat max_pages)
          (get_detections station_id page_size max_pages stop_before
                          earliest_detection_at)).
Proof using Type.
  intros station_id page_size max_pages stop_before earliest.
  assert (Hrest : forall sid,
    posts_at_most (3 * Z.to_nat max_pages)
      (let* earliest_dt := lift (earliest_instant earliest) in
       let* all_nodes :=
         detection_pages (Z.to_nat max_pages) sid page_size stop_before
           earliest_dt VNull [] in
       match all_nodes with
       | [] => ret (empty_frame DETECTIONS_SCHEMA)
       | _ => lift (str_to_datetime "timestamp" (from_dicts all_nodes))
       end)%world).
  { intros sid. remember (3 * Z.to_nat max_pages)%nat as cap eqn:Ecap.
    apply (posts_at_most_weaken _ (0 + (cap + 0))); [lia|].
    apply posts_at_most_bind; [apply posts_at_most_lift|intros e].
    apply posts_at_most_bind;
      [subst cap; apply posts_at_most_detection_pages|intros all_nodes].
    destruct all_nodes; [apply posts_at_most_ret | apply posts_at_most_lift]. }
  split.
  - unfold get_detections.
    apply posts_at_most_bind; [apply posts_at_most_station_or_env|exact Hrest].
  - intros Hgiven. unfold get_detections.
    destruct station_id as [s|]; [|discriminate]. simpl in Hgiven.
    unfold station_or_env. apply negb_true_iff in Hgiven. rewrite Hgiven.
    remember (3 * Z.to_nat max_pages)%nat as cap eqn:Ecap.
    apply (posts_at_most_weaken _ (0 + cap)); [lia|].
    apply posts_at_most_bind; [apply posts_at_most_ret|exact Hrest].
Qed.


(** ** What the fetchers put in their rows *)

(** Without a boundary the inner loop of [get_detections] stops nowhere:
    when it returns, it has appended one row per node, in the order of
    the page, and leaves [hit_boundary] unset. *)
Theorem scan_nodes_without_boundary :
  forall (nodes : list value) (all_nodes scanned : list dict) (hit : bool),
    scan_nodes None None nodes all_nodes = Ok (scanned, hit) ->
    hit = false
    /\ exists page_rows,
         rmap detection_row nodes = Ok page_rows
         /\ scanned = (all_nodes ++ page_rows)%list
         /\ map (fun d => dict_get d "id") page_rows
            = map (fun node => match getitem node "id" with
                               | Ok id => id
                               | Raise _ => VNull
                               end) nodes.
Proof using Type.
  induction nodes as [|node rest IH]; intros acc scanned hit H; simpl in H.
  - injection H as <- <-. split; [reflexivity|]. exists [].
    rewrite app_nil_r. repeat split.
  - apply rbind_Ok in H as (ts & _ & H).
    apply rbind_Ok in H as (t & _ & H). simpl in H.
    apply rbind_Ok in H as (r & Hr & H).
    destruct (IH _ _ _ H) as (Hhit & page_rows & Hrows & Hscanned & Hids).
    split; [exact Hhit|]. exists (r :: page_rows). simpl. rewrite Hr, Hrows. simpl.
    split; [reflexivity|]. split; [rewrite Hscanned, <- app_assoc; reflexivity|].
    f_equal; [|exact Hids].
    unfold detection_row in Hr. apply rbind_Ok in Hr as (id & Hid & Hr).
    rewrite Hid. rsplit Hr. injection Hr as <-. reflexivity.
Qed.

Lemma enumerate_indices {A} (xs : list A) :
  map fst (enumerate xs) = seq 0 (length xs)
  /\ map snd (enumerate xs) = xs.
Proof using Type.
  unfold enumerate. generalize 0%nat.
  induction xs as [|x xs IH]; intros start; simpl; [split; reflexivity|].
  destruct (IH (S start)) as [Hfst Hsnd]. rewrite Hfst, Hsnd. split; reflexivity.
Qed.

Lemma rmap_probability_row sp weeks rows_ :
  rmap (probability_row sp) weeks = Ok rows_ ->
  map (fun d => dict_get d "week") rows_ = map (fun e => VInt (Z.of_nat (fst e))) weeks
  /\ map (fun d => dict_get d "probability") rows_ = map snd weeks.
Proof using Type.
  revert rows_. induction weeks as [|e weeks IH]; intros rows_ H; simpl in H.
  - injection H as <-. split; reflexivity.
  - apply rbind_Ok in H as (r & Hr & H).
    apply rbind_Ok in H as (rs & Hrs & H). injection H as <-.
    destruct (IH _ Hrs) as [Hweek Hprob]. simpl. rewrite Hweek, Hprob.
    unfold probability_row in Hr. rsplit Hr. injection Hr as <-.
    split; reflexivity.
Qed.

(** The weeks of one species unpack into one row per array entry, in
    order: the [week] cells count up from 0 and the [probability] cells
    are the entries themselves. *)
Theorem probability_rows_weeks :
  forall (sp : value) (weeks : list value) (rows_ : list dict),
    getitem sp "weeks" = Ok (VList weeks) ->
    probability_rows sp = Ok rows_ ->
    length rows_ = length weeks
    /\ map (fun d => dict_get d "week") rows_
       = map (fun i => VInt (Z.of_nat i)) (seq 0 (length weeks))
    /\ map (fun d => dict_get d "probability") rows_ = weeks.
Proof using Type.
  intros sp weeks rows_ Hweeks H. unfold probability_rows in H.
  rewrite Hweeks in H. simpl in H.
  pose proof (rmap_Ok_length _ _ _ H) as Hlen.
  destruct (rmap_probability_row _ _ _ H) as [Hweek Hprob].
  destruct (enumerate_indices weeks) as [Hfst Hsnd].
  split.
  - rewrite Hlen. rewrite <- (length_map fst), Hfst. apply length_seq.
  - split.
    + rewrite Hweek, <- Hfst, map_map. reflexivity.
    + rewrite Hprob. exact Hsnd.
Qed.

(** A top-species entry whose [breakdown] is missing or null gets 0 in
    each of the four certainty columns. *)
Theorem top_species_row_without_breakdown :
  forall (sp : value) (breakdown : value) (d : dict),
    get sp "breakdown" = Ok breakdown ->
    truthy breakdown = false ->
    top_species_row sp = Ok d ->
    dict_get d "almostCertain" = VInt 0
    /\ dict_get d "veryLikely" = VInt 0
    /\ dict_get d "uncertain" = VInt 0
    /\ dict_get d "unlikely" = VInt 0.
Proof using Type.
  intros sp breakdown d Hbd Hfalsy H. unfold top_species_row in H.
  apply rbind_Ok in H as (species & _ & H).
  rewrite Hbd in H. cbn [rbind] in H. unfold py_or in H. rewrite Hfalsy in H.
  rsplit H. injection H as <-.
  simpl in *. repeat match goal with
                | E : Ok _ = Ok _ |- _ => injection E as <-
                end.
  repeat split.
Qed.


(** * Further properties of data_store.py *)

(** ** [sync_species_meta] *)

Lemma with_rows_Some existing ex : with_rows existing = Some ex -> existing = Some ex.
Proof using Type.
  unfold with_rows. destruct existing as [ex'|]; [|discriminate].
  destruct (0 <? height ex')%nat; congruence.
Qed.

(** With a cache that holds rows and no species missing, the sync is a
    no-op: the cached table is returned, nothing is requested and no file
    is written. *)
Theorem sync_species_meta_up_to_date :
  forall (station_id : string) (detections : DataFrame) (w : World)
         (ids : list value * list value) (ex : DataFrame),
    missing_species detections (read_parquet SPECIES_META_PATH (ensure_data_dir w))
      = Ok ids ->
    snd ids = [] ->
    with_rows (read_parquet SPECIES_META_PATH (ensure_data_dir w)) = Some ex ->
    sync_species_meta station_id detections w = (Ok ex, ensure_data_dir w).
Proof using Type.
  intros station_id detections w ids ex Hids Hnone Hcache.
  unfold sync_species_meta. unfold bind at 1, lift at 1.
  rewrite Hids, Hnone, Hcache. reflexivity.
Qed.

(** After a successful sync the metadata file holds exactly the table
    that was returned, rows or no rows. *)
Theorem sync_species_meta_persists :
  forall (station_id : string) (detections : DataFrame) (w : World)
         (meta : DataFrame) (w' : World),
    sync_species_meta station_id detections w = (Ok meta, w') ->
    read_parquet SPECIES_META_PATH w' = Some meta.
Proof using Type.
  intros station_id detections w meta w' H. unfold sync_species_meta in H.
  apply bind_lift_Ok in H as (ids & _ & H).
  assert (Hrefresh :
    (let* api_species := get_top_species (Some station_id) VNull 1000 in
     let* meta0 :=
       lift (bulk_species_meta api_species
               (read_parquet SPECIES_META_PATH (ensure_data_dir w))) in
     let* meta_ids := lift (id_set meta0 "speciesId") in
     let* meta1 := fill_gaps (set_diff (fst ids) meta_ids) meta0 in
     fun w1 => (Ok meta1, write_parquet SPECIES_META_PATH meta1 w1))%world
      (ensure_data_dir w) = (Ok meta, w') ->
    read_parquet SPECIES_META_PATH w' = Some meta).
  { intros Hrun.
    apply bind_Ok in Hrun as (api & w1 & _ & Hrun).
    apply bind_lift_Ok in Hrun as (meta0 & _ & Hrun).
    apply bind_lift_Ok in Hrun as (meta_ids & _ & Hrun).
    apply bind_Ok in Hrun as (meta1 & w2 & _ & Hrun).
    injection Hrun as <- <-.
    unfold read_parquet, write_parquet. simpl. rewrite lookup_insert_eq. reflexivity. }
  destruct (snd ids) as [|m ms]; [|exact (Hrefresh H)].
  destruct (with_rows (read_parquet SPECIES_META_PATH (ensure_data_dir w)))
    as [ex|] eqn:Ecache; [|exact (Hrefresh H)].
  apply ret_Ok in H as [<- <-]. apply with_rows_Some in Ecache. exact Ecache.
Qed.

Lemma elem_of_keep_first_from {K} `{EqDecision K} (x : K) l :
  forall seen, x ∈ l -> x ∉ seen -> x ∈ keep_first_from (fun k => k) seen l.
Proof using Type.
  induction l as [|y l IH]; intros seen Hin Hseen; [inversion Hin|]. simpl.
  destruct (decide (x = y)) as [->|Hne].
  - rewrite bool_decide_eq_false_2 by exact Hseen. apply list_elem_of_here.
  - apply elem_of_cons in Hin as [Heq|Hin]; [congruence|].
    destruct (bool_decide (y ∈ seen)).
    + apply IH; assumption.
    + apply list_elem_of_further, IH; [exact Hin|].
      intros Hx. apply elem_of_cons in Hx as [Heq|Hx]; [congruence | auto].
Qed.



(** ** [sync_species_probabilities]: written, then served *)

(** A sync that returned rows is followed by a sync served from the
    cache: asked again in the world it leaves, the same table comes back
    and nothing is requested or written. *)
Theorem sync_species_probabilities_then_cached :
  forall (station_id : string) (w : World) (probs : DataFrame) (w' : World),
    sync_species_probabilities station_id w = (Ok probs, w') ->
    (0 < height probs)%nat ->
    sync_species_probabilities station_id w' = (Ok probs, ensure_data_dir w').
Proof using Type.
  intros station_id w probs w' H Hrows.
  assert (Hserved : forall f,
    files w' !! SPECIES_PROBS_PATH = Some f ->
    content f = probs ->
    clock w' - mtime f < SEVEN_DAYS ->
    sync_species_probabilities station_id w' = (Ok probs, ensure_data_dir w')).
  { intros f Hf Hcontent Hage. unfold sync_species_probabilities.
    change (files (ensure_data_dir w')) with (files w'). rewrite Hf.
    change (clock (ensure_data_dir w')) with (clock w').
    apply Z.ltb_lt in Hage. rewrite Hage, Hcontent. reflexivity. }
  assert (Hfresh :
    bind (get_species_probabilities (Some station_id))
         (persist_nonempty SPECIES_PROBS_PATH) (ensure_data_dir w) = (Ok probs, w') ->
    sync_species_probabilities station_id w' = (Ok probs, ensure_data_dir w')).
  { intros Hrun. apply bind_Ok in Hrun as (fetched & w1 & _ & Hrun).
    unfold persist_nonempty in Hrun.
    destruct (0 <? height fetched)%nat eqn:E.
    - injection Hrun as <- <-.
      apply (Hserved (mkFile fetched (clock w1))).
      + simpl. apply lookup_insert_eq.
      + reflexivity.
      + simpl. unfold SEVEN_DAYS. lia.
    - injection Hrun as <- <-. apply Nat.ltb_ge in E. lia. }
  unfold sync_species_probabilities in H.
  change (files (ensure_data_dir w)) with (files w) in H.
  destruct (files w !! SPECIES_PROBS_PATH) as [f|] eqn:Efile; [|exact (Hfresh H)].
  change (clock (ensure_data_dir w)) with (clock w) in H.
  destruct (clock w - mtime f <? SEVEN_DAYS) eqn:Eage; [|exact (Hfresh H)].
  injection H as <- <-. apply (Hserved f).
  - exact Efile.
  - reflexivity.
  - apply Z.ltb_lt. exact Eage.
Qed.


(** ** Aggregations and the period filter *)

(** When the period filter leaves no detection, both aggregations return
    their typed table without rows, as for an empty input. *)
Theorem aggregations_outside_period :
  forall (now : Z) (detections species_meta : DataFrame) (period_days : option Z)
         (limit : Z) (df : DataFrame),
    filter_period now period_days detections = Ok df ->
    height df = 0%nat ->
    compute_top_species now detections species_meta period_days limit
      = Ok (empty_frame TOP_SPECIES_SCHEMA)
    /\ compute_daily_detection_counts now detections period_days
       = Ok (empty_frame LOCAL_DAILY_COUNTS_SCHEMA).
Proof using Type.
  intros now detections species_meta period_days limit df Hfilter Hnone.
  split.
  - unfold compute_top_species, compute_top_species_body at 1.
    destruct (height detections =? 0)%nat; [reflexivity|].
    rewrite Hfilter. cbn [rbind]. rewrite Hnone. reflexivity.
  - unfold compute_daily_detection_counts, compute_daily_detection_counts_body at 1.
    destruct (height detections =? 0)%nat; [reflexivity|].
    rewrite Hfilter. cbn [rbind]. rewrite Hnone. reflexivity.
Qed.

Lemma keep_first_from_NoDup {K} `{EqDecision K} (l : list K) :
  forall seen,
    NoDup (keep_first_from (fun k => k) seen l)
    /\ forall x, x ∈ keep_first_from (fun k => k) seen l -> x ∉ seen.
Proof using Type.
  induction l as [|y l IH]; intros seen; simpl.
  - split; [constructor|]. intros x Hx. inversion Hx.
  - destruct (bool_decide (y ∈ seen)) eqn:E; [apply IH|].
    apply bool_decide_eq_false in E.
    destruct (IH (y :: seen)) as [Hnd Hfresh]. split.
    + constructor; [|exact Hnd]. intros Hy. apply (Hfresh y Hy), list_elem_of_here.
    + intros x Hx. apply elem_of_cons in Hx as [->|Hx]; [exact E|].
      intros Hseen. apply (Hfresh x Hx), list_elem_of_further, Hseen.
Qed.

Lemma distinct_NoDup {K} `{EqDecision K} (l : list K) : NoDup (distinct l).
Proof using Type. apply (keep_first_from_NoDup l []). Qed.

Lemma elem_of_distinct_2 {K} `{EqDecision K} (x : K) l : x ∈ l -> x ∈ distinct l.
Proof using Type.
  intros Hin. unfold distinct, keep_first.
  apply elem_of_keep_first_from; [exact Hin | apply not_elem_of_nil].
Qed.

Lemma sum_map_add {K} (f g : K -> Z) ks :
  fold_right Z.add 0 (map (fun k => f k + g k) ks)
  = fold_right Z.add 0 (map f ks) + fold_right Z.add 0 (map g ks).
Proof using Type. induction ks as [|k ks IH]; simpl; lia. Qed.

Lemma sum_indicator {K} `{EqDecision K} (x : K) ks :
  NoDup ks -> x ∈ ks ->
  fold_right Z.add 0 (map (fun k => if bool_decide (x = k) then 1 else 0) ks) = 1.
Proof using Type.
  induction 1 as [|k ks Hk Hnd IH]; intros Hx; [inversion Hx|]. simpl.
  destruct (decide (x = k)) as [->|Hne].
  - rewrite bool_decide_eq_true_2 by reflexivity.
    assert (Hzero : forall ks', k ∉ ks' ->
      fold_right Z.add 0 (map (fun k0 => if bool_decide (k = k0) then 1 else 0) ks') = 0).
    { induction ks' as [|k' ks' IH']; intros Hnot; [reflexivity|]. simpl.
      rewrite bool_decide_eq_false_2
        by (intros E; apply Hnot; rewrite E; apply list_elem_of_here).
      rewrite IH'; [reflexivity|].
      intros Hin. apply Hnot, list_elem_of_further, Hin. }
    rewrite (Hzero ks Hk). reflexivity.
  - rewrite bool_decide_eq_false_2 by exact Hne.
    apply elem_of_cons in Hx as [Heq|Hx]; [congruence|]. rewrite (IH Hx). reflexivity.
Qed.

(** The sizes of the groups of a list add up to its length. *)
Lemma group_sizes_sum {A K} `{EqDecision K} (key : A -> K) (ks : list K) (l : list A) :
  NoDup ks ->
  (forall x, x ∈ l -> key x ∈ ks) ->
  fold_right Z.add 0
    (map (fun k => Z.of_nat (length (List.filter (fun x => bool_decide (key x = k)) l)))
         ks)
  = Z.of_nat (length l).
Proof using Type.
  intros Hnd. induction l as [|x l IH]; intros Hcover.
  - simpl. clear Hnd Hcover.
    induction ks as [|k ks IHk]; [reflexivity|]. simpl. exact IHk.
  - cbn [length]. rewrite Nat2Z.inj_succ.
    rewrite <- IH by (intros y Hy; apply Hcover, list_elem_of_further, Hy).
    rewrite (map_ext _ (fun k =>
               (if bool_decide (key x = k) then 1 else 0)
               + Z.of_nat (length (List.filter (fun y => bool_decide (key y = k)) l)))).
    + rewrite sum_map_add, sum_indicator; [lia | exact Hnd |].
      apply Hcover, list_elem_of_here.
    + intros k. cbn [List.filter].
      destruct (bool_decide (key x = k)); cbn [length]; lia.
Qed.

Lemma species_daily_count_value rs k :
  k ∈ map (key_of ["date"; "speciesId"; "commonName"]) rs ->
  cell (group_row ["date"; "speciesId"; "commonName"] [mkAgg "count" UInt32 agg_len] rs k)
       "count"
  = VInt (Z.of_nat (length (group_rows ["date"; "speciesId"; "commonName"] k rs))).
Proof using Type.
  intros Hk. apply list_elem_of_fmap in Hk as (r & -> & _).
  unfold group_row, key_of, cell. simpl.
  rewrite !lookup_insert_ne by discriminate. rewrite lookup_insert_eq.
  reflexivity.
Qed.

Lemma filter_period_rows now period_days detections df :
  filter_period now period_days detections = Ok df ->
  (length (rows df) <= length (rows detections))%nat.
Proof using Type.
  unfold filter_period. destruct period_days as [days|].
  - intros H. apply rbind_Ok in H as (t & _ & H).
    destruct (bool_decide (t = Datetime)); [|discriminate].
    injection H as <-. simpl. apply filter_length_le.
  - intros [= <-]. lia.
Qed.

(** The counts of the output cover the detections of the period once
    each: they add up to the number of detections the filter lets
    through. *)
Theorem daily_counts_cover_detections :
  forall (now : Z) (detections : DataFrame) (period_days : option Z)
         (df out : DataFrame),
    filter_period now period_days detections = Ok df ->
    compute_daily_detection_counts now detections period_days = Ok out ->
    fold_right Z.add 0 (map (fun r => int_of (cell r "count")) (rows out))
    = Z.of_nat (height df).
Proof using Type.
  intros now detections period_days df out Hfilter H.
  rewrite compute_daily_detection_counts_unfold in H.
  unfold compute_daily_detection_counts_body in H.
  destruct (height detections =? 0)%nat eqn:Edet.
  { injection H as <-. apply Nat.eqb_eq in Edet.
    apply filter_period_rows in Hfilter. unfold height in *.
    replace (length (rows df)) with 0%nat by lia. reflexivity. }
  rewrite Hfilter in H. cbn [rbind] in H.
  destruct (height df =? 0)%nat eqn:Edf.
  { change (compute_daily_detection_counts now (empty_frame (schema detections)) None)
      with (@Ok DataFrame (empty_frame LOCAL_DAILY_COUNTS_SCHEMA)) in H.
    injection H as <-. apply Nat.eqb_eq in Edf. rewrite Edf. reflexivity. }
  apply rbind_Ok in H as (t & _ & H).
  destruct (negb _); [discriminate|].
  apply rbind_Ok in H as (species_daily & Hsd & H).
  apply rbind_Ok in H as (daily_totals & Hdt & H).
  apply rbind_Ok in H as (joined & Hjoin & H).
  apply rbind_Ok in H as (sorted & Hsort & H).
  pose proof Hsd as Hsd'.
  apply group_by_agg_Ok in Hsd' as (Hsd_rows & ks & Hks & Hsd_schema).
  assert (Hcols : columns species_daily = ["date"; "speciesId"; "commonName"; "count"]).
  { unfold columns. rewrite Hsd_schema, map_app, Hks. reflexivity. }
  pose proof (join_totals_rows _ _ _ Hcols Hdt Hjoin) as Hjoined.
  apply sort_by_Ok in Hsort as (Hsorted & _).
  apply select_Ok in H as (Hout & _ & _).
  assert (Hperm : Permutation (rows out)
                    (map (daily_output_row (rows species_daily)) (rows species_daily))).
  { rewrite Hout, Hsorted. cbn [rows with_column]. rewrite Hjoined.
    rewrite !map_map. reflexivity. }
  rewrite (sum_perm _ _ (Permutation_map _ Hperm)), map_map.
  rewrite (map_ext _ (fun l => int_of (cell l "count")))
    by (intros l; rewrite daily_output_row_count; reflexivity).
  rewrite (sum_perm _ _ (Permutation_map _ Hsd_rows)).
  cbn [rows with_column]. rewrite map_map.
  set (dated := map (fun r => <["date" := date_of (cell r "timestamp")]> r) (rows df)).
  set (keys := ["date"; "speciesId"; "commonName"]).
  rewrite (map_ext_in _ (fun k => Z.of_nat (length (group_rows keys k dated)))).
  - unfold group_rows.
    rewrite (group_sizes_sum (key_of keys) _ dated).
    + unfold dated, height. rewrite length_map. reflexivity.
    + apply distinct_NoDup.
    + intros x Hx. apply elem_of_distinct_2, list_elem_of_fmap_2, Hx.
  - intros k Hk. apply list_elem_of_In, elem_of_distinct in Hk.
    unfold keys. rewrite species_daily_count_value by exact Hk. reflexivity.
Qed.


(** * Further properties: the environment cache *)

Lemma keeps_files_environment_pages fuel :
  forall station_id period page_size cursor acc,
    keeps_files (environment_pages fuel station_id period page_size cursor acc).
Proof using Type.
  induction fuel as [|fuel IH]; intros; simpl; [apply keeps_files_ret|].
  apply keeps_files_bind; [apply keeps_files_query_graphql|intros data].
  repeat keeps_files_step. apply IH.
Qed.

Lemma keeps_files_get_environment_history station_id period page_size max_pages :
  keeps_files (get_environment_history station_id period page_size max_pages).
Proof using Type.
  unfold get_environment_history.
  apply keeps_files_bind; [apply keeps_files_station_or_env|intros sid].
  apply keeps_files_bind; [apply keeps_files_environment_pages|intros all_nodes].
  destruct all_nodes; [apply keeps_files_ret | apply keeps_files_lift].
Qed.

(** [sync_environment] writes the environment file only with a result
    that has rows, and then writes that result; with a result of zero
    rows, or when the sync raises, every cache file is as it was. *)
Theorem sync_environment_never_writes_empty :
  forall (station_id : string) (w : World),
    match sync_environment station_id w with
    | (Ok combined, w') =>
        if (0 <? height combined)%nat
        then files w' = <[ENVIRONMENT_PATH := mkFile combined (clock w')]> (files w)
        else files w' = files w
    | (Raise _, w') => files w' = files w
    end.
Proof using Type.
  intros station_id w. unfold sync_environment.
  set (w0 := ensure_data_dir w).
  unfold bind at 1, lift at 1.
  destruct (environment_period w0) as [period|e]; [|reflexivity].
  unfold bind at 1.
  pose proof (keeps_files_get_environment_history (Some station_id) period 1000 400 w0)
    as Hfetch.
  destruct (get_environment_history (Some station_id) period 1000 400 w0)
    as [[new_data|e] w1]; simpl in Hfetch; [|exact Hfetch].
  unfold bind at 1, lift at 1.
  destruct (combine_environment (read_parquet ENVIRONMENT_PATH w0) new_data)
    as [combined|e]; [|exact Hfetch].
  unfold persist_nonempty.
  destruct (0 <? height combined)%nat eqn:Erows; cbv iota; rewrite Erows.
  - cbn [files write_parquet clock]. rewrite Hfetch. reflexivity.
  - exact Hfetch.
Qed.

Lemma keep_last_keys {A K} `{EqDecision K} (key : A -> K) l k :
  k ∈ map key l -> k ∈ map key (keep_last key l).
Proof using Type.
  induction l as [|y l IH]; simpl; [intros H; exact H|].
  intros Hk. destruct (bool_decide (key y ∈ map key l)) eqn:E.
  - apply bool_decide_eq_true in E. apply IH.
    apply elem_of_cons in Hk as [->|Hk]; assumption.
  - simpl. apply elem_of_cons in Hk as [->|Hk].
    + apply list_elem_of_here.
    + apply list_elem_of_further, IH, Hk.
Qed.

Lemma keep_last_app_right {A K} `{EqDecision K} (key : A -> K) l1 l2 x :
  x ∈ keep_last key (l1 ++ l2) -> key x ∈ map key l2 -> x ∈ keep_last key l2.
Proof using Type.
  intros Hx Hkey. induction l1 as [|y l1 IH]; [exact Hx|].
  simpl in Hx. destruct (bool_decide (key y ∈ map key (l1 ++ l2))) eqn:E.
  - apply IH, Hx.
  - apply elem_of_cons in Hx as [->|Hx]; [|apply IH, Hx].
    apply bool_decide_eq_false in E. exfalso. apply E.
    rewrite map_app. apply elem_of_app. right. exact Hkey.
Qed.

Lemma distinct_timestamps_unique_last df df' :
  unique ["timestamp"] KeepLast df = Ok df' -> distinct_timestamps df'.
Proof using Type.
  intros H. apply unique_Ok in H as (_ & Hperm). unfold distinct_timestamps.
  rewrite (Permutation_map (fun r => cell r "timestamp") Hperm).
  apply NoDup_key_cell, keep_last_NoDup.
Qed.

Lemma merge_environment_rows ex new_data df :
  merge_environment ex new_data = Ok df ->
  Permutation (rows df)
    (keep_last (key_of ["timestamp"]) (rows ex ++ rows new_data)).
Proof using Type.
  unfold merge_environment. intros H.
  apply rbind_Ok in H as (combined & Hconcat & H).
  apply rbind_Ok in H as (deduped & Hdedup & H).
  apply sort_rows_perm in H. rewrite H.
  apply unique_Ok in Hdedup as (_ & Hdedup). rewrite Hdedup.
  unfold concat in Hconcat. destruct (decide _); [|discriminate].
  injection Hconcat as <-. reflexivity.
Qed.

Lemma merge_environment_invariant ex new_data df :
  merge_environment ex new_data = Ok df ->
  distinct_timestamps df /\ timestamps_ascending df.
Proof using Type.
  unfold merge_environment. intros H.
  apply rbind_Ok in H as (combined & _ & H).
  apply rbind_Ok in H as (deduped & Hdedup & H).
  split.
  - unfold distinct_timestamps.
    rewrite (Permutation_map (fun r => cell r "timestamp") (sort_rows_perm _ _ _ H)).
    eapply distinct_timestamps_unique_last. exact Hdedup.
  - eapply sort_timestamps_ascending. exact H.
Qed.

(** What a successful [sync_environment] returns.  A merge of a cache
    that holds rows with a fetch that brings rows yields pairwise
    distinct timestamps in ascending order.  With a fetch of zero rows
    the cache is the result, unchanged.  On a first run (no cache, or one
    without rows) the result is the fetch in ascending timestamp order:
    nothing is deduplicated. *)
Theorem sync_environment_invariant :
  forall (station_id : string) (w : World) (df : DataFrame) (w' : World),
    sync_environment station_id w = (Ok df, w') ->
    exists period new_data w1,
      environment_period (ensure_data_dir w) = Ok period
      /\ get_environment_history (Some station_id) period 1000 400
                                 (ensure_data_dir w) = (Ok new_data, w1)
      /\ match cached_environment (ensure_data_dir w) with
         | Some ex =>
             if (0 <? height new_data)%nat
             then distinct_timestamps df /\ timestamps_ascending df
             else df = ex
         | None =>
             timestamps_ascending df /\ Permutation (rows df) (rows new_data)
         end.
Proof using Type.
  intros station_id w df w' H. unfold sync_environment in H.
  apply bind_lift_Ok in H as (period & Hperiod & H).
  apply bind_Ok in H as (new_data & w1 & Hfetch & H).
  apply bind_lift_Ok in H as (combined & Hcombine & H).
  assert (combined = df) as ->.
  { unfold persist_nonempty in H. destruct (0 <? height combined)%nat; congruence. }
  clear H. exists period, new_data, w1.
  split; [exact Hperiod|]. split; [exact Hfetch|].
  unfold cached_environment, combine_environment in *.
  assert (Hfirst :
    (if (0 <? height new_data)%nat then sort "timestamp" new_data else Ok new_data)
      = Ok df ->
    timestamps_ascending df /\ Permutation (rows df) (rows new_data)).
  { destruct (0 <? height new_data)%nat eqn:Enew; intros Hs.
    - split; [eapply sort_timestamps_ascending; exact Hs|].
      eapply sort_rows_perm. exact Hs.
    - injection Hs as <-. split; [|reflexivity].
      apply Nat.ltb_ge in Enew. unfold timestamps_ascending.
      unfold height in Enew. destruct (rows new_data); [constructor|simpl in Enew; lia]. }
  destruct (read_parquet ENVIRONMENT_PATH (ensure_data_dir w)) as [ex|]; [|auto].
  destruct (0 <? height ex)%nat; [|auto].
  destruct (0 <? height new_data)%nat.
  - eapply merge_environment_invariant. exact Hcombine.
  - congruence.
Qed.

(** In a merge the fetch wins: every row of the result is a cached or a
    fetched row, a row whose timestamp was fetched is a fetched row, and
    no timestamp of either side is lost. *)
Theorem sync_environment_fetched_wins :
  forall (station_id : string) (w : World) (ex : DataFrame) (period : value)
         (new_data : DataFrame) (w1 : World) (df : DataFrame) (w' : World),
    read_parquet ENVIRONMENT_PATH w = Some ex ->
    (0 < height ex)%nat ->
    environment_period (ensure_data_dir w) = Ok period ->
    get_environment_history (Some station_id) period 1000 400 (ensure_data_dir w)
      = (Ok new_data, w1) ->
    (0 < height new_data)%nat ->
    sync_environment station_id w = (Ok df, w') ->
    (forall r, r ∈ rows df -> r ∈ rows ex \/ r ∈ rows new_data)
    /\ (forall r n, r ∈ rows df -> n ∈ rows new_data ->
                    cell n "timestamp" = cell r "timestamp" -> r ∈ rows new_data)
    /\ (forall r, r ∈ rows ex \/ r ∈ rows new_data ->
                  exists r', r' ∈ rows df
                             /\ cell r' "timestamp" = cell r "timestamp").
Proof using Type.
  intros station_id w ex period new_data w1 df w' Hread Hrows Hperiod Hfetch Hnew H.
  unfold sync_environment in H.
  unfold bind at 1, lift at 1 in H. rewrite Hperiod in H.
  unfold bind at 1 in H. rewrite Hfetch in H.
  apply bind_lift_Ok in H as (combined & Hcombine & H).
  assert (combined = df) as ->.
  { unfold persist_nonempty in H. destruct (0 <? height combined)%nat; congruence. }
  clear H.
  change (read_parquet ENVIRONMENT_PATH (ensure_data_dir w))
    with (read_parquet ENVIRONMENT_PATH w) in Hcombine.
  rewrite Hread in Hcombine. unfold combine_environment in Hcombine.
  apply Nat.ltb_lt in Hrows, Hnew. rewrite Hrows, Hnew in Hcombine.
  apply merge_environment_rows in Hcombine.
  assert (Hkey : forall a b : row,
             cell a "timestamp" = cell b "timestamp"
             <-> key_of ["timestamp"] a = key_of ["timestamp"] b).
  { intros a b. unfold key_of. simpl. split; [intros ->; reflexivity|].
    intros E. injection E as E. exact E. }
  split; [|split].
  - intros r Hr. rewrite Hcombine in Hr.
    apply keep_last_subset, elem_of_app in Hr. exact Hr.
  - intros r n Hr Hn Hts. rewrite Hcombine in Hr.
    eapply keep_last_subset, keep_last_app_right; [exact Hr|].
    apply Hkey in Hts. rewrite <- Hts. apply list_elem_of_fmap_2, Hn.
  - intros r Hr.
    assert (Hin : key_of ["timestamp"] r
                  ∈ map (key_of ["timestamp"])
                        (keep_last (key_of ["timestamp"]) (rows ex ++ rows new_data))).
    { apply keep_last_keys, list_elem_of_fmap_2, elem_of_app, Hr. }
    apply list_elem_of_fmap in Hin as (r' & Hr' & Hin).
    exists r'. split; [rewrite Hcombine; exact Hin|].
    symmetry. apply Hkey. exact Hr'.
Qed.

Lemma posts_at_most_environment_pages fuel :
  forall station_id period page_size cursor acc,
    posts_at_most (3 * fuel)
      (environment_pages fuel station_id period page_size cursor acc).
Proof using Type.
  induction fuel as [|fuel IH]; intros; [apply posts_at_most_ret|].
  replace (3 * S fuel)%nat with (3 + 3 * fuel)%nat by lia.
  cbn [environment_pages].
  apply posts_at_most_bind; [apply posts_at_most_query_graphql|intros data].
  apply (posts_at_most_bind _ _ 0); [apply posts_at_most_lift|intros hist].
  apply (posts_at_most_bind _ _ 0); [apply posts_at_most_lift|intros nodes].
  apply (posts_at_most_bind _ _ 0); [apply posts_at_most_lift|intros has_next].
  apply posts_at_most_if; [apply posts_at_most_ret|].
  apply (posts_at_most_bind _ _ 0); [apply posts_at_most_lift|intros cursor'].
  apply IH.
Qed.

(** [max_pages] caps the traffic of [get_environment_history] as well:
    at most three requests for resolving the station and three per page;
    a sync of the environment cache therefore posts at most 1203. *)
Theorem get_environment_history_page_cap :
  forall (station_id : option string) (period : value) (page_size max_pages : Z)
         (sync_station : string),
    posts_at_most (3 + 3 * Z.to_nat max_pages)
      (get_environment_history station_id period page_size max_pages)
    /\ posts_at_most 1203 (sync_environment sync_station).
Proof using Type.
  intros station_id period page_size max_pages sync_station.
  assert (Hcap : forall sid p ps mp,
    posts_at_most (3 + 3 * Z.to_nat mp) (get_environment_history sid p ps mp)).
  { intros sid p ps mp. unfold get_environment_history.
    remember (3 * Z.to_nat mp)%nat as cap.
    apply posts_at_most_bind; [apply posts_at_most_station_or_env|intros s].
    replace cap with (cap + 0)%nat by lia.
    apply posts_at_most_bind;
      [subst cap; apply posts_at_most_environment_pages|intros all_nodes].
    destruct all_nodes; [apply posts_at_most_ret | apply posts_at_most_lift]. }
  split; [apply Hcap|].
  intros w. unfold sync_environment.
  change (log w) with (log (ensure_data_dir w)).
  generalize (ensure_data_dir w). intros w0.
  unfold bind at 1, lift at 1.
  destruct (environment_period w0) as [p|e]; [|simpl; lia].
  unfold bind at 1.
  pose proof (Hcap (Some sync_station) p 1000 400 w0) as Hposts.
  destruct (get_environment_history (Some sync_station) p 1000 400 w0)
    as [[new_data|e] w1]; simpl in Hposts; [|simpl; lia].
  unfold bind at 1, lift at 1.
  destruct (combine_environment (read_parquet ENVIRONMENT_PATH w0) new_data)
    as [combined|e]; [|simpl; lia].
  unfold persist_nonempty.
  destruct (0 <? height combined)%nat; simpl; lia.
Qed.


(** * Further properties: time-of-day counts *)

Lemma cell_species_totals_row_id aggs hourly x :
  cell (group_row ["speciesId"] aggs hourly [x]) "speciesId" = x.
Proof using Type. unfold group_row, cell. simpl. rewrite lookup_insert_eq. reflexivity. Qed.

Lemma cell_species_totals_row_total hourly x :
  cell (group_row ["speciesId"] [mkAgg "totalCount" UInt32 (agg_sum "count")] hourly [x])
       "totalCount"
  = agg_sum "count" (group_rows ["speciesId"] [x] hourly).
Proof using Type.
  unfold group_row, cell. simpl.
  rewrite lookup_insert_ne by discriminate. rewrite lookup_insert_eq. reflexivity.
Qed.

(** The right rows an hourly row with a species meets in the join: the
    one total of that species. *)
Lemma species_totals_matching hourly l :
  l ∈ hourly ->
  List.filter (fun r => bool_decide (cell r "speciesId" = cell l "speciesId"))
    (map (group_row ["speciesId"] [mkAgg "totalCount" UInt32 (agg_sum "count")] hourly)
         (distinct (map (key_of ["speciesId"]) hourly)))
  = [group_row ["speciesId"] [mkAgg "totalCount" UInt32 (agg_sum "count")] hourly
       [cell l "speciesId"]].
Proof using Type.
  intros Hl. rewrite filter_map_comm.
  rewrite (filter_ext_in _ (fun k => bool_decide (k = [cell l "speciesId"]))).
  - rewrite distinct_singleton; [reflexivity|].
    apply (list_elem_of_fmap_2 (key_of ["speciesId"])) in Hl. exact Hl.
  - intros k Hk. apply list_elem_of_In, elem_of_distinct in Hk.
    apply list_elem_of_fmap in Hk as (r & -> & _).
    unfold key_of. simpl. rewrite cell_species_totals_row_id.
    destruct (decide (cell r "speciesId" = cell l "speciesId")) as [E|E].
    + rewrite !bool_decide_eq_true_2; congruence.
    + rewrite !bool_decide_eq_false_2; congruence.
Qed.

Lemma join_species_totals_rows hourly st joined :
  columns hourly = ["speciesId"; "commonName"; "hour"; "count"] ->
  group_by_agg ["speciesId"] ["count"] [mkAgg "totalCount" UInt32 (agg_sum "count")]
               hourly = Ok st ->
  join_left "speciesId" hourly st = Ok joined ->
  rows joined = map (attach_species_total (rows hourly)) (rows hourly).
Proof using Type.
  intros Hcols Hst Hjoin.
  apply group_by_agg_Ok in Hst as (Hrows & ks & Hks & Hschema).
  destruct ks as [|[c t] [|? ?]]; try discriminate.
  simpl in Hks. injection Hks as ->. simpl in Hschema.
  unfold join_left in Hjoin.
  apply rbind_Ok in Hjoin as (t_left & _ & Hjoin).
  apply rbind_Ok in Hjoin as (t_right & _ & Hjoin).
  destruct (negb (bool_decide (t_left = t_right))); [discriminate|].
  rewrite Hschema in Hjoin. cbn [List.filter fst snd map] in Hjoin.
  change (String.eqb "speciesId" "speciesId") with true in Hjoin.
  change (String.eqb "totalCount" "speciesId") with false in Hjoin.
  cbn [negb List.filter map fst snd] in Hjoin.
  assert (Hfresh : has_column hourly "totalCount" = false).
  { unfold has_column. rewrite Hcols. reflexivity. }
  rewrite Hfresh in Hjoin.
  destruct (negb (bool_decide (NoDup _))); [discriminate|].
  injection Hjoin as <-. cbn [rows fold_right fst].
  apply flat_map_singletons. intros l Hl. cbv beta zeta. rewrite !Hfresh.
  unfold attach_species_total. destruct (is_null (cell l "speciesId")); [reflexivity|].
  rewrite (filter_perm_one _ _ _ _ Hrows (species_totals_matching _ _ Hl)). cbn [map].
  rewrite cell_species_totals_row_total. reflexivity.
Qed.

Lemma hourly_output_row_cell hourly l c :
  c ∈ ["speciesId"; "commonName"; "hour"; "count"] ->
  cell (hourly_output_row hourly l) c = cell l c.
Proof using Type.
  intros Hc. apply list_elem_of_In in Hc. simpl in Hc.
  destruct Hc as [<-|[<-|[<-|[<-|[]]]]];
    unfold hourly_output_row, attach_species_total;
    rewrite cell_project;
    (rewrite bool_decide_eq_true_2 by (repeat constructor));
    apply cell_insert_ne; discriminate.
Qed.

Lemma hourly_output_row_total hourly l :
  is_null (cell l "speciesId") = false ->
  cell (hourly_output_row hourly l) "totalCount"
  = VInt (fold_right Z.add 0
            (map (fun r => int_of (cell r "count"))
                 (List.filter
                    (fun r => bool_decide (cell r "speciesId" = cell l "speciesId"))
                    hourly))).
Proof using Type.
  intros Hid. unfold hourly_output_row. rewrite cell_project.
  change (bool_decide ("totalCount" ∈ ["speciesId"; "commonName"; "totalCount";
                                        "hour"; "count"])) with true.
  cbv iota. unfold attach_species_total. rewrite cell_insert_eq, Hid.
  unfold agg_sum, group_rows. do 3 f_equal.
  apply filter_ext_bool. intros r. unfold key_of. simpl.
  destruct (decide (cell r "speciesId" = cell l "speciesId")) as [E|E].
  - rewrite !bool_decide_eq_true_2; congruence.
  - rewrite !bool_decide_eq_false_2; congruence.
Qed.

Lemma species_total_output_rows hourly sid :
  species_total sid (map (hourly_output_row hourly) hourly)
  = fold_right Z.add 0
      (map (fun r => int_of (cell r "count"))
           (List.filter (fun r => bool_decide (cell r "speciesId" = sid)) hourly)).
Proof using Type.
  unfold species_total. rewrite filter_map_comm, map_map. f_equal.
  rewrite (filter_ext_bool _ (fun r => bool_decide (cell r "speciesId" = sid))).
  - apply map_ext. intros r. rewrite hourly_output_row_cell; [reflexivity|].
    repeat constructor.
  - intros r. rewrite hourly_output_row_cell; [reflexivity|]. repeat constructor.
Qed.

(** The output is, up to order, one row per group of the hourly counts,
    and the groups are those of the detections with their hour. *)
Lemma compute_time_of_day_counts_rows detections out :
  compute_time_of_day_counts detections = Ok out ->
  exists hourly,
    Permutation (rows out) (map (hourly_output_row hourly) hourly)
    /\ Permutation hourly
         (map (group_row ["speciesId"; "commonName"; "hour"]
                        [mkAgg "count" UInt32 agg_len]
                        (map (fun r => <["hour" := hour_of (cell r "timestamp")]> r)
                             (rows detections)))
             (distinct
                (map (key_of ["speciesId"; "commonName"; "hour"])
                     (map (fun r => <["hour" := hour_of (cell r "timestamp")]> r)
                          (rows detections))))).
Proof using Type.
  unfold compute_time_of_day_counts. intros H.
  destruct (height detections =? 0)%nat eqn:Edet.
  { injection H as <-. exists []. split; [constructor|].
    apply Nat.eqb_eq in Edet. unfold height in Edet.
    destruct (rows detections); [reflexivity | discriminate]. }
  apply rbind_Ok in H as (t & _ & H).
  destruct (negb _); [discriminate|].
  apply rbind_Ok in H as (hourly & Hhourly & H).
  apply rbind_Ok in H as (species_totals & Hst & H).
  apply rbind_Ok in H as (joined & Hjoin & H).
  apply rbind_Ok in H as (sorted & Hsort & H).
  exists (rows hourly).
  pose proof Hhourly as Hhourly'.
  apply group_by_agg_Ok in Hhourly' as (Hrows & ks & Hks & Hschema).
  assert (Hcols : columns hourly = ["speciesId"; "commonName"; "hour"; "count"]).
  { unfold columns. rewrite Hschema, map_app, Hks. reflexivity. }
  pose proof (join_species_totals_rows _ _ _ Hcols Hst Hjoin) as Hjoined.
  apply sort_by_Ok in Hsort as (Hsorted & _).
  apply select_Ok in H as (Hout & _ & _).
  split.
  - rewrite Hout, Hsorted, Hjoined.
    rewrite !map_map. reflexivity.
  - exact Hrows.
Qed.

Lemma hourly_count_value rs k :
  k ∈ map (key_of ["speciesId"; "commonName"; "hour"]) rs ->
  cell (group_row ["speciesId"; "commonName"; "hour"] [mkAgg "count" UInt32 agg_len] rs k)
       "count"
  = VInt (Z.of_nat (length (group_rows ["speciesId"; "commonName"; "hour"] k rs))).
Proof using Type.
  intros Hk. apply list_elem_of_fmap in Hk as (r & -> & _).
  unfold group_row, key_of, cell. simpl.
  rewrite !lookup_insert_ne by discriminate. rewrite lookup_insert_eq.
  reflexivity.
Qed.

Lemma hourly_hour_value rs k :
  k ∈ map (key_of ["speciesId"; "commonName"; "hour"]) rs ->
  exists r, r ∈ rs
    /\ cell (group_row ["speciesId"; "commonName"; "hour"]
                       [mkAgg "count" UInt32 agg_len] rs k) "hour"
       = cell r "hour".
Proof using Type.
  intros Hk. apply list_elem_of_fmap in Hk as (r & -> & Hr).
  exists r. split; [exact Hr|].
  unfold group_row, key_of, cell. simpl.
  rewrite !lookup_insert_ne by discriminate. rewrite lookup_insert_eq.
  reflexivity.
Qed.

(** In the output of [compute_time_of_day_counts], the [totalCount] of
    every row with a species is the sum of the [count] cells of the
    output rows of that species. *)
Theorem time_of_day_total_is_species_total :
  forall (detections out : DataFrame),
    compute_time_of_day_counts detections = Ok out ->
    forall r,
      r ∈ rows out ->
      is_null (cell r "speciesId") = false ->
      cell r "totalCount" = VInt (species_total (cell r "speciesId") (rows out)).
Proof using Type.
  intros detections out H r Hr Hid.
  apply compute_time_of_day_counts_rows in H as (hourly & Hperm & _).
  unfold species_total.
  rewrite (sum_perm _ _ (Permutation_map _ (filter_perm _ _ _ Hperm))).
  fold (species_total (cell r "speciesId") (map (hourly_output_row hourly) hourly)).
  rewrite species_total_output_rows.
  rewrite Hperm in Hr. apply list_elem_of_fmap in Hr as (l & -> & Hl).
  assert (Hsame : cell (hourly_output_row hourly l) "speciesId" = cell l "speciesId")
    by (apply hourly_output_row_cell; repeat constructor).
  rewrite Hsame in *. apply hourly_output_row_total. exact Hid.
Qed.

(** The counts of the output cover the detections once each: they add
    up to the number of detections; and every [hour] cell is null or the
    float of a whole hour from 0 to 23. *)
Theorem time_of_day_counts_cover_detections :
  forall (detections out : DataFrame),
    compute_time_of_day_counts detections = Ok out ->
    fold_right Z.add 0 (map (fun r => int_of (cell r "count")) (rows out))
      = Z.of_nat (height detections)
    /\ forall r, r ∈ rows out ->
         cell r "hour" = VNull
         \/ exists h, 0 <= h < 24 /\ cell r "hour" = VFloat (float_bits h).
Proof using Type.
  intros detections out H.
  apply compute_time_of_day_counts_rows in H as (hourly & Hperm & Hhourly).
  set (keys := ["speciesId"; "commonName"; "hour"]) in *.
  set (timed := map (fun r => <["hour" := hour_of (cell r "timestamp")]> r)
                    (rows detections)) in *.
  split.
  - rewrite (sum_perm _ _ (Permutation_map _ Hperm)), map_map.
    rewrite (map_ext _ (fun l => int_of (cell l "count")))
      by (intros l; rewrite hourly_output_row_cell;
          [reflexivity | repeat constructor]).
    rewrite (sum_perm _ _ (Permutation_map _ Hhourly)), map_map.
    rewrite (map_ext_in _ (fun k => Z.of_nat (length (group_rows keys k timed)))).
    + unfold group_rows.
      rewrite (group_sizes_sum (key_of keys) _ timed).
      * unfold timed, height. rewrite length_map. reflexivity.
      * apply distinct_NoDup.
      * intros x Hx. apply elem_of_distinct_2, list_elem_of_fmap_2, Hx.
    + intros k Hk. apply list_elem_of_In, elem_of_distinct in Hk.
      unfold keys. rewrite hourly_count_value by exact Hk. reflexivity.
  - intros r Hr. rewrite Hperm in Hr.
    apply list_elem_of_fmap in Hr as (l & -> & Hl).
    rewrite hourly_output_row_cell by (repeat constructor).
    rewrite Hhourly in Hl. apply list_elem_of_fmap in Hl as (k & -> & Hk).
    apply elem_of_distinct in Hk. unfold keys in *.
    destruct (hourly_hour_value timed k Hk) as (r & Hr & ->).
    unfold timed in Hr. apply list_elem_of_fmap in Hr as (r0 & -> & _).
    rewrite cell_insert_eq. unfold hour_of.
    destruct (cell r0 "timestamp"); try (left; reflexivity).
    right. eexists. split; [|reflexivity].
    apply Z.mod_pos_bound. lia.
Qed.


(** * Further properties: the detections cache *)

(** ** The boundary of an incremental sync *)

Lemma column_max_step_below t m v :
  below t (match m, v with
           | _, VNull => m
           | VNull, _ => v
           | _, _ => if value_ltb m v then v else m
           end) ->
  below t m /\ below t v.
Proof using Type.
  clear -t m v.
  destruct m, v; unfold value_ltb, value_compare; simpl; try tauto;
    repeat match goal with
           | |- context [Z.compare ?a ?b] => destruct (Z.compare_spec a b)
           | |- context [Nat.compare ?a ?b] => destruct (Nat.compare a b)
           | |- context [String.compare ?a ?b] => destruct (String.compare a b)
           end; cbn [below]; try tauto; try lia.
Qed.

Lemma column_max_from cells :
  forall m t,
    fold_left (fun m v =>
                 match m, v with
                 | _, VNull => m
                 | VNull, _ => v
                 | _, _ => if value_ltb m v then v else m
                 end) cells m = VDatetime t ->
    (m = VDatetime t \/ VDatetime t ∈ cells)
    /\ below t m
    /\ forall v, v ∈ cells -> below t v.
Proof using Type.
  induction cells as [|v cells IH]; intros m t H; simpl in H.
  - subst m. split; [left; reflexivity|]. split; [simpl; lia|].
    intros v Hv. inversion Hv.
  - destruct (IH _ _ H) as (Hin & Hm & Hcells).
    destruct (column_max_step_below _ _ _ Hm) as [Hbm Hbv].
    split; [|split].
    + destruct Hin as [Hin|Hin]; [|right; apply list_elem_of_further, Hin].
      destruct m, v; try (left; exact Hin); try (right; rewrite <- Hin; apply list_elem_of_here);
        destruct (value_ltb _ _);
        first [left; exact Hin | right; rewrite <- Hin; apply list_elem_of_here].
    + exact Hbm.
    + intros x Hx. apply elem_of_cons in Hx as [->|Hx]; [exact Hbv | apply Hcells, Hx].
Qed.

(** The boundary an incremental sync hands to [get_detections] is the
    latest timestamp of the cache: some cached row carries it and no
    cached row is later. *)
Theorem cache_boundary_latest :
  forall (w : World) (t : Z),
    cache_boundary w = Ok (Some t) ->
    exists ex,
      cached_detections w = Some ex
      /\ (exists r, r ∈ rows ex /\ cell r "timestamp" = VDatetime t)
      /\ forall r t', r ∈ rows ex -> cell r "timestamp" = VDatetime t' -> t' <= t.
Proof using Type.
  intros w t H. unfold cache_boundary in H. unfold cached_detections.
  destruct (read_parquet DETECTIONS_PATH w) as [ex|]; [|discriminate].
  destruct (0 <? height ex)%nat; [|discriminate].
  exists ex. split; [reflexivity|].
  apply rbind_Ok in H as (ts & Hts & H).
  apply rbind_Ok in H as (t0 & Hmax & H). injection H as ->.
  unfold column in Hts. apply rbind_Ok in Hts as (? & _ & Hts). injection Hts as <-.
  unfold as_utc_instant in Hmax.
  destruct (column_max _) as [| | | | | |t1| |] eqn:Emax; try discriminate.
  injection Hmax as ->.
  unfold column_max in Emax. apply column_max_from in Emax as (Hin & _ & Hcells).
  split.
  - destruct Hin as [Hin|Hin]; [discriminate|].
    apply list_elem_of_fmap in Hin as (r & Hr & Hin). exists r. split; auto.
  - intros r t' Hr Ht'.
    specialize (Hcells (cell r "timestamp")
                       (list_elem_of_fmap_2 (fun r => cell r "timestamp") _ _ Hr)).
    rewrite Ht' in Hcells. exact Hcells.
Qed.


(** ** The merge of cache and fetch *)

Lemma columns_set_dtype c t sch c' :
  c' = c \/ c' ∈ map fst sch -> c' ∈ map fst (set_dtype c t sch).
Proof using Type.
  induction sch as [|[c0 t0] sch IH]; simpl.
  - intros [->|H]; [apply list_elem_of_here | inversion H].
  - destruct (String.eqb c c0) eqn:E.
    + apply String.eqb_eq in E. subst c0. simpl.
      intros [->|H]; [apply list_elem_of_here | exact H].
    + simpl. intros [->|H].
      * apply list_elem_of_further, IH. left. reflexivity.
      * apply elem_of_cons in H as [->|H]; [apply list_elem_of_here|].
        apply list_elem_of_further, IH. right. exact H.
Qed.

(** Aligning a table keeps its columns and their cells, and brings in
    every column of the other table. *)
Lemma add_missing_columns_spec src dst :
  (forall c, c ∈ columns dst \/ c ∈ columns src ->
             c ∈ columns (add_missing_columns src dst))
  /\ exists g : row -> row,
       rows (add_missing_columns src dst) = map g (rows dst)
       /\ forall r c, c ∈ columns dst -> cell (g r) c = cell r c.
Proof using Type.
  unfold add_missing_columns, columns at 2. revert dst.
  induction (schema src) as [|[c t] sch IH]; intros dst; simpl.
  - split; [intros c [H|H]; [exact H | inversion H]|].
    exists (fun r => r). split; [symmetry; apply map_id | reflexivity].
  - destruct (has_column dst c) eqn:Ehas.
    + destruct (IH dst) as (Hcols & g & Hrows & Hcells).
      split; [|exists g; auto].
      intros c' [H|H]; [apply Hcols; left; exact H|].
      apply elem_of_cons in H as [->|H]; [|apply Hcols; right; exact H].
      apply Hcols. left. apply bool_decide_eq_true in Ehas. exact Ehas.
    + destruct (IH (with_null_column c t dst)) as (Hcols & g & Hrows & Hcells).
      assert (Hsub : forall c', c' = c \/ c' ∈ columns dst ->
                                c' ∈ columns (with_null_column c t dst)).
      { intros c' H. unfold with_null_column, with_column, columns. cbn [schema].
        apply columns_set_dtype. exact H. }
      split.
      * intros c' [H|H]; [apply Hcols; left; apply Hsub; right; exact H|].
        apply elem_of_cons in H as [->|H]; [|apply Hcols; right; exact H].
        apply Hcols. left. apply Hsub. left. reflexivity.
      * exists (fun r => g (<[c := VNull]> r)). split.
        -- rewrite Hrows. unfold with_null_column, with_column. cbn [rows].
           rewrite map_map. reflexivity.
        -- intros r c' Hc'. rewrite Hcells by (apply Hsub; right; exact Hc').
           apply cell_insert_ne. intros <-.
           apply bool_decide_eq_false in Ehas. exact (Ehas Hc').
Qed.

Lemma merge_detections_rows ex new_data df :
  merge_detections ex new_data = Ok df ->
  exists g_ex g_new : row -> row,
    Permutation (rows df)
      (keep_last (key_of ["id"]) (map g_ex (rows ex) ++ map g_new (rows new_data)))
    /\ (forall r c, c ∈ columns ex -> cell (g_ex r) c = cell r c)
    /\ (forall r c, c ∈ columns new_data -> cell (g_new r) c = cell r c).
Proof using Type.
  unfold merge_detections. intros H.
  apply rbind_Ok in H as (selected & Hselect & H).
  apply rbind_Ok in H as (combined & Hconcat & H).
  apply rbind_Ok in H as (deduped & Hdedup & H).
  apply sort_rows_perm in H.
  apply unique_Ok in Hdedup as (_ & Hdedup). rewrite Hdedup in H.
  unfold concat in Hconcat. destruct (decide _); [|discriminate].
  injection Hconcat as <-. cbn [rows] in H.
  apply select_Ok in Hselect as (Hselected & _ & _).
  destruct (add_missing_columns_spec new_data ex) as (Hcols & g_ex & Hrows_ex & Hcells_ex).
  destruct (add_missing_columns_spec (add_missing_columns new_data ex) new_data)
    as (_ & g_new & Hrows_new & Hcells_new).
  exists g_ex, (fun r => project (columns (add_missing_columns new_data ex)) (g_new r)).
  split; [|split].
  - rewrite H, Hselected, Hrows_ex, Hrows_new, map_map. reflexivity.
  - exact Hcells_ex.
  - intros r c Hc. rewrite cell_project.
    rewrite bool_decide_eq_true_2 by (apply Hcols; right; exact Hc).
    apply Hcells_new, Hc.
Qed.

(** On an id collision the fetch wins.  In a merge, a row of the result
    whose id was fetched carries, in every fetched column, the cells of a
    fetched row; and no id of the cache or of the fetch is lost. *)
Theorem sync_detections_fetched_wins :
  forall (station_id : string) (earliest_detection_at : option string)
         (w : World) (ex : DataFrame) (stop_before : option Z)
         (new_data : DataFrame) (w1 : World) (df : DataFrame) (w' : World),
    read_parquet DETECTIONS_PATH w = Some ex ->
    (0 < height ex)%nat ->
    cache_boundary (ensure_data_dir w) = Ok stop_before ->
    get_detections (Some station_id) 100 1000 stop_before earliest_detection_at
                   (ensure_data_dir w) = (Ok new_data, w1) ->
    (0 < height new_data)%nat ->
    has_column ex "id" = true ->
    has_column new_data "id" = true ->
    sync_detections station_id earliest_detection_at w = (Ok df, w') ->
    (forall r n, r ∈ rows df -> n ∈ rows new_data -> cell n "id" = cell r "id" ->
       exists n', n' ∈ rows new_data
                  /\ forall c, c ∈ columns new_data -> cell r c = cell n' c)
    /\ (forall r, r ∈ rows ex \/ r ∈ rows new_data ->
          exists r', r' ∈ rows df /\ cell r' "id" = cell r "id").
Proof using Type.
  intros station_id earliest w ex stop_before new_data w1 df w'
         Hread Hrows Hstop Hfetch Hnew Hid_ex Hid_new H.
  unfold sync_detections in H.
  unfold bind at 1, lift at 1 in H. rewrite Hstop in H.
  unfold bind at 1 in H. rewrite Hfetch in H.
  apply bind_lift_Ok in H as (combined & Hcombine & H).
  assert (combined = df) as ->.
  { unfold persist_nonempty in H. destruct (0 <? height combined)%nat; congruence. }
  clear H.
  change (read_parquet DETECTIONS_PATH (ensure_data_dir w))
    with (read_parquet DETECTIONS_PATH w) in Hcombine.
  rewrite Hread in Hcombine. unfold combine_detections in Hcombine.
  apply Nat.ltb_lt in Hrows, Hnew. rewrite Hrows, Hnew in Hcombine.
  apply merge_detections_rows in Hcombine
    as (g_ex & g_new & Hperm & Hcells_ex & Hcells_new).
  apply bool_decide_eq_true in Hid_ex, Hid_new.
  assert (Hkey : forall a b : row,
             cell a "id" = cell b "id" <-> key_of ["id"] a = key_of ["id"] b).
  { intros a b. unfold key_of. simpl. split; [intros ->; reflexivity|].
    intros E. injection E as E. exact E. }
  split.
  - intros r n Hr Hn Hsame. rewrite Hperm in Hr.
    assert (Hfetched : r ∈ map g_new (rows new_data)).
    { eapply keep_last_subset, keep_last_app_right; [exact Hr|].
      apply list_elem_of_fmap. exists (g_new n). split.
      - apply Hkey. rewrite Hcells_new by exact Hid_new. symmetry. exact Hsame.
      - apply list_elem_of_fmap_2, Hn. }
    apply list_elem_of_fmap in Hfetched as (n' & -> & Hn').
    exists n'. split; [exact Hn'|]. intros c Hc. apply Hcells_new, Hc.
  - intros r Hr.
    assert (Hin : exists a, a ∈ (map g_ex (rows ex) ++ map g_new (rows new_data))%list
                            /\ cell a "id" = cell r "id").
    { destruct Hr as [Hr|Hr].
      - exists (g_ex r). split; [|apply Hcells_ex, Hid_ex].
        apply elem_of_app. left. apply list_elem_of_fmap_2, Hr.
      - exists (g_new r). split; [|apply Hcells_new, Hid_new].
        apply elem_of_app. right. apply list_elem_of_fmap_2, Hr. }
    destruct Hin as (a & Ha & Hsame).
    apply (list_elem_of_fmap_2 (key_of ["id"])) in Ha.
    apply keep_last_keys, list_elem_of_fmap in Ha as (r' & Hr' & Hin).
    exists r'. split; [rewrite Hperm; exact Hin|].
    rewrite <- Hsame. symmetry. apply Hkey. exact Hr'.
Qed.


(** * [sync_species_meta]: one row per species *)















End Program.

(** * Worked runs

    Concrete worlds on which the statements above are exercised.  The
    station of these runs writes its timestamps as decimal counts of
    microseconds, and its server answers from a script: the n-th post
    gets the n-th response. *)

Fixpoint digits_value (s : string) (acc : Z) : option Z :=
  match s with
  | EmptyString => Some acc
  | String c s' =>
      if is_digit c
      then digits_value s' (acc * 10 + (Z.of_nat (nat_of_ascii c) - 48))
      else None
  end.

Definition read_instant (s : string) : option Z :=
  if String.eqb s "" then None else digits_value s 0.

Definition read_instant_polars (s : string) : option Z :=
  read_instant (str_replace "Z" "+00:00" s).

Definition read_date (s : string) : option Z := read_instant s.

Definition show_id (v : value) : string :=
  match v with
  | VStr s => s
  | _ => "?"
  end.

Definition to_float (v : value) : result value :=
  match v with
  | VInt z => Ok (VFloat z)
  | VFloat f => Ok (VFloat f)
  | _ => Raise ValueError
  end.

Definition day_in_year (d : Z) : Z := d mod 365 + 1.

(** A library that retains the first row of each group of duplicates, one
    that retains the last, and the order of the input for the result. *)
Definition first_pick (g : list row) : nat := 0.


Definition input_order (l : list row) (i : nat) : Z := Z.of_nat i.

(** Instants written as [read_instant] reads them. *)
Fixpoint show_digits (fuel : nat) (n : Z) (acc : string) : string :=
  match fuel with
  | O => acc
  | S fuel' =>
      let acc' := String (ascii_of_nat (48 + Z.to_nat (n mod 10))) acc in
      if n <? 10 then acc' else show_digits fuel' (n / 10) acc'
  end.

Definition show_instant (t : Z) : string := show_digits 20 t "".

(** Whole numbers as their own float pattern, as [to_float] has them. *)
Definition whole_float (z : Z) : Z := z.

(** The value a computation returned. *)
Definition returned {A} (default : A) (r : result A) : A :=
  match r with
  | Ok a => a
  | Raise _ => default
  end.

Lemma read_instants_agree : parsers_agree read_instant read_instant_polars.
Proof.
  intros s t t' H1 H2. unfold read_instant_polars in H2. congruence.
Qed.

(** Evaluate the left-hand side of an equation and let its value fix the
    unknowns of the right-hand side. *)
Ltac run_to_value :=
  match goal with
  | |- ?l = _ =>
      let v := eval vm_compute in l in
      transitivity v; [vm_compute; reflexivity | reflexivity]
  end.

(** Close an equation between closed terms by evaluating both sides. *)
Ltac by_evaluation :=
  match goal with
  | |- @eq ?T ?a ?b => exact (@eq_refl T a <: a = b)
  end.

Definition scripted (responses : list http_outcome)
  : list event -> request -> http_outcome :=
  fun log _ => nth (length (posts log)) responses HttpConnectionError.

(** A fresh process: nothing logged, no cache file, station id 7 in the
    environment. *)
Definition fresh_world (responses : list http_outcome) : World :=
  mkWorld (scripted responses) [] 0 None (Some "7") ∅ false ∅.

Definition detection_node (id ts : string) : value :=
  VStruct [("id", VStr id);
           ("timestamp", VStr ts);
           ("speciesId", VStr "sp1");
           ("species", VStruct [("commonName", VStr "Robin");
                                ("scientificName", VStr "Erithacus rubecula")]);
           ("confidence", VFloat 1);
           ("probability", VNull);
           ("score", VFloat 1);
           ("certainty", VStr "uncertain")].

Definition detections_data (nodes : list value) (has_next : bool) : value :=
  VStruct [("station",
            VStruct [("detections",
                      VStruct [("pageInfo",
                                VStruct [("hasNextPage", VBool has_next);
                                         ("endCursor", VStr "c1")]);
                               ("nodes", VList nodes)])])].

Definition detections_page (nodes : list value) (has_next : bool) : http_outcome :=
  HttpJson (VStruct [("data", detections_data nodes has_next)]).

(** One timeout, then a GraphQL error payload. *)
Definition flaky_world : World :=
  fresh_world [HttpTimeout; HttpJson (VStruct [("errors", VStr "bad query")])].

(** On [flaky_world] the query is posted, retried after one second, and
    the error payload of the second answer is raised at once. *)
Lemma query_graphql_retry_policy_witness :
  let req := build_request Detections None flaky_world in
  query_graphql Detections None 3 flaky_world
  = (Raise (RuntimeError (VStr "bad query")),
     record_event (Post req) (sleep 1 (record_event (Post req) flaky_world)))
  /\ log (retried 1 0 req flaky_world) = [Post req; Sleep 1].
Proof.
  pose proof (query_graphql_retry_policy Detections None 3 flaky_world 1
                eq_refl eq_refl) as [Hlog Hrun].
  split; [exact Hrun | exact Hlog].
Defined.

(** Three detections, newest first, with more pages announced; the
    limits of the runs below lie between the second and the third. *)
Definition paged_world : World :=
  fresh_world [detections_page [detection_node "3" "30"; detection_node "2" "20";
                                detection_node "1" "10"] true;
               detections_page [detection_node "0" "5"] false].

(** The first query of a fetch on [paged_world], and the rows of the
    two nodes that come before the third. *)
Definition first_query : result value * World :=
  query_graphql Detections (Some (detections_variables "7" 100 VNull))
                DEFAULT_RETRIES paged_world.

Definition first_two : list dict :=
  returned [] (rmap detection_row [detection_node "3" "30"; detection_node "2" "20"]).

Definition first_two_frame : DataFrame :=
  returned no_columns_frame
           (str_to_datetime read_instant_polars "timestamp" (from_dicts first_two)).

(** Asked for the detections from instant 15 on, and asked for those
    after instant 15: in both runs the third node ends the fetch after
    one query, and the two nodes before it are the rows. *)
Lemma get_detections_stop_conditions_witness :
  (get_detections read_instant read_instant_polars show_id
     (Some "7") 100 1000 None (Some "15") paged_world
   = (Ok first_two_frame, snd first_query)
   /\ Forall (fun r => exists t, cell r "timestamp" = VDatetime t /\ 15 <= t)
             (rows first_two_frame))
  /\ (get_detections read_instant read_instant_polars show_id
        (Some "7") 100 1000 (Some 15) None paged_world
      = (Ok first_two_frame, snd first_query)
      /\ Forall (fun r => exists t, cell r "timestamp" = VDatetime t /\ 15 < t)
                (rows first_two_frame))
  /\ map (fun r => cell r "timestamp") (rows first_two_frame)
     = [VDatetime 30; VDatetime 20]
  /\ length (posts (log (snd first_query))) = 1%nat.
Proof.
  assert (Hpre : forall stop_before floor,
             within stop_before floor 30 -> within stop_before floor 20 ->
             Forall (fun n => exists t', instant_of read_instant n t'
                                         /\ within stop_before floor t')
                    [detection_node "3" "30"; detection_node "2" "20"]).
  { intros stop_before floor H30 H20.
    repeat constructor;
      [exists 30 | exists 20]; (split; [eexists; split; reflexivity | assumption]). }
  assert (Hnode : instant_of read_instant (detection_node "1" "10") 10)
    by (eexists; split; reflexivity).
  assert (Hframe : str_to_datetime read_instant_polars "timestamp" (from_dicts first_two)
                   = Ok first_two_frame) by (by_evaluation).
  split; [|split; [|split; by_evaluation]].
  - destruct (get_detections_stop_conditions read_instant read_instant_polars show_id
                read_instants_agree (Some "7") 100 1000 None (Some "15") paged_world)
      as (Hrows & _ & Hstop).
    assert (Hrun : get_detections read_instant read_instant_polars show_id
                     (Some "7") 100 1000 None (Some "15") paged_world
                   = (Ok first_two_frame, snd first_query)).
    { rewrite <- Hframe.
      apply (Hstop (Some 15) "7" paged_world
               (detections_data [detection_node "3" "30"; detection_node "2" "20";
                                 detection_node "1" "10"] true)
               (snd first_query)
               (returned VNull
                  (path_get (detections_data
                               [detection_node "3" "30"; detection_node "2" "20";
                                detection_node "1" "10"] true)
                            ["station"; "detections"]))
               [detection_node "3" "30"; detection_node "2" "20"]
               (detection_node "1" "10") [] first_two 10).
      - exists 15. split; reflexivity.
      - reflexivity.
      - lia.
      - by_evaluation.
      - by_evaluation.
      - by_evaluation.
      - apply Hpre; split; intros ? [= <-]; lia.
      - by_evaluation.
      - exact Hnode.
      - right. exists 15. split; [reflexivity | lia]. }
    split; [exact Hrun|].
    destruct (Hrows _ _ Hrun) as (floor & (e & He & ->) & Hall).
    vm_compute in He. injection He as <-.
    eapply Forall_impl; [exact Hall|].
    intros r (t & Ht & _ & Hfloor). exists t. split; [exact Ht|].
    apply Hfloor. reflexivity.
  - destruct (get_detections_stop_conditions read_instant read_instant_polars show_id
                read_instants_agree (Some "7") 100 1000 (Some 15) None paged_world)
      as (Hrows & _ & Hstop).
    assert (Hrun : get_detections read_instant read_instant_polars show_id
                     (Some "7") 100 1000 (Some 15) None paged_world
                   = (Ok first_two_frame, snd first_query)).
    { rewrite <- Hframe.
      apply (Hstop None "7" paged_world
               (detections_data [detection_node "3" "30"; detection_node "2" "20";
                                 detection_node "1" "10"] true)
               (snd first_query)
               (returned VNull
                  (path_get (detections_data
                               [detection_node "3" "30"; detection_node "2" "20";
                                detection_node "1" "10"] true)
                            ["station"; "detections"]))
               [detection_node "3" "30"; detection_node "2" "20"]
               (detection_node "1" "10") [] first_two 10).
      - reflexivity.
      - reflexivity.
      - lia.
      - by_evaluation.
      - by_evaluation.
      - by_evaluation.
      - apply Hpre; split; intros ? [= <-]; lia.
      - by_evaluation.
      - exact Hnode.
      - left. exists 15. split; [reflexivity | lia]. }
    split; [exact Hrun|].
    destruct (Hrows _ _ Hrun) as (floor & _ & Hall).
    eapply Forall_impl; [exact Hall|].
    intros r (t & Ht & Hstop_before & _). exists t. split; [exact Ht|].
    apply Hstop_before. reflexivity.
Defined.

(** A first listing that carries the same id twice. *)
Definition duplicate_world : World :=
  fresh_world [detections_page [detection_node "1" "20"; detection_node "1" "10"]
                               false].

(** On a first run nothing removes a repeated id: both rows are cached. *)
Lemma sync_detections_duplicate_ids :
  exists df w',
    read_parquet DETECTIONS_PATH duplicate_world = None
    /\ sync_detections read_instant read_instant_polars show_id first_pick input_order
         "7" None duplicate_world
       = (Ok df, w')
    /\ read_parquet DETECTIONS_PATH w' = Some df
    /\ map (fun r => cell r "id") (rows df) = [VStr "1"; VStr "1"]
    /\ ~ distinct_ids df.
Proof.
  exists (returned no_columns_frame
            (fst (sync_detections read_instant read_instant_polars show_id
                    first_pick input_order "7" None duplicate_world))),
         (snd (sync_detections read_instant read_instant_polars show_id
                 first_pick input_order "7" None duplicate_world)).
  split; [reflexivity|].
  split; [by_evaluation|].
  split; [by_evaluation|].
  assert (Hids : map (fun r => cell r "id")
                     (rows (returned no_columns_frame
                              (fst (sync_detections read_instant read_instant_polars
                                      show_id first_pick input_order "7" None
                                      duplicate_world))))
                 = [VStr "1"; VStr "1"]) by (by_evaluation).
  split; [exact Hids|].
  unfold distinct_ids. rewrite Hids. intros Hnd.
  inversion Hnd as [|x l Hnotin _]; subst. apply Hnotin. apply list_elem_of_here.
Qed.

(** Three syncs of one station: the seed over two pages, an increment
    that brings one new detection, and a sync that finds nothing new. *)
Definition station_script : list http_outcome :=
  [detections_page [detection_node "3" "30"; detection_node "2" "20";
                    detection_node "1" "10"] true;
   detections_page [detection_node "0" "5"] false;
   detections_page [detection_node "4" "40"; detection_node "3" "30"] false;
   detections_page [detection_node "4" "40"] false].

Definition seeded_world : World :=
  snd (sync_detections read_instant read_instant_polars show_id first_pick input_order
         "7" None (fresh_world station_script)).

Definition synced_world : World :=
  snd (sync_detections read_instant read_instant_polars show_id first_pick input_order
         "7" None seeded_world).

(** The increment over the seeded cache: five rows, ids distinct,
    timestamps ascending. *)
Lemma sync_detections_invariant_witness :
  exists df w',
    sync_detections read_instant read_instant_polars show_id first_pick input_order
      "7" None seeded_world
    = (Ok df, w')
    /\ map (fun r => cell r "id") (rows df)
       = [VStr "0"; VStr "1"; VStr "2"; VStr "3"; VStr "4"]
    /\ distinct_ids df /\ timestamps_ascending df.
Proof.
  exists (returned no_columns_frame
            (fst (sync_detections read_instant read_instant_polars show_id
                    first_pick input_order "7" None seeded_world))),
         synced_world.
  assert (Hrun : sync_detections read_instant read_instant_polars show_id
                   first_pick input_order "7" None seeded_world
                 = (Ok (returned no_columns_frame
                          (fst (sync_detections read_instant read_instant_polars show_id
                                  first_pick input_order "7" None seeded_world))),
                    synced_world)) by (by_evaluation).
  split; [exact Hrun|]. split; [by_evaluation|].
  destruct (sync_detections_invariant read_instant read_instant_polars show_id
              first_pick input_order "7" None seeded_world _ _ Hrun)
    as (stop_before & new_data & w1 & Hstop & Hfetch & Hcase).
  assert (Hboundary : cache_boundary (ensure_data_dir seeded_world) = Ok (Some 30))
    by (by_evaluation).
  rewrite Hboundary in Hstop. injection Hstop as <-.
  assert (Hnews : (0 <? height new_data)%nat = true).
  { change (0 <? height new_data)%nat
      with (match fst (@Ok DataFrame new_data, w1) with
            | Ok d => (0 <? height d)%nat
            | Raise _ => false
            end).
    rewrite <- Hfetch. by_evaluation. }
  assert (Hcache : match cached_detections (ensure_data_dir seeded_world) with
                   | Some _ => true
                   | None => false
                   end = true) by (by_evaluation).
  destruct (cached_detections (ensure_data_dir seeded_world)); [|discriminate Hcache].
  rewrite Hnews in Hcase. exact Hcase.
Defined.

(** The third sync: the newest detection is the cached one, the fetch is
    empty, and the file is written back with the rows it had. *)
Lemma sync_detections_idempotent_without_news_witness :
  exists existing w',
    read_parquet DETECTIONS_PATH synced_world = Some existing
    /\ height existing = 5%nat
    /\ sync_detections read_instant read_instant_polars show_id first_pick input_order
         "7" None synced_world
       = (Ok existing, w')
    /\ read_parquet DETECTIONS_PATH w' = Some existing.
Proof.
  exists (default no_columns_frame (read_parquet DETECTIONS_PATH synced_world)).
  eexists. split; [by_evaluation|].
  split; [by_evaluation|].
  apply (sync_detections_idempotent_without_news read_instant read_instant_polars
           show_id first_pick input_order "7" None synced_world _ (Some 40)
           (returned no_columns_frame
              (fst (get_detections read_instant read_instant_polars show_id
                      (Some "7") 100 1000 (Some 40) None
                      (ensure_data_dir synced_world))))
           (snd (get_detections read_instant read_instant_polars show_id
                   (Some "7") 100 1000 (Some 40) None
                   (ensure_data_dir synced_world)))).
  - by_evaluation.
  - apply Nat.ltb_lt. by_evaluation.
  - by_evaluation.
  - by_evaluation.
  - by_evaluation.
Defined.

(** Four cached detections on two days. *)
Definition cached_row (id species name : string) (ts : Z) : row :=
  list_to_map [("id", VStr id); ("timestamp", VDatetime ts);
               ("speciesId", VStr species); ("commonName", VStr name)].

Definition two_days : DataFrame :=
  mkFrame [("id", Utf8); ("timestamp", Datetime); ("speciesId", Utf8);
           ("commonName", Utf8)]
          [cached_row "a" "sp1" "Robin" 10;
           cached_row "b" "sp2" "Wren" 20;
           cached_row "c" "sp1" "Robin" 30;
           cached_row "d" "sp1" "Robin" (MICROSECONDS_PER_DAY + 5)].

(** Day 0 has two robins and a wren, total 3; day 1 has one robin. *)
Lemma daily_counts_sum_to_daily_total_witness :
  exists out,
    compute_daily_detection_counts day_in_year input_order 0 two_days None = Ok out
    /\ map (fun r => (cell r "date", cell r "commonName",
                      cell r "count", cell r "dailyTotal")) (rows out)
       = [(VDate 0, VStr "Robin", VInt 2, VInt 3);
          (VDate 0, VStr "Wren", VInt 1, VInt 3);
          (VDate 1, VStr "Robin", VInt 1, VInt 1)]
    /\ (forall r d,
           r ∈ rows out ->
           cell r "date" = VDate d ->
           cell r "dailyTotal" = VInt (date_total (VDate d) (rows out))).
Proof.
  exists (returned no_columns_frame
            (compute_daily_detection_counts day_in_year input_order 0 two_days None)).
  assert (Hrun : compute_daily_detection_counts day_in_year input_order 0 two_days None
                 = Ok (returned no_columns_frame
                         (compute_daily_detection_counts day_in_year input_order 0 two_days None)))
    by (by_evaluation).
  split; [exact Hrun|]. split; [by_evaluation|].
  exact (proj1 (daily_counts_sum_to_daily_total day_in_year input_order 0 two_days None _ Hrun)).
Defined.

(** The bulk listing knows species A; the detections also name B. *)
Definition top_species_entry (id name image : string) : value :=
  VStruct [("speciesId", VStr id);
           ("count", VInt 3);
           ("averageProbability", VNull);
           ("breakdown", VNull);
           ("species",
            VStruct [("commonName", VStr name);
                     ("scientificName", VStr "sci");
                     ("imageUrl", VStr image);
                     ("thumbnailUrl", VStr "thumb");
                     ("color", VStr "red");
                     ("ebirdUrl", VStr "ebird");
                     ("wikipediaSummary", VStr "wiki")])].

Definition bulk_world : World :=
  fresh_world
    [HttpJson (VStruct [("data",
       VStruct [("station",
         VStruct [("topSpecies", VList [top_species_entry "A" "Robin" "bulk.png"])])])])].

Definition meta_row (id name image : string) : row :=
  list_to_map [("speciesId", VStr id); ("commonName", VStr name);
               ("scientificName", VStr "sci"); ("imageUrl", VStr image);
               ("thumbnailUrl", VStr "thumb"); ("color", VStr "red");
               ("ebirdUrl", VStr "ebird"); ("wikipediaSummary", VStr "wiki")].

(** A by-id lookup that answers with B, as asked, and with A as well. *)
Definition by_id_meta : DataFrame :=
  mkFrame (map (fun c => (c, Utf8)) META_COLS)
          [meta_row "A" "Robin" "byid.png"; meta_row "B" "Wren" "byid.png"].

Definition lookup_by_ids (ids : list value) : M DataFrame := ret by_id_meta.

Definition detected_species : DataFrame :=
  mkFrame [("speciesId", Utf8)]
          [list_to_map [("speciesId", VStr "A")]; list_to_map [("speciesId", VStr "B")]].

(** The steps of the refresh on [bulk_world]: the bulk result, and for a
    library that picks by [pick], the bulk metadata and the merge. *)
Definition bulk_listing : result DataFrame * World :=
  get_top_species show_id (Some "7") VNull 1000 (ensure_data_dir bulk_world).

Definition bulk_result : DataFrame := returned no_columns_frame (fst bulk_listing).

Definition bulk_meta (pick : list row -> nat) : DataFrame :=
  returned no_columns_frame (bulk_species_meta pick input_order bulk_result None).

Definition merged_meta (pick : list row -> nat) : DataFrame :=
  returned no_columns_frame
           (merge_species_meta pick input_order (bulk_meta pick) by_id_meta).




(** A station without data: every listing of every answer is empty. *)
Definition empty_data : value :=
  VStruct
    [("station",
      VStruct [("topSpecies", VList []);
               ("timeOfDayDetectionCounts", VList []);
               ("probabilities", VList []);
               ("detections",
                VStruct [("pageInfo", VStruct [("hasNextPage", VBool false);
                                               ("endCursor", VNull)]);
                         ("nodes", VList [])]);
               ("sensors",
                VStruct [("environmentHistory",
                          VStruct [("pageInfo", VStruct [("hasNextPage", VBool false);
                                                         ("endCursor", VNull)]);
                                   ("nodes", VList [])])])]);
     ("dailyDetectionCounts", VList [])].

Definition silent_world : World :=
  fresh_world [HttpJson (VStruct [("data", empty_data)])].

(** The world after one query on [silent_world]. *)
Definition asked (q : query) (variables : dict) : World :=
  snd (query_graphql q (Some variables) DEFAULT_RETRIES silent_world).

Lemma empty_response_frames_witness :
  get_top_species show_id (Some "7") VNull 100 silent_world
  = (Ok (mkFrame [] []), asked TopSpecies [("id", VStr "7"); ("limit", VInt 100)])
  /\ fst (get_detections read_instant read_instant_polars show_id
            (Some "7") 100 1000 None None silent_world)
     = Ok (mkFrame [("id", Utf8); ("timestamp", Utf8); ("speciesId", Utf8);
                    ("commonName", Utf8); ("scientificName", Utf8);
                    ("confidence", Float64); ("probability", Float64);
                    ("score", Float64); ("certainty", Utf8)] [])
  /\ fst (get_environment_history read_instant_polars show_id
            (Some "7") VNull 1000 100 silent_world)
     = Ok (mkFrame [("timestamp", Utf8); ("temperature", Float64);
                    ("humidity", Float64); ("barometricPressure", Float64);
                    ("soundPressureLevel", Float64); ("aqi", Float64);
                    ("eco2", Float64); ("voc", Float64)] [])
  /\ fst (get_daily_detection_counts read_date show_id (Some "7") VNull silent_world)
     = Ok (mkFrame [("date", Utf8); ("dayOfYear", Int64); ("dailyTotal", Int64);
                    ("speciesId", Utf8); ("commonName", Utf8); ("count", Int64)] [])
  /\ fst (get_time_of_day_counts show_id to_float (Some "7") VNull silent_world)
     = Ok (mkFrame [("speciesId", Utf8); ("commonName", Utf8); ("totalCount", Int64);
                    ("hour", Float64); ("count", Int64)] [])
  /\ fst (get_species_probabilities show_id (Some "7") silent_world)
     = Ok (mkFrame [("speciesId", Utf8); ("commonName", Utf8); ("week", Int64);
                    ("probability", Float64)] []).
Proof.
  destruct (empty_response_frames read_instant read_instant_polars read_date show_id
              to_float)
    as (Htop & Hdet & Henv & Hdaily & Htod & Hprob).
  repeat apply conj.
  - apply (Htop (Some "7") VNull 100 silent_world "7" silent_world empty_data);
      by_evaluation.
  - rewrite (Hdet (Some "7") 100 1000 None None silent_world "7" silent_world
               empty_data (asked Detections (detections_variables "7" 100 VNull))
               (returned VNull (path_get empty_data ["station"; "detections"])) None);
      [reflexivity | by_evaluation | reflexivity | lia | by_evaluation
       | by_evaluation | by_evaluation].
  - rewrite (Henv (Some "7") VNull 1000 100 silent_world "7" silent_world empty_data
               (asked EnvHistory [("id", VStr "7"); ("first", VInt 1000)])
               (returned VNull
                  (path_get empty_data ["station"; "sensors"; "environmentHistory"]))
               (VBool false));
      [reflexivity | by_evaluation | lia | by_evaluation | by_evaluation
       | by_evaluation | by_evaluation | reflexivity].
  - rewrite (Hdaily (Some "7") VNull silent_world "7" silent_world empty_data
               (asked DailyDetections [("stationIds", VList [VStr "7"])]));
      [reflexivity | by_evaluation | by_evaluation | by_evaluation].
  - rewrite (Htod (Some "7") VNull silent_world "7" silent_world empty_data
               (asked TimeOfDay [("id", VStr "7")]));
      [reflexivity | by_evaluation | by_evaluation | by_evaluation].
  - rewrite (Hprob (Some "7") silent_world "7" silent_world empty_data
               (asked Probabilities [("id", VStr "7")]));
      [reflexivity | by_evaluation | by_evaluation | by_evaluation].
Defined.

(** One species with three weeks of probabilities, and a station that
    answers with it. *)
Definition probabilities_entry : value :=
  VStruct [("speciesId", VStr "sp1");
           ("species", VStruct [("commonName", VStr "Robin")]);
           ("weeks", VList [VFloat 1; VFloat 2; VFloat 3])].

Definition probabilities_answer : http_outcome :=
  HttpJson (VStruct [("data",
     VStruct [("station",
       VStruct [("probabilities", VList [probabilities_entry])])])]).

(** A probabilities file written at instant 0, read when the clock shows
    [age]. *)
Definition cached_probabilities : DataFrame :=
  mkFrame [("speciesId", Utf8); ("commonName", Utf8); ("week", Int64);
           ("probability", Float64)]
          [list_to_map [("speciesId", VStr "sp0"); ("commonName", VStr "Wren");
                        ("week", VInt 0); ("probability", VFloat 0)]].

Definition one_day : Z := 24 * 60 * 60 * 1000000.

Definition cache_aged (age : Z) : World :=
  mkWorld (scripted [probabilities_answer]) [] age None (Some "7") ∅ true
          {[ SPECIES_PROBS_PATH := mkFile cached_probabilities 0 ]}.

(** The fetch of the probabilities in a world. *)
Definition probabilities_fetch (w : World) : result DataFrame * World :=
  get_species_probabilities show_id (Some "7") (ensure_data_dir w).

(** A file of two days is served as it is, without a request; a file of
    ten days is replaced by the three rows fetched. *)
Lemma sync_species_probabilities_cache_policy_witness :
  (sync_species_probabilities show_id "7" (cache_aged (2 * one_day))
   = (Ok cached_probabilities, ensure_data_dir (cache_aged (2 * one_day)))
   /\ log (ensure_data_dir (cache_aged (2 * one_day))) = [])
  /\ (exists probs w',
         sync_species_probabilities show_id "7" (cache_aged (10 * one_day))
         = (Ok probs, w')
         /\ height probs = 3%nat
         /\ read_parquet SPECIES_PROBS_PATH w' = Some probs
         /\ length (posts (log w')) = 1%nat).
Proof.
  assert (Hfile : forall age,
             files (cache_aged age) !! SPECIES_PROBS_PATH
             = Some (mkFile cached_probabilities 0)) by (intros age; by_evaluation).
  split.
  - pose proof (sync_species_probabilities_cache_policy show_id "7"
                  (cache_aged (2 * one_day))) as H.
    cbv zeta in H. rewrite Hfile in H.
    assert (Hage : (clock (cache_aged (2 * one_day))
                    - mtime (mkFile cached_probabilities 0)
                    <? 7 * (24 * 60 * 60 * 1000000)) = true) by by_evaluation.
    rewrite Hage in H. destruct H as (Hrun & Hlog & _).
    split; [exact Hrun | by_evaluation].
  - pose proof (sync_species_probabilities_cache_policy show_id "7"
                  (cache_aged (10 * one_day))) as H.
    cbv zeta in H. rewrite Hfile in H.
    assert (Hage : (clock (cache_aged (10 * one_day))
                    - mtime (mkFile cached_probabilities 0)
                    <? 7 * (24 * 60 * 60 * 1000000)) = false) by by_evaluation.
    rewrite Hage in H.
    assert (Hfetch : get_species_probabilities show_id (Some "7")
                       (ensure_data_dir (cache_aged (10 * one_day)))
                     = (Ok (returned no_columns_frame
                              (fst (probabilities_fetch (cache_aged (10 * one_day))))),
                        snd (probabilities_fetch (cache_aged (10 * one_day)))))
      by by_evaluation.
    rewrite Hfetch in H.
    assert (Hrows : (0 <? height (returned no_columns_frame
                                    (fst (probabilities_fetch
                                            (cache_aged (10 * one_day))))))%nat
                    = true) by by_evaluation.
    rewrite Hrows in H. destruct H as [Hrun Hread].
    eexists. eexists. split; [exact Hrun|].
    split; [by_evaluation|]. split; [exact Hread | by_evaluation].
Defined.

(** ** Further runs *)

(** With no budget nothing is posted, whatever the server would say. *)
Lemma query_graphql_without_budget_witness :
  query_graphql Detections None 0 flaky_world = (Ok VNull, flaky_world).
Proof.
  apply query_graphql_without_budget. lia.
Defined.

(** On [flaky_world] the log of a call is its posts with the backoff
    sleeps between them. *)
Lemma query_graphql_trace_witness :
  let req := build_request Detections None flaky_world in
  exists n,
    (1 <= n)%nat
    /\ Z.of_nat n <= 3
    /\ log (snd (query_graphql Detections None 3 flaky_world))
       = (log flaky_world
          ++ flat_map (fun i => [Post req; Sleep (2 ^ Z.of_nat i)]) (seq 0 (n - 1))
          ++ [Post req])%list.
Proof.
  apply (query_graphql_trace Detections None 3 flaky_world). lia.
Defined.

(** Two nodes scanned without boundary: two rows, in page order. *)
Lemma scan_nodes_without_boundary_witness :
  exists page_rows,
    rmap detection_row [detection_node "3" "30"; detection_node "2" "20"]
    = Ok page_rows
    /\ map (fun d => dict_get d "id") page_rows = [VStr "3"; VStr "2"].
Proof.
  destruct (scan_nodes_without_boundary read_instant
              [detection_node "3" "30"; detection_node "2" "20"] [] first_two false)
    as (_ & page_rows & Hrows & _ & Hids); [by_evaluation|].
  exists page_rows. split; [exact Hrows|]. rewrite Hids. reflexivity.
Defined.

Lemma probability_rows_weeks_witness :
  exists rows_,
    probability_rows probabilities_entry = Ok rows_
    /\ length rows_ = 3%nat
    /\ map (fun d => dict_get d "week") rows_ = [VInt 0; VInt 1; VInt 2]
    /\ map (fun d => dict_get d "probability") rows_ = [VFloat 1; VFloat 2; VFloat 3].
Proof.
  exists (returned [] (probability_rows probabilities_entry)).
  assert (Hrun : probability_rows probabilities_entry
                 = Ok (returned [] (probability_rows probabilities_entry)))
    by by_evaluation.
  split; [exact Hrun|].
  apply (probability_rows_weeks probabilities_entry [VFloat 1; VFloat 2; VFloat 3]);
    [reflexivity | exact Hrun].
Defined.

(** The bulk entry for A has a null breakdown. *)
Lemma top_species_row_without_breakdown_witness :
  exists d,
    top_species_row (top_species_entry "A" "Robin" "bulk.png") = Ok d
    /\ dict_get d "almostCertain" = VInt 0
    /\ dict_get d "veryLikely" = VInt 0
    /\ dict_get d "uncertain" = VInt 0
    /\ dict_get d "unlikely" = VInt 0.
Proof.
  exists (returned [] (top_species_row (top_species_entry "A" "Robin" "bulk.png"))).
  assert (Hrun : top_species_row (top_species_entry "A" "Robin" "bulk.png")
                 = Ok (returned []
                         (top_species_row (top_species_entry "A" "Robin" "bulk.png"))))
    by by_evaluation.
  split; [exact Hrun|].
  apply (top_species_row_without_breakdown (top_species_entry "A" "Robin" "bulk.png")
           VNull); [reflexivity | reflexivity | exact Hrun].
Defined.

(** The world after the metadata of A and B has been synced. *)
Definition meta_world : World :=
  snd (sync_species_meta show_id lookup_by_ids first_pick input_order "7"
         detected_species bulk_world).

(** A second sync over the same detections finds nothing missing. *)
Lemma sync_species_meta_up_to_date_witness :
  sync_species_meta show_id lookup_by_ids first_pick input_order "7" detected_species
                    meta_world
  = (Ok (merged_meta first_pick), ensure_data_dir meta_world)
  /\ height (merged_meta first_pick) = 2%nat
  /\ log (ensure_data_dir meta_world) = log meta_world.
Proof.
  split; [|split; [by_evaluation | reflexivity]].
  apply (sync_species_meta_up_to_date show_id lookup_by_ids first_pick input_order
           "7" detected_species meta_world ([VStr "A"; VStr "B"], [])).
  - by_evaluation.
  - reflexivity.
  - by_evaluation.
Defined.

(** The first sync leaves its result in the metadata file. *)
Lemma sync_species_meta_persists_witness :
  read_parquet SPECIES_META_PATH meta_world = Some (merged_meta first_pick)
  /\ map (fun r => cell r "speciesId") (rows (merged_meta first_pick))
     = [VStr "A"; VStr "B"].
Proof.
  split; [|by_evaluation].
  apply (sync_species_meta_persists show_id lookup_by_ids first_pick input_order
           "7" detected_species bulk_world).
  by_evaluation.
Defined.




(** A station that answers with the probabilities of one species: the
    first sync fetches three rows; the second is served from the file
    the first one wrote. *)
Definition probabilities_world : World := fresh_world [probabilities_answer].

Definition first_probabilities : result DataFrame * World :=
  sync_species_probabilities show_id "7" probabilities_world.

Lemma sync_species_probabilities_then_cached_witness :
  exists probs w',
    sync_species_probabilities show_id "7" probabilities_world = (Ok probs, w')
    /\ height probs = 3%nat
    /\ sync_species_probabilities show_id "7" w' = (Ok probs, ensure_data_dir w').
Proof.
  exists (returned no_columns_frame (fst first_probabilities)), (snd first_probabilities).
  assert (Hrun : sync_species_probabilities show_id "7" probabilities_world
                 = (Ok (returned no_columns_frame (fst first_probabilities)),
                    snd first_probabilities)) by by_evaluation.
  split; [exact Hrun|]. split; [by_evaluation|].
  apply (sync_species_probabilities_then_cached show_id "7" probabilities_world).
  - exact Hrun.
  - apply Nat.ltb_lt. by_evaluation.
Defined.

(** A mean that plays no part in these runs. *)
Definition no_mean (cells : list value) : value := VNull.

(** A hundred days later, the last week holds none of the four cached
    detections. *)
Lemma aggregations_outside_period_witness :
  compute_top_species no_mean input_order (100 * MICROSECONDS_PER_DAY) two_days no_columns_frame
                      (Some 7) 10
  = Ok (empty_frame TOP_SPECIES_SCHEMA)
  /\ compute_daily_detection_counts day_in_year input_order (100 * MICROSECONDS_PER_DAY) two_days
                                    (Some 7)
     = Ok (empty_frame LOCAL_DAILY_COUNTS_SCHEMA).
Proof.
  apply (aggregations_outside_period no_mean day_in_year input_order (100 * MICROSECONDS_PER_DAY)
           two_days no_columns_frame (Some 7) 10
           (returned no_columns_frame
              (filter_period (100 * MICROSECONDS_PER_DAY) (Some 7) two_days)));
    by_evaluation.
Defined.

(** The three daily counts of [two_days] add up to its four detections. *)
Lemma daily_counts_cover_detections_witness :
  exists out,
    compute_daily_detection_counts day_in_year input_order 0 two_days None = Ok out
    /\ map (fun r => cell r "count") (rows out) = [VInt 2; VInt 1; VInt 1]
    /\ fold_right Z.add 0 (map (fun r => int_of (cell r "count")) (rows out)) = 4.
Proof.
  exists (returned no_columns_frame
            (compute_daily_detection_counts day_in_year input_order 0 two_days None)).
  assert (Hrun : compute_daily_detection_counts day_in_year input_order 0 two_days None
                 = Ok (returned no_columns_frame
                         (compute_daily_detection_counts day_in_year input_order 0 two_days None)))
    by by_evaluation.
  split; [exact Hrun|]. split; [by_evaluation|].
  apply (daily_counts_cover_detections day_in_year input_order 0 two_days None two_days);
    [reflexivity | exact Hrun].
Defined.

(** The latest of the four seeded detections is the boundary of the
    next sync. *)
Lemma cache_boundary_latest_witness :
  cache_boundary seeded_world = Ok (Some 30)
  /\ exists ex,
       cached_detections seeded_world = Some ex
       /\ (exists r, r ∈ rows ex /\ cell r "timestamp" = VDatetime 30)
       /\ forall r t', r ∈ rows ex -> cell r "timestamp" = VDatetime t' -> t' <= 30.
Proof.
  split; [by_evaluation|].
  apply cache_boundary_latest. by_evaluation.
Defined.

(** A station that reports detection 3 a second time, later. *)
Definition revised_script : list http_outcome :=
  [detections_page [detection_node "3" "30"; detection_node "2" "20";
                    detection_node "1" "10"] true;
   detections_page [detection_node "0" "5"] false;
   detections_page [detection_node "3" "40"; detection_node "2" "20"] false].

Definition revised_world : World :=
  snd (sync_detections read_instant read_instant_polars show_id first_pick input_order
         "7" None (fresh_world revised_script)).

Definition revised_cache : DataFrame :=
  default no_columns_frame (read_parquet DETECTIONS_PATH revised_world).

Definition revised_fetch : result DataFrame * World :=
  get_detections read_instant read_instant_polars show_id (Some "7") 100 1000
                 (Some 30) None (ensure_data_dir revised_world).

Definition revised_sync : result DataFrame * World :=
  sync_detections read_instant read_instant_polars show_id first_pick input_order
                  "7" None revised_world.

(** The merge keeps four ids and the fetched row for id 3. *)
Lemma sync_detections_fetched_wins_witness :
  let new_data := returned no_columns_frame (fst revised_fetch) in
  let df := returned no_columns_frame (fst revised_sync) in
  revised_sync = (Ok df, snd revised_sync)
  /\ map (fun r => (cell r "id", cell r "timestamp")) (rows revised_cache)
     = [(VStr "0", VDatetime 5); (VStr "1", VDatetime 10);
        (VStr "2", VDatetime 20); (VStr "3", VDatetime 30)]
  /\ map (fun r => (cell r "id", cell r "timestamp")) (rows new_data)
     = [(VStr "3", VDatetime 40)]
  /\ map (fun r => (cell r "id", cell r "timestamp")) (rows df)
     = [(VStr "0", VDatetime 5); (VStr "1", VDatetime 10);
        (VStr "2", VDatetime 20); (VStr "3", VDatetime 40)]
  /\ (forall r n, r ∈ rows df -> n ∈ rows new_data -> cell n "id" = cell r "id" ->
        exists n', n' ∈ rows new_data
                   /\ forall c, c ∈ columns new_data -> cell r c = cell n' c)
  /\ (forall r, r ∈ rows revised_cache \/ r ∈ rows new_data ->
        exists r', r' ∈ rows df /\ cell r' "id" = cell r "id").
Proof.
  intros new_data df.
  assert (Hrun : revised_sync = (Ok df, snd revised_sync)) by by_evaluation.
  split; [exact Hrun|]. split; [by_evaluation|]. split; [by_evaluation|].
  split; [by_evaluation|].
  apply (sync_detections_fetched_wins read_instant read_instant_polars show_id
           first_pick input_order "7" None revised_world revised_cache (Some 30)
           new_data (snd revised_fetch) df (snd revised_sync)).
  - by_evaluation.
  - apply Nat.ltb_lt. by_evaluation.
  - by_evaluation.
  - by_evaluation.
  - apply Nat.ltb_lt. by_evaluation.
  - by_evaluation.
  - by_evaluation.
  - exact Hrun.
Defined.

(** Sensor readings: a first listing of two, then a listing that
    repeats the second with another temperature and adds a third. *)
Definition reading_node (ts : string) (temperature : Z) : value :=
  VStruct [("timestamp", VStr ts); ("temperature", VFloat temperature);
           ("humidity", VFloat 0); ("barometricPressure", VFloat 0);
           ("soundPressureLevel", VFloat 0); ("aqi", VFloat 0);
           ("eco2", VFloat 0); ("voc", VFloat 0)].

Definition readings_page (nodes : list value) : http_outcome :=
  HttpJson (VStruct [("data",
     VStruct [("station",
       VStruct [("sensors",
         VStruct [("environmentHistory",
           VStruct [("pageInfo", VStruct [("hasNextPage", VBool false);
                                          ("endCursor", VNull)]);
                    ("nodes", VList nodes)])])])])]).

Definition sensor_script : list http_outcome :=
  [readings_page [reading_node "10" 1; reading_node "20" 2];
   readings_page [reading_node "20" 5; reading_node "30" 3]].

Definition logged_world : World :=
  snd (sync_environment read_instant_polars show_id show_instant first_pick input_order
         "7" (fresh_world sensor_script)).

Definition logged_cache : DataFrame :=
  default no_columns_frame (read_parquet ENVIRONMENT_PATH logged_world).

(** The period of the second sync: from one second after reading 20. *)
Definition second_period : value :=
  VStruct [("from", VStr "1000020"); ("to", VStr "0")].

Definition second_fetch : result DataFrame * World :=
  get_environment_history read_instant_polars show_id (Some "7") second_period
                          1000 400 (ensure_data_dir logged_world).

Definition second_sync : result DataFrame * World :=
  sync_environment read_instant_polars show_id show_instant first_pick input_order
                   "7" logged_world.

(** The second sync merges: three readings, timestamps distinct and
    ascending. *)
Lemma sync_environment_invariant_witness :
  let df := returned no_columns_frame (fst second_sync) in
  second_sync = (Ok df, snd second_sync)
  /\ map (fun r => cell r "timestamp") (rows df)
     = [VDatetime 10; VDatetime 20; VDatetime 30]
  /\ distinct_timestamps df /\ timestamps_ascending df.
Proof.
  intros df.
  assert (Hrun : second_sync = (Ok df, snd second_sync)) by by_evaluation.
  split; [exact Hrun|]. split; [by_evaluation|].
  destruct (sync_environment_invariant read_instant_polars show_id show_instant
              first_pick input_order "7" logged_world _ _ Hrun)
    as (period & new_data & w1 & Hperiod & Hfetch & Hcase).
  assert (Hsecond : environment_period show_instant (ensure_data_dir logged_world)
                    = Ok second_period) by by_evaluation.
  rewrite Hsecond in Hperiod. injection Hperiod as <-.
  assert (Hnews : (0 <? height new_data)%nat = true).
  { change (0 <? height new_data)%nat
      with (match fst (@Ok DataFrame new_data, w1) with
            | Ok d => (0 <? height d)%nat
            | Raise _ => false
            end).
    rewrite <- Hfetch. by_evaluation. }
  assert (Hcache : match cached_environment (ensure_data_dir logged_world) with
                   | Some _ => true
                   | None => false
                   end = true) by by_evaluation.
  destruct (cached_environment (ensure_data_dir logged_world)); [|discriminate Hcache].
  rewrite Hnews in Hcase. exact Hcase.
Defined.

(** Reading 20 was fetched again: the merged table has its fetched row,
    with temperature 5, and every timestamp of both sides. *)
Lemma sync_environment_fetched_wins_witness :
  let new_data := returned no_columns_frame (fst second_fetch) in
  let df := returned no_columns_frame (fst second_sync) in
  second_sync = (Ok df, snd second_sync)
  /\ map (fun r => (cell r "timestamp", cell r "temperature")) (rows logged_cache)
     = [(VDatetime 10, VFloat 1); (VDatetime 20, VFloat 2)]
  /\ map (fun r => (cell r "timestamp", cell r "temperature")) (rows new_data)
     = [(VDatetime 20, VFloat 5); (VDatetime 30, VFloat 3)]
  /\ map (fun r => (cell r "timestamp", cell r "temperature")) (rows df)
     = [(VDatetime 10, VFloat 1); (VDatetime 20, VFloat 5); (VDatetime 30, VFloat 3)]
  /\ (forall r, r ∈ rows df -> r ∈ rows logged_cache \/ r ∈ rows new_data)
  /\ (forall r n, r ∈ rows df -> n ∈ rows new_data ->
                  cell n "timestamp" = cell r "timestamp" -> r ∈ rows new_data)
  /\ (forall r, r ∈ rows logged_cache \/ r ∈ rows new_data ->
                exists r', r' ∈ rows df
                           /\ cell r' "timestamp" = cell r "timestamp").
Proof.
  intros new_data df.
  assert (Hrun : second_sync = (Ok df, snd second_sync)) by by_evaluation.
  split; [exact Hrun|]. split; [by_evaluation|]. split; [by_evaluation|].
  split; [by_evaluation|].
  apply (sync_environment_fetched_wins read_instant_polars show_id show_instant
           first_pick input_order "7" logged_world logged_cache second_period
           new_data (snd second_fetch) df (snd second_sync)).
  - by_evaluation.
  - apply Nat.ltb_lt. by_evaluation.
  - by_evaluation.
  - by_evaluation.
  - apply Nat.ltb_lt. by_evaluation.
  - exact Hrun.
Defined.

(** Four detections in two hours: a robin and a wren in hour 0, two
    robins in hour 1. *)
Definition two_hours : DataFrame :=
  mkFrame [("id", Utf8); ("timestamp", Datetime); ("speciesId", Utf8);
           ("commonName", Utf8)]
          [cached_row "a" "sp1" "Robin" 10;
           cached_row "b" "sp2" "Wren" 20;
           cached_row "c" "sp1" "Robin" (MICROSECONDS_PER_HOUR + 5);
           cached_row "d" "sp1" "Robin" (MICROSECONDS_PER_HOUR + 9)].

Definition hourly_counts : DataFrame :=
  returned no_columns_frame (compute_time_of_day_counts whole_float input_order two_hours).

Lemma time_of_day_total_is_species_total_witness :
  compute_time_of_day_counts whole_float input_order two_hours = Ok hourly_counts
  /\ map (fun r => (cell r "speciesId", cell r "hour", cell r "count",
                    cell r "totalCount")) (rows hourly_counts)
     = [(VStr "sp1", VFloat 0, VInt 1, VInt 3);
        (VStr "sp1", VFloat 1, VInt 2, VInt 3);
        (VStr "sp2", VFloat 0, VInt 1, VInt 1)]
  /\ (forall r,
         r ∈ rows hourly_counts ->
         is_null (cell r "speciesId") = false ->
         cell r "totalCount"
         = VInt (species_total (cell r "speciesId") (rows hourly_counts))).
Proof.
  assert (Hrun : compute_time_of_day_counts whole_float input_order two_hours = Ok hourly_counts)
    by by_evaluation.
  split; [exact Hrun|]. split; [by_evaluation|].
  exact (time_of_day_total_is_species_total whole_float input_order two_hours hourly_counts Hrun).
Defined.

Lemma time_of_day_counts_cover_detections_witness :
  compute_time_of_day_counts whole_float input_order two_hours = Ok hourly_counts
  /\ fold_right Z.add 0 (map (fun r => int_of (cell r "count")) (rows hourly_counts)) = 4
  /\ (forall r, r ∈ rows hourly_counts ->
        cell r "hour" = VNull
        \/ exists h, 0 <= h < 24 /\ cell r "hour" = VFloat (whole_float h)).
Proof.
  assert (Hrun : compute_time_of_day_counts whole_float input_order two_hours = Ok hourly_counts)
    by by_evaluation.
  split; [exact Hrun|].
  exact (time_of_day_counts_cover_detections whole_float input_order two_hours hourly_counts Hrun).
Defined.
